(** * Anti-Paste Guard: event pipeline, anomaly rules and the tamper-evident
      segment store, embedded from the Python sources.

    Conventions of the embedding.
    - A Python [float] is a binary64 value: Rocq's primitive [float].
    - A Python [int] is a [Z]; [bytes] is a [list byte]; [str] is a [string]
      (its UTF-8 bytes; every string that reaches a header is plain ASCII).
    - A [dict] whose order is observable (JSON output) is an association list
      in insertion order; a [set] is a [gset]; the verifier's per-session
      table, whose order is never observed, is a [gmap].
    - Exceptions are values of [result]; reads of the clock, of the random
      source and of the database's health are explicit arguments. *)

From Stdlib Require Import ZArith List String Ascii Floats Lia Bool.
From Stdlib Require Import DecimalString DecimalZ DecimalN DecimalPos.
From Stdlib.Strings Require Import Byte.
From stdpp Require Import gmap strings sorting.
Import ListNotations.

Set Warnings "-inexact-float,-register-all".
Open Scope string_scope.
Open Scope list_scope.
Open Scope Z_scope.

(** ** Exceptions as values *)

Inductive result (E A : Type) : Type :=
| Ok (a : A)
| Raise (e : E).
Arguments Ok {E A} a.
Arguments Raise {E A} e.

(** ** core/utils/queueing.py: the bounded event channel *)

Module Queueing.

(** [queue.Queue(maxsize)]: a FIFO of [items]; [maxsize <= 0] means
    unbounded. *)
Record Queue (A : Type) : Type := mkQueue { maxsize : Z; items : list A }.
Arguments mkQueue {A} maxsize items.
Arguments maxsize {A} q.
Arguments items {A} q.

Inductive QueueExn : Type := Full | Empty.

Definition qsize {A} (q : Queue A) : Z := Z.of_nat (length (items q)).

(** The test of [Queue.put]: [maxsize > 0 and qsize >= maxsize]. *)
Definition full {A} (q : Queue A) : bool :=
  (0 <? maxsize q) && (maxsize q <=? qsize q).

(** [put_nowait] and [get_nowait] mutate the queue or raise; each returns
    the outcome together with the queue as the call leaves it. *)
Definition put_nowait {A} (q : Queue A) (item : A) : result QueueExn unit * Queue A :=
  if full q then (Raise Full, q)
  else (Ok tt, mkQueue (maxsize q) (items q ++ [item])).

Definition get_nowait {A} (q : Queue A) : result QueueExn A * Queue A :=
  match items q with
  | [] => (Raise Empty, q)
  | x :: rest => (Ok x, mkQueue (maxsize q) rest)
  end.

(** [safe_put]: try; on [Full] drop the oldest (ignoring [Empty]) and
    retry once. The retry is not guarded: its exception would escape. *)
Definition safe_put {A} (q : Queue A) (item : A) : result QueueExn unit * Queue A :=
  match put_nowait q item with
  | (Ok u, q') => (Ok u, q')
  | (Raise Full, q') =>
      let q1 := match get_nowait q' with
                | (Ok _, q1) => q1
                | (Raise Empty, q1) => q1
                | (Raise Full, q1) => q1
                end in
      put_nowait q1 item
  | (Raise Empty, q') => (Raise Empty, q')
  end.

(** The invariant [queue.Queue] maintains: a bounded queue never holds
    more than [maxsize] items. *)
Definition queue_wf {A} (q : Queue A) : Prop :=
  maxsize q <= 0 \/ qsize q <= maxsize q.

End Queueing.

(** ** Python built-ins used by the sources *)

Module Py.

Definition bytes : Type := list byte.

Definition byte_of_Z (z : Z) : byte :=
  match Byte.of_N (Z.to_N (z mod 256)) with Some b => b | None => x00 end.

(** [b"\x00" * n] *)
Definition zeros (n : Z) : bytes := repeat x00 (Z.to_nat n).

(** [b[:n]] and [b[-n:]], [b[:-n]] for [n >= 0] (Python clamps). *)
Definition take (n : Z) (b : bytes) : bytes := firstn (Z.to_nat n) b.
Definition drop_last (n : Z) (b : bytes) : bytes :=
  firstn (length b - Z.to_nat n)%nat b.
Definition take_last (n : Z) (b : bytes) : bytes :=
  skipn (length b - Z.to_nat n)%nat b.

Definition blen (b : bytes) : Z := Z.of_nat (length b).

(** [str.encode("utf-8")] / [bytes.decode("utf-8")] on the model's
    strings, which already are UTF-8 byte sequences. *)
Definition encode (s : string) : bytes := list_byte_of_string s.
Definition decode (b : bytes) : string := string_of_list_byte b.

(** *** [bytes.hex] and [bytes.fromhex] *)

Definition hexdigit (n : N) : ascii :=
  match n with
  | 0 => "0" | 1 => "1" | 2 => "2" | 3 => "3" | 4 => "4" | 5 => "5"
  | 6 => "6" | 7 => "7" | 8 => "8" | 9 => "9" | 10 => "a" | 11 => "b"
  | 12 => "c" | 13 => "d" | 14 => "e" | _ => "f"
  end%N%char.

Definition hexval (c : ascii) : option N :=
  let n := N_of_ascii c in
  if ((48 <=? n) && (n <=? 57))%N then Some (n - 48)%N
  else if ((97 <=? n) && (n <=? 102))%N then Some (n - 87)%N
  else if ((65 <=? n) && (n <=? 70))%N then Some (n - 55)%N
  else None.

Definition hex_byte (b : byte) : string :=
  let n := Byte.to_N b in
  String (hexdigit (n / 16)) (String (hexdigit (n mod 16)) "").

Fixpoint hex (b : bytes) : string :=
  match b with
  | [] => ""
  | x :: r => hex_byte x +:+ hex r
  end.

Definition is_space (c : ascii) : bool :=
  let n := N_of_ascii c in ((n =? 32) || ((9 <=? n) && (n <=? 13)))%N.

(** [bytes.fromhex]: two digits per byte, ASCII whitespace allowed
    between bytes; anything else is a [ValueError] ([None]). *)
Fixpoint fromhex (s : string) : option bytes :=
  match s with
  | "" => Some []
  | String a r =>
      if is_space a then fromhex r
      else match r with
           | "" => None
           | String b r' =>
               match hexval a, hexval b with
               | Some h, Some l =>
                   match Byte.of_N (h * 16 + l), fromhex r' with
                   | Some x, Some tl => Some (x :: tl)
                   | _, _ => None
                   end
               | _, _ => None
               end
           end
  end.

(** [str(int)] *)
Definition str_of_int (z : Z) : string := NilZero.string_of_int (Z.to_int z).

(** *** Insertion-ordered dictionaries with string keys *)

Definition dict (V : Type) : Type := list (string * V).

Fixpoint dict_get {V} (k : string) (d : dict V) : option V :=
  match d with
  | [] => None
  | (k', v) :: r => if String.eqb k k' then Some v else dict_get k r
  end.

(** [d[k] = v]: an existing key keeps its position, a new key goes last. *)
Fixpoint dict_set {V} (k : string) (v : V) (d : dict V) : dict V :=
  match d with
  | [] => [(k, v)]
  | (k', v') :: r =>
      if String.eqb k k' then (k', v) :: r else (k', v') :: dict_set k v r
  end.

(** [d.update(d2)] *)
Definition dict_update {V} (d d2 : dict V) : dict V :=
  fold_left (fun acc kv => dict_set (fst kv) (snd kv) acc) d2 d.

(** [d.pop(k, None)] *)
Definition dict_pop {V} (k : string) (d : dict V) : dict V :=
  List.filter (fun kv => negb (String.eqb k (fst kv))) d.

Definition keys {V} (d : dict V) : list string := map fst d.

(** [sorted(d.items())] for string keys (code-point order). *)
Definition key_le {V} (a b : string * V) : Prop :=
  Is_true (String.leb (fst a) (fst b)).
#[export] Instance key_le_dec {V} (a b : string * V) : Decision (key_le a b).
Proof. unfold key_le. apply _. Defined.
Definition sorted_items {V} (d : dict V) : dict V := merge_sort key_le d.

(** [sorted(s)] for a set of strings. *)
Definition str_le (a b : string) : Prop := Is_true (String.leb a b).
#[export] Instance str_le_dec (a b : string) : Decision (str_le a b).
Proof. unfold str_le. apply _. Defined.
Definition sorted_set (s : gset string) : list string :=
  merge_sort str_le (elements s).

(** Truthiness of an [Optional[str]] and of an [Optional[float]]. *)
Definition truthy_str (o : option string) : bool :=
  match o with Some s => negb (String.eqb s "") | None => false end.
Definition truthy_float (o : option float) : bool :=
  match o with Some f => negb (PrimFloat.eqb f 0%float) | None => false end.

(** [max(a, b)] on floats: [b] if [b > a] else [a]. *)
Definition fmax (a b : float) : float := if PrimFloat.ltb a b then b else a.

End Py.

(** ** Library functions taken as an interface

    The interpreter's float formatting and numpy's reductions are outside
    the repository; the model is parametric in them. *)

Class PyRuntime : Type := {
  (** [float.__repr__], as [json.dumps] prints a float *)
  float_repr : float -> string;
  (** [format(x, ".{p}f")] *)
  format_f : nat -> float -> string;
  (** [round(x, n)] *)
  round_nd : float -> Z -> float;
  (** [numpy.ndarray.mean()] and [.std(ddof=1)] *)
  np_mean : list float -> float;
  np_std_ddof1 : list float -> float
}.

(** ** The [json] module, on the values the sources serialize *)

Module Json.
Import Py.

Inductive json : Type :=
| JNull
| JInt (z : Z)
| JFloat (f : float)
| JStr (s : string)
| JList (l : list json)
| JDict (d : list (string * json)).

(** [separators=(item, key)]; the default is [(", ", ": ")]. *)
Record separators : Type := { item_sep : string; key_sep : string }.
Definition default_seps : separators := {| item_sep := ", "; key_sep := ": " |}.
Definition compact_seps : separators := {| item_sep := ","; key_sep := ":" |}.

Definition hex4 (n : N) : string :=
  String (hexdigit (n / 4096)) (String (hexdigit ((n / 256) mod 16))
    (String (hexdigit ((n / 16) mod 16)) (String (hexdigit (n mod 16)) ""))).

Definition quote : string := String (ascii_of_N 34) "".

(** [ensure_ascii] escaping of one character. *)
Definition esc_char (c : ascii) : string :=
  let n := N_of_ascii c in
  if (n =? 34)%N then String "\" quote
  else if (n =? 92)%N then "\\"
  else if (n =? 10)%N then "\n"
  else if (n =? 13)%N then "\r"
  else if (n =? 9)%N then "\t"
  else if (n =? 8)%N then "\b"
  else if (n =? 12)%N then "\f"
  else if ((n <? 32) || (126 <? n))%N then "\u" +:+ hex4 n
  else String c "".

Fixpoint esc_body (s : string) : string :=
  match s with
  | "" => ""
  | String c r => esc_char c +:+ esc_body r
  end.

Definition enc_str (s : string) : string := quote +:+ esc_body s +:+ quote.

Fixpoint enc `{PyRuntime} (sep : separators) (v : json) : string :=
  match v with
  | JNull => "null"
  | JInt z => str_of_int z
  | JFloat f => float_repr f
  | JStr s => enc_str s
  | JList l => "[" +:+ String.concat (item_sep sep) (map (enc sep) l) +:+ "]"
  | JDict d =>
      "{" +:+ String.concat (item_sep sep)
                (map (fun kv => enc_str (fst kv) +:+ key_sep sep +:+ enc sep (snd kv)) d)
          +:+ "}"
  end.

(** [json.dumps(d)], [json.dumps(d, separators=(",", ":"))] and the latter
    with [sort_keys=True] (the dictionaries sorted here hold no nested
    dictionary). *)
Definition dumps `{PyRuntime} (d : dict json) : string := enc default_seps (JDict d).
Definition dumps_compact `{PyRuntime} (d : dict json) : string :=
  enc compact_seps (JDict d).
Definition dumps_compact_sorted `{PyRuntime} (d : dict json) : string :=
  enc compact_seps (JDict (sorted_items d)).

(** *** [json.loads], on the fragment the verifier reads back

    One object whose values are integers or strings (what a segment
    header holds); anything else is a decode error ([None]). Leading
    zeros of a number are tolerated. *)

Definition is_ws (c : ascii) : bool :=
  let n := N_of_ascii c in ((n =? 32) || (n =? 9) || (n =? 10) || (n =? 13))%N.

Fixpoint skip_ws (s : string) : string :=
  match s with
  | "" => ""
  | String c r => if is_ws c then skip_ws r else s
  end.

Definition is_digit (c : ascii) : bool :=
  let n := N_of_ascii c in ((48 <=? n) && (n <=? 57))%N.

Definition hex4_val (a b c d : ascii) : option N :=
  match hexval a, hexval b, hexval c, hexval d with
  | Some x, Some y, Some z, Some w => Some (((x * 16 + y) * 16 + z) * 16 + w)%N
  | _, _, _, _ => None
  end.

Definition push (c : ascii) (r : option (string * string)) : option (string * string) :=
  match r with
  | Some (s, rest) => Some (String c s, rest)
  | None => None
  end.

Definition unescape (e : ascii) : option ascii :=
  let n := N_of_ascii e in
  if (n =? 34)%N then Some e
  else if (n =? 92)%N then Some e
  else if (n =? 47)%N then Some e
  else if (n =? 98)%N then Some (ascii_of_N 8)
  else if (n =? 102)%N then Some (ascii_of_N 12)
  else if (n =? 110)%N then Some (ascii_of_N 10)
  else if (n =? 114)%N then Some (ascii_of_N 13)
  else if (n =? 116)%N then Some (ascii_of_N 9)
  else None.

(** The characters of a string literal after its opening quote, up to
    the closing quote; returns the decoded string and the rest. *)
Fixpoint parse_str_body (s : string) : option (string * string) :=
  match s with
  | "" => None
  | String c r =>
      let n := N_of_ascii c in
      if (n =? 34)%N then Some ("", r)
      else if (n =? 92)%N then
        match r with
        | "" => None
        | String e r' =>
            if (N_of_ascii e =? 117)%N then
              match r' with
              | String h1 (String h2 (String h3 (String h4 r''))) =>
                  match hex4_val h1 h2 h3 h4 with
                  | Some v =>
                      if (v <? 256)%N then push (ascii_of_N v) (parse_str_body r'')
                      else None
                  | None => None
                  end
              | _ => None
              end
            else
              match unescape e with
              | Some c' => push c' (parse_str_body r')
              | None => None
              end
        end
      else if (n <? 32)%N then None
      else push c (parse_str_body r)
  end.

Fixpoint span_digits (s : string) : string * string :=
  match s with
  | "" => ("", "")
  | String c r =>
      if is_digit c then let (d, rest) := span_digits r in (String c d, rest)
      else ("", s)
  end.

Definition parse_nat (s : string) : option (N * string) :=
  let (d, rest) := span_digits s in
  match NilZero.uint_of_string d with
  | Some u =>
      match rest with
      | String c _ =>
          let n := N_of_ascii c in
          if ((n =? 46) || (n =? 101) || (n =? 69))%N then None
          else Some (N.of_uint u, rest)
      | "" => Some (N.of_uint u, rest)
      end
  | None => None
  end.

Definition parse_value (s : string) : option (json * string) :=
  match s with
  | "" => None
  | String c r =>
      let n := N_of_ascii c in
      if (n =? 34)%N then
        match parse_str_body r with
        | Some (v, rest) => Some (JStr v, rest)
        | None => None
        end
      else if (n =? 45)%N then
        match parse_nat r with
        | Some (v, rest) => Some (JInt (- Z.of_N v), rest)
        | None => None
        end
      else
        match parse_nat s with
        | Some (v, rest) => Some (JInt (Z.of_N v), rest)
        | None => None
        end
  end.

Definition parse_key (s : string) : option (string * string) :=
  match s with
  | String c r => if (N_of_ascii c =? 34)%N then parse_str_body r else None
  | "" => None
  end.

Definition expect (k : N) (s : string) : option string :=
  match s with
  | String c r => if (N_of_ascii c =? k)%N then Some r else None
  | "" => None
  end.

(** Members after the opening brace, in textual order. *)
Fixpoint parse_members (fuel : nat) (s : string)
  : option (list (string * json) * string) :=
  match fuel with
  | O => None
  | S fuel' =>
      match parse_key (skip_ws s) with
      | Some (k, r1) =>
          match expect 58 (skip_ws r1) with
          | Some r2 =>
              match parse_value (skip_ws r2) with
              | Some (v, r3) =>
                  match skip_ws r3 with
                  | String c r4 =>
                      if (N_of_ascii c =? 44)%N then
                        match parse_members fuel' r4 with
                        | Some (rest, r5) => Some ((k, v) :: rest, r5)
                        | None => None
                        end
                      else if (N_of_ascii c =? 125)%N then Some ([(k, v)], r4)
                      else None
                  | "" => None
                  end
              | None => None
              end
          | None => None
          end
      | None => None
      end
  end.

Definition parse_object (s : string) : option (list (string * json)) :=
  match expect 123 (skip_ws s) with
  | Some r =>
      match skip_ws r with
      | "" => None
      | String c r' =>
          if (N_of_ascii c =? 125)%N then
            match skip_ws r' with "" => Some [] | _ => None end
          else
            match parse_members (String.length r) r with
            | Some (ms, rest) =>
                match skip_ws rest with "" => Some ms | _ => None end
            | None => None
            end
      end
  | None => None
  end.

(** [json.loads(text)] into a [dict]: a repeated key keeps its first
    position and its last value. *)
Definition loads (s : string) : option (dict json) :=
  match parse_object s with
  | Some ms => Some (dict_update [] ms)
  | None => None
  end.

End Json.

(** ** core/hooks/events.py: the event model *)

Module EventType.
Inductive t : Type := KEY | MOUSE | CLIPBOARD | COMMAND | FOCUS.
(** [EventType.X.name] *)
Definition name (e : t) : string :=
  match e with
  | KEY => "KEY" | MOUSE => "MOUSE" | CLIPBOARD => "CLIPBOARD"
  | COMMAND => "COMMAND" | FOCUS => "FOCUS"
  end.
Definition eqb (a b : t) : bool :=
  match a, b with
  | KEY, KEY | MOUSE, MOUSE | CLIPBOARD, CLIPBOARD
  | COMMAND, COMMAND | FOCUS, FOCUS => true
  | _, _ => false
  end.
End EventType.

Module KeyAction.
Inductive t : Type := DOWN | UP.
Definition value (a : t) : string :=
  match a with DOWN => "down" | UP => "up" end.
End KeyAction.

Module MouseAction.
Inductive t : Type := DOWN | UP | CLICK | SCROLL.
Definition value (a : t) : string :=
  match a with
  | DOWN => "down" | UP => "up" | CLICK => "click" | SCROLL => "scroll"
  end.
End MouseAction.

Module ClipboardAction.
Inductive t : Type := CHANGE.
Definition value (a : t) : string := match a with CHANGE => "change" end.
End ClipboardAction.

Module CommandType.
Inductive t : Type := COPY | CUT | PASTE | PASTE_CONTEXT | PASTE_PRIMARY_POSSIBLE.
Definition value (c : t) : string :=
  match c with
  | COPY => "copy" | CUT => "cut" | PASTE => "paste"
  | PASTE_CONTEXT => "paste_context"
  | PASTE_PRIMARY_POSSIBLE => "paste_primary_possible"
  end.
End CommandType.

Module Severity.
Inductive t : Type := INFO | LOW | MEDIUM | HIGH.
Definition value (s : t) : string :=
  match s with
  | INFO => "info" | LOW => "low" | MEDIUM => "medium" | HIGH => "high"
  end.
End Severity.

(** The fields every event carries. [t_mono] defaults to [mono_ts()] at
    construction: a constructor call takes the reading as an argument. *)
Module BaseEvent.
Record t : Type := mk {
  t_utc : option string;
  t_mono : float;
  app : option string
}.
End BaseEvent.

Module KeyEvent.
Record t : Type := mk {
  base : BaseEvent.t;
  key : string;
  action : KeyAction.t;
  mods : gset string;
  scan_code : option Z
}.
End KeyEvent.

Module MouseEvent.
Record t : Type := mk {
  base : BaseEvent.t;
  button : option string;
  action : MouseAction.t;
  clicks : option Z;
  x : option Z;
  y : option Z
}.
End MouseEvent.

Module ClipboardEvent.
Record t : Type := mk {
  base : BaseEvent.t;
  action : ClipboardAction.t;
  length : Z;
  kind : string;
  session_digest : option string
}.
End ClipboardEvent.

Module CommandEvent.
Record t : Type := mk {
  base : BaseEvent.t;
  command : CommandType.t;
  source : string;
  notes : option string
}.
End CommandEvent.

Module FocusEvent.
Record t : Type := mk {
  base : BaseEvent.t;
  app_name : string;
  pid : option Z;
  title : option string;
  dwell_prev_s : option float
}.
End FocusEvent.

Module AnomalyEvent.
Record t : Type := mk {
  base : BaseEvent.t;
  severity : Severity.t;
  rule_id : string;
  rationale : string;
  features : Py.dict Json.json
}.
End AnomalyEvent.

Module Events.
Import Py Json.

(** The closed family of event classes ([isinstance] is the constructor). *)
Inductive Event : Type :=
| Key (e : KeyEvent.t)
| Mouse (e : MouseEvent.t)
| Clipboard (e : ClipboardEvent.t)
| Command (e : CommandEvent.t)
| Focus (e : FocusEvent.t)
| Anomaly (e : AnomalyEvent.t).

Definition base (ev : Event) : BaseEvent.t :=
  match ev with
  | Key e => KeyEvent.base e
  | Mouse e => MouseEvent.base e
  | Clipboard e => ClipboardEvent.base e
  | Command e => CommandEvent.base e
  | Focus e => FocusEvent.base e
  | Anomaly e => AnomalyEvent.base e
  end.

(** [etype], as each class's [__post_init__] sets it; an anomaly reuses
    the COMMAND tag. *)
Definition etype (ev : Event) : EventType.t :=
  match ev with
  | Key _ => EventType.KEY
  | Mouse _ => EventType.MOUSE
  | Clipboard _ => EventType.CLIPBOARD
  | Command _ => EventType.COMMAND
  | Focus _ => EventType.FOCUS
  | Anomaly _ => EventType.COMMAND
  end.

Definition t_mono (ev : Event) : float := BaseEvent.t_mono (base ev).

Definition opt_str (o : option string) : json :=
  match o with Some s => JStr s | None => JNull end.
Definition opt_int (o : option Z) : json :=
  match o with Some z => JInt z | None => JNull end.
Definition opt_float (o : option float) : json :=
  match o with Some f => JFloat f | None => JNull end.

(** [self.t_utc or utc_iso()]: [utc_now] is what [utc_iso()] returns when
    the record is made. *)
Definition t_utc_val (utc_now : string) (b : BaseEvent.t) : string :=
  if truthy_str (BaseEvent.t_utc b)
  then match BaseEvent.t_utc b with Some s => s | None => utc_now end
  else utc_now.

(** [BaseEvent.to_record] *)
Definition base_to_record (utc_now : string) (ev : Event) : dict json :=
  [ ("etype", JStr (EventType.name (etype ev)));
    ("t_utc", JStr (t_utc_val utc_now (base ev)));
    ("t_mono", JFloat (t_mono ev));
    ("app", opt_str (BaseEvent.app (base ev))) ].

(** The subclasses' [to_record]: the base record, updated. *)
Definition to_record (utc_now : string) (ev : Event) : dict json :=
  dict_update (base_to_record utc_now ev)
    match ev with
    | Key e =>
        [ ("key", JStr (KeyEvent.key e));
          ("action", JStr (KeyAction.value (KeyEvent.action e)));
          ("mods", JList (map JStr (sorted_set (KeyEvent.mods e))));
          ("scan_code", opt_int (KeyEvent.scan_code e)) ]
    | Mouse e =>
        [ ("button", opt_str (MouseEvent.button e));
          ("action", JStr (MouseAction.value (MouseEvent.action e)));
          ("clicks", opt_int (MouseEvent.clicks e));
          ("x", opt_int (MouseEvent.x e));
          ("y", opt_int (MouseEvent.y e)) ]
    | Clipboard e =>
        [ ("action", JStr (ClipboardAction.value (ClipboardEvent.action e)));
          ("length", JInt (ClipboardEvent.length e));
          ("kind", JStr (ClipboardEvent.kind e));
          ("session_digest", opt_str (ClipboardEvent.session_digest e)) ]
    | Command e =>
        [ ("command", JStr (CommandType.value (CommandEvent.command e)));
          ("source", JStr (CommandEvent.source e));
          ("notes", opt_str (CommandEvent.notes e)) ]
    | Focus e =>
        [ ("app_name", JStr (FocusEvent.app_name e));
          ("pid", opt_int (FocusEvent.pid e));
          ("title", opt_str (FocusEvent.title e));
          ("dwell_prev_s", opt_float (FocusEvent.dwell_prev_s e)) ]
    | Anomaly e =>
        [ ("severity", JStr (Severity.value (AnomalyEvent.severity e)));
          ("rule_id", JStr (AnomalyEvent.rule_id e));
          ("rationale", JStr (AnomalyEvent.rationale e));
          ("features", JDict (AnomalyEvent.features e)) ]
    end.

End Events.

(** ** Effects: state that survives an exception

    A method call mutates its object and may raise; what it mutated before
    raising stays mutated. [Eff S E A] is a computation over state [S]. *)

Definition Eff (S E A : Type) : Type := S -> result E A * S.

Definition ret {S E A} (a : A) : Eff S E A := fun s => (Ok a, s).
Definition bind {S E A B} (c : Eff S E A) (k : A -> Eff S E B) : Eff S E B :=
  fun s => match c s with
           | (Ok a, s') => k a s'
           | (Raise e, s') => (Raise e, s')
           end.
Definition get {S E} : Eff S E S := fun s => (Ok s, s).
Definition gets {S E A} (f : S -> A) : Eff S E A := fun s => (Ok (f s), s).
Definition modify {S E} (f : S -> S) : Eff S E unit := fun s => (Ok tt, f s).
Definition when {S E} (b : bool) (c : Eff S E unit) : Eff S E unit :=
  if b then c else ret tt.

Declare Scope eff_scope.
Delimit Scope eff_scope with eff.
Notation "x <- c ;; k" := (bind c (fun x => k))
  (at level 100, c at next level, right associativity) : eff_scope.
Notation "c ;; k" := (bind c (fun _ => k))
  (at level 100, right associativity) : eff_scope.

(** ** The surroundings of the pipeline components

    [perf_counter] is the sequence of readings of [time.perf_counter()];
    [out_q] is the channel the components were built on; [emitted] records
    what was put on it, in order (a ghost field). *)

Module World.
Record t : Type := mk {
  perf_counter : nat -> float;
  ticks : nat;
  out_q : Queueing.Queue Events.Event;
  emitted : list Events.Event
}.

(** [time.perf_counter()], also [mono_ts()]. *)
Definition read_clock (w : t) : float * t :=
  (perf_counter w (ticks w), mk (perf_counter w) (S (ticks w)) (out_q w) (emitted w)).

(** [safe_put(self.out_q, ev)] *)
Definition put (ev : Events.Event) (w : t) : result Queueing.QueueExn unit * t :=
  match Queueing.safe_put (out_q w) ev with
  | (Ok u, q') => (Ok u, mk (perf_counter w) (ticks w) q' (emitted w ++ [ev]))
  | (Raise e, q') => (Raise e, mk (perf_counter w) (ticks w) q' (emitted w))
  end.
End World.

(** ** app/analytics/config.py *)

Module AnomalyConfig.
Record t : Type := mk {
  wpm_window_s : float;
  cpm_window_s : float;
  entropy_window_s : float;
  keys_window_s : float;
  idle_threshold_s : float;
  burst_min_len : Z;
  text_insertion_min : Z;
  keys_small_max : Z;
  paste_window_s : float;
  paste_streak_n : Z;
  min_interkey_samples : Z;
  uniform_cv_threshold : float
}.
Definition default : t :=
  mk 60.0 60.0 20.0 5.0 6.0 60 40 5 15.0 3 12 0.12.
End AnomalyConfig.

(** ** app/analytics/metrics.py *)

Module MetricsSnapshot.
Record t : Type := mk {
  wpm : float;
  cpm : float;
  avg_delay_ms : float;
  idle_s : float
}.
End MetricsSnapshot.

Module MetricsTracker.
Import Py.

Record t : Type := mk {
  wpm_window_s : float;
  cpm_window_s : float;
  entropy_window_s : float;
  _keys_window : list (float * string);
  _intervals : list (float * float);
  _last_key_down_t : option float;
  _last_event_t : float
}.

(** [MetricsTracker(...)]; [now] is the reading of [perf_counter()]. *)
Definition init (wpm cpm entropy now : float) : t :=
  mk wpm cpm entropy [] [] None now.

(** [float(n)] for a count. *)
Definition float_of_len {A} (l : list A) : float :=
  PrimFloat.of_uint63 (Uint63.of_Z (Z.of_nat (List.length l))).

(** [while d and d[0][0] < cut: d.popleft()] *)
Fixpoint popleft_while_lt {A} (cut : float) (d : list (float * A)) : list (float * A) :=
  match d with
  | [] => []
  | (t0, a) :: r => if PrimFloat.ltb t0 cut then popleft_while_lt cut r else d
  end.

Definition _gc (now : float) (m : t) : t :=
  let cut_w := (now - fmax (wpm_window_s m) (cpm_window_s m))%float in
  let cut_e := (now - entropy_window_s m)%float in
  mk (wpm_window_s m) (cpm_window_s m) (entropy_window_s m)
     (popleft_while_lt cut_w (_keys_window m))
     (popleft_while_lt cut_e (_intervals m))
     (_last_key_down_t m) (_last_event_t m).

Definition observe_key (ev : KeyEvent.t) (m : t) : t :=
  let now := BaseEvent.t_mono (KeyEvent.base ev) in
  let m1 :=
    match KeyEvent.action ev with
    | KeyAction.DOWN =>
        let intervals :=
          match _last_key_down_t m with
          | Some last =>
              let dt := (now - last)%float in
              if PrimFloat.ltb 0 dt then _intervals m ++ [(now, dt)]
              else _intervals m
          | None => _intervals m
          end in
        mk (wpm_window_s m) (cpm_window_s m) (entropy_window_s m)
           (_keys_window m ++ [(now, KeyEvent.key ev)]) intervals (Some now) now
    | KeyAction.UP =>
        mk (wpm_window_s m) (cpm_window_s m) (entropy_window_s m)
           (_keys_window m) (_intervals m) (_last_key_down_t m) now
    end in
  _gc now m1.

(** [[k for t, k in self._keys_window if now - t <= self.cpm_window_s]] *)
Definition keys_recent (now : float) (m : t) : list string :=
  map snd (List.filter (fun tk => PrimFloat.leb (now - fst tk) (cpm_window_s m)) (_keys_window m)).

(** [snapshot()]; [now] is its reading of [perf_counter()]. *)
Definition snapshot `{PyRuntime} (now : float) (m : t) : MetricsSnapshot.t :=
  let cpm := (float_of_len (keys_recent now m) / fmax 1.0 (cpm_window_s m) * 60.0)%float in
  let wpm := (cpm / 5.0)%float in
  let avg_delay_ms :=
    match _intervals m with
    | [] => 0.0%float
    | _ => (np_mean (map snd (_intervals m)) * 1000.0)%float
    end in
  let idle_s := (now - _last_event_t m)%float in
  MetricsSnapshot.mk wpm cpm avg_delay_ms idle_s.

Definition interkey_uniformity_cv `{PyRuntime} (m : t) : option float :=
  if (Z.of_nat (List.length (_intervals m)) <? 2) then None
  else
    let dts := map snd (_intervals m) in
    let mean := np_mean dts in
    if PrimFloat.leb mean 0 then None
    else Some (np_std_ddof1 dts / mean)%float.

End MetricsTracker.

(** ** app/analytics/anomaly_engine.py *)

Module AnomalyEngine.
Import Py Json Events.
Local Open Scope eff_scope.

Record t : Type := mk {
  cfg : AnomalyConfig.t;
  metrics : MetricsTracker.t;
  _recent_keys : list float;
  _paste_times : list float;
  _last_idle_start : option float;
  _last_non_idle_t : float
}.

(** The engine together with its surroundings. *)
Definition St : Type := t * World.t.
Definition M : Type -> Type := Eff St Queueing.QueueExn.

(** [AnomalyEngine(out_q, config)]: two clock readings, one by the
    tracker and one for [_last_non_idle_t]. *)
Definition init (config : AnomalyConfig.t) (w : World.t) : St :=
  let (t1, w1) := World.read_clock w in
  let (t2, w2) := World.read_clock w1 in
  (mk config
      (MetricsTracker.init (AnomalyConfig.wpm_window_s config)
         (AnomalyConfig.cpm_window_s config)
         (AnomalyConfig.entropy_window_s config) t1)
      [] [] None t2, w2).

Definition mono_ts : M float :=
  fun s => let (t0, w') := World.read_clock (snd s) in (Ok t0, (fst s, w')).

Definition safe_put_out (ev : Event) : M unit :=
  fun s => let (r, w') := World.put ev (snd s) in (r, (fst s, w')).

Definition update (f : t -> t) : M unit := modify (fun s => (f (fst s), snd s)).

(** [ev = AnomalyEvent(...); safe_put(self.out_q, ev)] *)
Definition emit_anomaly (sev : Severity.t) (rule rationale : string)
    (features : dict json) : M unit :=
  t0 <- mono_ts ;;
  safe_put_out (Anomaly (AnomalyEvent.mk (BaseEvent.mk None t0 None)
                           sev rule rationale features)).

Definition _idle_to_burst `{PyRuntime} (now : float) (clip_len : Z) : M unit :=
  e <- gets fst ;;
  let idle_s := (now - _last_non_idle_t e)%float in
  when (PrimFloat.leb (AnomalyConfig.idle_threshold_s (cfg e)) idle_s
        && (AnomalyConfig.burst_min_len (cfg e) <=? clip_len))
    (emit_anomaly Severity.HIGH "idle_to_burst"
       ("idle " +:+ format_f 1 idle_s +:+ "s → clipboard insertion "
          +:+ str_of_int clip_len +:+ " chars")
       [ ("idle_s", JFloat (round_nd idle_s 3)); ("clip_len", JInt clip_len) ]).

Definition _text_injection_without_typing `{PyRuntime} (now : float) (clip_len : Z)
    : M unit :=
  e <- gets fst ;;
  let cutoff := (now - AnomalyConfig.keys_window_s (cfg e))%float in
  let recent_count :=
    Z.of_nat (List.length (List.filter (fun t0 => PrimFloat.leb cutoff t0) (_recent_keys e))) in
  when ((AnomalyConfig.text_insertion_min (cfg e) <=? clip_len)
        && (recent_count <=? AnomalyConfig.keys_small_max (cfg e)))
    (emit_anomaly Severity.HIGH "text_injection"
       ("clipboard " +:+ str_of_int clip_len +:+ " chars with "
          +:+ str_of_int recent_count +:+ " key(s) in last "
          +:+ format_f 1 (AnomalyConfig.keys_window_s (cfg e)) +:+ "s")
       [ ("clip_len", JInt clip_len); ("keys_recent", JInt recent_count);
         ("window_s", JFloat (AnomalyConfig.keys_window_s (cfg e))) ]).

Definition _note_paste (now : float) : M unit :=
  update (fun e => mk (cfg e) (metrics e) (_recent_keys e) (_paste_times e ++ [now])
                      (_last_idle_start e) (_last_non_idle_t e)).

Fixpoint popleft_while_lt (cut : float) (d : list float) : list float :=
  match d with
  | [] => []
  | t0 :: r => if PrimFloat.ltb t0 cut then popleft_while_lt cut r else d
  end.

Definition _multi_paste_streaks `{PyRuntime} (now : float) : M unit :=
  e0 <- gets fst ;;
  let cutoff := (now - AnomalyConfig.paste_window_s (cfg e0))%float in
  update (fun e => mk (cfg e) (metrics e) (_recent_keys e)
                      (popleft_while_lt cutoff (_paste_times e))
                      (_last_idle_start e) (_last_non_idle_t e)) ;;
  e <- gets fst ;;
  let n := Z.of_nat (List.length (_paste_times e)) in
  when (AnomalyConfig.paste_streak_n (cfg e) <=? n)
    (emit_anomaly Severity.MEDIUM "multi_paste_streak"
       (str_of_int n +:+ " pastes in "
          +:+ format_f 0 (AnomalyConfig.paste_window_s (cfg e)) +:+ "s")
       [ ("count", JInt n);
         ("window_s", JFloat (AnomalyConfig.paste_window_s (cfg e))) ]).

Definition _timing_entropy_check `{PyRuntime} : M unit :=
  e <- gets fst ;;
  match MetricsTracker.interkey_uniformity_cv (metrics e) with
  | None => ret tt
  | Some cv =>
      let samples := Z.of_nat (List.length (MetricsTracker._intervals (metrics e))) in
      when (PrimFloat.leb cv (AnomalyConfig.uniform_cv_threshold (cfg e))
            && (AnomalyConfig.min_interkey_samples (cfg e) <=? samples))
        (emit_anomaly Severity.MEDIUM "timing_uniformity"
           ("uniform inter-key timing (cv=" +:+ format_f 3 cv +:+ " ≤ "
              +:+ format_f 3 (AnomalyConfig.uniform_cv_threshold (cfg e)) +:+ ")")
           [ ("cv", JFloat (round_nd cv 4)); ("samples", JInt samples) ])
  end.

Definition _gc (now : float) : M unit :=
  update (fun e =>
    let cutoff := (now - AnomalyConfig.keys_window_s (cfg e))%float in
    mk (cfg e) (metrics e) (popleft_while_lt cutoff (_recent_keys e))
       (_paste_times e) (_last_idle_start e) (_last_non_idle_t e)).

Definition is_paste (c : CommandType.t) : bool :=
  match c with
  | CommandType.PASTE | CommandType.PASTE_CONTEXT => true
  | _ => false
  end.

Definition process `{PyRuntime} (ev : Event) : M unit :=
  let now := t_mono ev in
  match ev with
  | Key k =>
      match KeyEvent.action k with
      | KeyAction.DOWN =>
          update (fun e => mk (cfg e) (metrics e) (_recent_keys e ++ [now])
                              (_paste_times e) (_last_idle_start e) now)
      | KeyAction.UP => ret tt
      end ;;
      update (fun e => mk (cfg e) (MetricsTracker.observe_key k (metrics e))
                          (_recent_keys e) (_paste_times e)
                          (_last_idle_start e) (_last_non_idle_t e))
  | _ => ret tt
  end ;;
  match ev with
  | Clipboard c =>
      _idle_to_burst now (ClipboardEvent.length c) ;;
      _text_injection_without_typing now (ClipboardEvent.length c)
  | _ => ret tt
  end ;;
  match ev with
  | Command c =>
      when (is_paste (CommandEvent.command c))
        (_note_paste now ;; _multi_paste_streaks now)
  | _ => ret tt
  end ;;
  when (EventType.eqb (etype ev) EventType.KEY) _timing_entropy_check ;;
  _gc now.

End AnomalyEngine.

(** ** app/controller/paste_classifier.py *)

Module PasteClassifierConfig.
Record t : Type := mk {
  context_window_sec : float;
  context_cooldown_sec : float;
  primary_hint : bool
}.
Definition default : t := mk 1.0 0.3 true.
End PasteClassifierConfig.

Module PasteClassifier.
Import Py Json Events.
Local Open Scope eff_scope.

(** The classifier's own fields; [self.clock] is the world's clock and
    the debug log is not modelled. *)
Record t : Type := mk {
  cfg : PasteClassifierConfig.t;
  _last_right_click_mono : option float;
  _last_clip_change_mono : option float;
  _last_context_emit_mono : option float
}.

Definition init (config : PasteClassifierConfig.t) : t := mk config None None None.

Definition St : Type := t * World.t.
Definition M : Type -> Type := Eff St Queueing.QueueExn.

Definition clock : M float :=
  fun s => let (t0, w') := World.read_clock (snd s) in (Ok t0, (fst s, w')).

Definition safe_put_out (ev : Event) : M unit :=
  fun s => let (r, w') := World.put ev (snd s) in (r, (fst s, w')).

Definition update (f : t -> t) : M unit := modify (fun s => (f (fst s), snd s)).

(** [str.lower()] on ASCII letters. *)
Definition lower_char (c : ascii) : ascii :=
  let n := N_of_ascii c in
  if ((65 <=? n) && (n <=? 90))%N then ascii_of_N (n + 32) else c.
Fixpoint lower (s : string) : string :=
  match s with
  | "" => ""
  | String c r => String (lower_char c) (lower r)
  end.

(** [repr] of a list of plain words: [['a', 'b']]. *)
Definition repr_str_list (l : list string) : string :=
  "[" +:+ String.concat ", " (map (fun w => "'" +:+ w +:+ "'") l) +:+ "]".

Definition _emit (cmd : CommandType.t) (source : string) (notes : option string)
    : M unit :=
  t0 <- clock ;;
  safe_put_out (Command (CommandEvent.mk (BaseEvent.mk None t0 None) cmd source notes)).

Definition notify_clipboard_changed (t_mono : float) : M unit :=
  update (fun p => mk (cfg p) (_last_right_click_mono p) (Some t_mono)
                      (_last_context_emit_mono p)).

Definition str_opt_eqb (o : option string) (s : string) : bool :=
  match o with Some x => String.eqb x s | None => false end.

Definition process (ev : Event) : M unit :=
  now <- clock ;;
  match ev with
  | Key k =>
      match KeyEvent.action k with
      | KeyAction.DOWN =>
          let m := KeyEvent.mods k in
          let key := lower (KeyEvent.key k) in
          let notes := Some ("mods=" +:+ repr_str_list (sorted_set m)) in
          if bool_decide ("ctrl" ∈ m) || bool_decide ("cmd" ∈ m) then
            if String.eqb key "c" then _emit CommandType.COPY "hotkey" notes
            else if String.eqb key "x" then _emit CommandType.CUT "hotkey" notes
            else if String.eqb key "v" then _emit CommandType.PASTE "hotkey" notes
            else ret tt
          else ret tt
      | KeyAction.UP => ret tt
      end
  | _ => ret tt
  end ;;
  match ev with
  | Mouse e =>
      when (str_opt_eqb (MouseEvent.button e) "right"
            && match MouseEvent.action e with
               | MouseAction.DOWN | MouseAction.UP => true
               | _ => false
               end)
        (update (fun p => mk (cfg p) (Some (BaseEvent.t_mono (MouseEvent.base e)))
                             (_last_clip_change_mono p) (_last_context_emit_mono p))) ;;
      p <- gets fst ;;
      when (PasteClassifierConfig.primary_hint (cfg p)
            && str_opt_eqb (MouseEvent.button e) "middle"
            && match MouseEvent.action e with MouseAction.DOWN => true | _ => false end)
        (_emit CommandType.PASTE_PRIMARY_POSSIBLE "primary" (Some "middle-click"))
  | _ => ret tt
  end ;;
  match ev with
  | Clipboard _ =>
      notify_clipboard_changed (t_mono ev) ;;
      p <- gets fst ;;
      match _last_right_click_mono p with
      | Some rc =>
          when (PrimFloat.leb (t_mono ev - rc)
                  (PasteClassifierConfig.context_window_sec (cfg p)))
            (when (negb (truthy_float (_last_context_emit_mono p))
                   || match _last_context_emit_mono p with
                      | Some last =>
                          PrimFloat.leb
                            (PasteClassifierConfig.context_cooldown_sec (cfg p))
                            (now - last)
                      | None => false
                      end)
               (_emit CommandType.PASTE_CONTEXT "context"
                  (Some "right-click->clipboard change") ;;
                update (fun p => mk (cfg p) (_last_right_click_mono p)
                                    (_last_clip_change_mono p) (Some now))))
      | None => ret tt
      end
  | _ => ret tt
  end.

End PasteClassifier.

(** ** The cryptographic library, as an interface

    HKDF-SHA256, HMAC-SHA256, Ed25519, ChaCha20-Poly1305 and AES-SIV come
    from [cryptography] and [pycryptodome]. A decryption that fails its
    authentication check returns [None] (the library raises). *)

Class Crypto : Type := {
  (** [HKDF(SHA256, length, salt, info).derive(ikm)] *)
  hkdf_sha256 : Z -> Py.bytes -> Py.bytes -> Py.bytes -> Py.bytes;
  (** [HMAC(key, SHA256)] over a message *)
  hmac_sha256 : Py.bytes -> Py.bytes -> Py.bytes;
  (** raw public key of a private key; [sign(msg)]; [verify(sig, msg)] *)
  ed25519_public_key : Py.bytes -> Py.bytes;
  ed25519_sign : Py.bytes -> Py.bytes -> Py.bytes;
  ed25519_verify : Py.bytes -> Py.bytes -> Py.bytes -> bool;
  (** [ChaCha20Poly1305(key).encrypt(nonce, pt, aad)] / [.decrypt(nonce, ct, aad)] *)
  chacha20poly1305_encrypt : Py.bytes -> Py.bytes -> Py.bytes -> Py.bytes -> Py.bytes;
  chacha20poly1305_decrypt : Py.bytes -> Py.bytes -> Py.bytes -> Py.bytes -> option Py.bytes;
  (** [AES.new(key, MODE_SIV)], [update(aad)], then [encrypt_and_digest(pt)]
      or [decrypt_and_verify(ct, tag)] *)
  aes_siv_encrypt_and_digest : Py.bytes -> Py.bytes -> Py.bytes -> Py.bytes * Py.bytes;
  aes_siv_decrypt_and_verify : Py.bytes -> Py.bytes -> Py.bytes -> Py.bytes -> option Py.bytes
}.

(** ** core/crypto/key_manager.py *)

(** The [secrets/] directory: the two key files, when present. *)
Module SecretsDir.
Record t : Type := mk {
  master_key_file : option Py.bytes;
  signing_key_file : option Py.bytes
}.
End SecretsDir.

Module SessionKeys.
Record t : Type := mk {
  session_id : string;
  session_key : Py.bytes;
  chain_hmac_key : Py.bytes;
  sign_private : Py.bytes;
  sign_public_bytes : Py.bytes
}.
End SessionKeys.

Module MasterKeyManager.
Import Py.

(** [load_or_create_master]; [rnd] is [os.urandom(32)] if it is drawn. *)
Definition load_or_create_master (rnd : bytes) (d : SecretsDir.t) : bytes * SecretsDir.t :=
  match SecretsDir.master_key_file d with
  | Some k => (k, d)
  | None => (rnd, SecretsDir.mk (Some rnd) (SecretsDir.signing_key_file d))
  end.

(** [load_or_create_signing_key]; [rnd] is the generated private key. *)
Definition load_or_create_signing_key (rnd : bytes) (d : SecretsDir.t)
    : bytes * SecretsDir.t :=
  match SecretsDir.signing_key_file d with
  | Some k => (k, d)
  | None => (rnd, SecretsDir.mk (SecretsDir.master_key_file d) (Some rnd))
  end.

(** What a session start draws from the random source. *)
Record Entropy : Type := mkEntropy {
  new_master : bytes;
  session_salt : bytes;
  new_signing_key : bytes
}.

Definition start_session `{Crypto} (rnd : Entropy) (d : SecretsDir.t)
    : SessionKeys.t * SecretsDir.t :=
  let (master, d1) := load_or_create_master (new_master rnd) d in
  let session_key := hkdf_sha256 32 (session_salt rnd) (encode "session-key") master in
  let chain_key := hkdf_sha256 32 (session_salt rnd) (encode "hmac-chain") master in
  let (sign_priv, d2) := load_or_create_signing_key (new_signing_key rnd) d1 in
  let sign_pub_bytes := ed25519_public_key sign_priv in
  (SessionKeys.mk (hex (session_salt rnd)) session_key chain_key sign_priv sign_pub_bytes,
   d2).

(** [derive_segment_key]: the salt is [prev_tag or b"\x00"*16]. *)
Definition derive_segment_key `{Crypto} (prev_key prev_tag : bytes) (length : Z)
    (info : bytes) : bytes :=
  hkdf_sha256 length (match prev_tag with [] => zeros 16 | _ => prev_tag end)
    info prev_key.

End MasterKeyManager.

(** ** core/crypto/aead.py *)

Module Aead.
Import Py Json.

Definition SUITE_CHACHA20P : string := "CHACHA20P".
Definition SUITE_AES_SIV : string := "AES_SIV".

Inductive AEADSuite : Type := ChaCha20PSuite | AESSIVSuite.

Definition suite_id (s : AEADSuite) : string :=
  match s with ChaCha20PSuite => SUITE_CHACHA20P | AESSIVSuite => SUITE_AES_SIV end.
Definition key_len (s : AEADSuite) : Z :=
  match s with ChaCha20PSuite => 32 | AESSIVSuite => 64 end.

(** [RuntimeError("AES-SIV unavailable")] *)
Inductive AeadExn : Type := AesSivUnavailable.

(** [suite.encrypt(key, plaintext, aad)]; [nonce] is the [os.urandom(12)]
    the ChaCha suite draws. *)
Definition encrypt `{Crypto} (HAVE_PYCRYPTO : bool) (s : AEADSuite) (nonce : bytes)
    (key plaintext aad : bytes) : result AeadExn (bytes * dict json) :=
  match s with
  | ChaCha20PSuite =>
      Ok (chacha20poly1305_encrypt key nonce plaintext aad, [("nonce", JStr (hex nonce))])
  | AESSIVSuite =>
      if HAVE_PYCRYPTO then
        let (ct, tag) := aes_siv_encrypt_and_digest key aad plaintext in
        Ok (ct ++ tag, [])
      else Raise AesSivUnavailable
  end.

(** [suite.decrypt(key, ciphertext, aad, params)]: [None] stands for any
    exception (missing nonce, bad hex, failed authentication, no AES-SIV). *)
Definition decrypt `{Crypto} (HAVE_PYCRYPTO : bool) (s : AEADSuite)
    (key ciphertext aad : bytes) (params : dict json) : option bytes :=
  match s with
  | ChaCha20PSuite =>
      match dict_get "nonce" params with
      | Some (JStr n) =>
          match fromhex n with
          | Some nonce => chacha20poly1305_decrypt key nonce ciphertext aad
          | None => None
          end
      | _ => None
      end
  | AESSIVSuite =>
      if HAVE_PYCRYPTO then
        aes_siv_decrypt_and_verify key aad (drop_last 16 ciphertext) (take_last 16 ciphertext)
      else None
  end.

(** [pick_suite()]; [rnd] is [os.urandom(1)[0]]. *)
Definition pick_suite (HAVE_PYCRYPTO : bool) (rnd : byte) : AEADSuite :=
  if HAVE_PYCRYPTO && N.odd (Byte.to_N rnd) then AESSIVSuite else ChaCha20PSuite.

End Aead.

(** ** core/crypto/segment_store.py *)

(** The [segments] table of the SQLite file, and its AUTOINCREMENT counter. *)
Module Database.
Record Row : Type := mkRow {
  seq : Z;
  ts_utc : Z;
  header : Py.bytes;
  body : Py.bytes;
  meta : string
}.
Record t : Type := mk {
  rows : list Row;
  last_seq : Z
}.
Definition empty : t := mk [] 0.
End Database.

Module SegmentStore.
Import Py Json.

(** A [sqlite3] error, or the [RuntimeError] of a missing row id. *)
Inductive StoreExn : Type := InsertFailed.

Definition pad_to_block (data : bytes) (block : Z) : bytes * Z :=
  let rem := (- blen data) mod block in
  if rem =? 0 then (data, blen data)
  else (data ++ zeros rem, blen data + rem).

(** [insert_segment]; [db_ok] tells whether SQLite carries out the insert
    and commit. When it does not, nothing is stored and the call raises. *)
Definition insert_segment `{PyRuntime} (db_ok : bool) (ts_utc : Z) (header body : bytes)
    (meta : dict json) : Eff Database.t StoreExn Z :=
  fun db =>
    if db_ok then
      let rowid := Database.last_seq db + 1 in
      (Ok rowid,
       Database.mk
         (Database.rows db ++ [Database.mkRow rowid ts_utc header body (dumps meta)])
         rowid)
    else (Raise InsertFailed, db).

End SegmentStore.

Module SegmentWriter.
Import Py Json.
Local Open Scope eff_scope.

Record t : Type := mk {
  flush_sec : Z;
  max_events : Z;
  sess : SessionKeys.t;
  _current_key : bytes;
  _prev_tag : bytes;
  _hmac_key : bytes;
  _last_chain_tag : bytes;
  _buf : list (dict json);
  _next_flush : float
}.

(** What one call reads from its surroundings: [time.time()], the random
    byte of [pick_suite], the ChaCha nonce, [utc_ts_ms()], whether the AES
    library was importable, and whether the database accepts the insert. *)
Record Env : Type := mkEnv {
  now : float;
  suite_rnd : byte;
  nonce_rnd : bytes;
  ts_ms : Z;
  HAVE_PYCRYPTO : bool;
  db_ok : bool
}.

Inductive WriterExn : Type :=
| AeadError (e : Aead.AeadExn)
| StoreError (e : SegmentStore.StoreExn).

(** The writer and the database file its store writes to. *)
Definition St : Type := t * Database.t.
Definition M : Type -> Type := Eff St WriterExn.

Definition float_of_int (z : Z) : float := PrimFloat.of_uint63 (Uint63.of_Z z).

(** [SegmentWriter(store, flush_sec, max_events)]; [time_now] is the
    constructor's [time.time()]. *)
Definition init `{Crypto} (flush_sec max_events : Z) (rnd : MasterKeyManager.Entropy)
    (time_now : float) (d : SecretsDir.t) : t * SecretsDir.t :=
  let (sess, d') := MasterKeyManager.start_session rnd d in
  (mk flush_sec max_events sess
      (SessionKeys.session_key sess) (zeros 16)
      (SessionKeys.chain_hmac_key sess) (zeros 32)
      [] (time_now + float_of_int flush_sec)%float,
   d').

Definition update (f : t -> t) : M unit := modify (fun s => (f (fst s), snd s)).

Definition set_ratchet (key tag16 tag : bytes) (w : t) : t :=
  mk (flush_sec w) (max_events w) (sess w) key tag16 (_hmac_key w) tag
     (_buf w) (_next_flush w).

(** [self.store.insert_segment(...)] *)
Definition store_insert `{PyRuntime} (db_ok : bool) (ts : Z) (header body : bytes)
    (meta : dict json) : M Z :=
  fun s =>
    match SegmentStore.insert_segment db_ok ts header body meta (snd s) with
    | (Ok rowid, db') => (Ok rowid, (fst s, db'))
    | (Raise e, db') => (Raise (StoreError e), (fst s, db'))
    end.

Definition lift_aead {A} (r : result Aead.AeadExn A) : M A :=
  fun s => match r with
           | Ok a => (Ok a, s)
           | Raise e => (Raise (AeadError e), s)
           end.

(** The payload: one compact JSON object per line. *)
Definition payload `{PyRuntime} (batch : list (dict json)) : bytes :=
  encode (String.concat (String (ascii_of_N 10) "") (map dumps_compact batch)).

(** The header before encryption, in the order the fields are written. *)
Definition header_stem (w : t) (suite : Aead.AEADSuite) (padded_len : Z) (info : bytes)
    : dict json :=
  [ ("ver", JInt 1);
    ("suite", JStr (Aead.suite_id suite));
    ("session", JStr (SessionKeys.session_id (sess w)));
    ("padded_len", JInt padded_len);
    ("hkdf_info", JStr (decode info));
    ("prev_tag", JStr (hex (_prev_tag w)));
    ("sign_pub", JStr (hex (SessionKeys.sign_public_bytes (sess w)))) ].

Definition _write_segment `{PyRuntime} `{Crypto} (env : Env) (batch : list (dict json))
    : M unit :=
  w <- gets fst ;;
  let raw := payload batch in
  let suite := Aead.pick_suite (HAVE_PYCRYPTO env) (suite_rnd env) in
  let key_len := if String.eqb (Aead.suite_id suite) Aead.SUITE_AES_SIV then 64 else 32 in
  let info := encode ("segment-key:" +:+ Aead.suite_id suite) in
  let seg_key :=
    MasterKeyManager.derive_segment_key (_current_key w) (_prev_tag w) key_len info in
  let (padded, padded_len) := SegmentStore.pad_to_block raw 256 in
  let ts := ts_ms env in
  let header := header_stem w suite padded_len info in
  let aad := encode (dumps_compact header) in
  enc <- lift_aead (Aead.encrypt (HAVE_PYCRYPTO env) suite (nonce_rnd env) seg_key padded aad) ;;
  let (ct, params) := (enc : bytes * dict json) in
  let header := dict_update header params in
  let chain_tag := hmac_sha256 (_hmac_key w) (aad ++ ct ++ _last_chain_tag w) in
  let header := dict_set "chain_tag" (JStr (hex chain_tag)) header in
  let header_bytes := encode (dumps_compact_sorted header) in
  let signature := ed25519_sign (SessionKeys.sign_private (sess w)) header_bytes in
  let header := dict_set "sig" (JStr (hex signature)) header in
  update (set_ratchet seg_key (take 16 chain_tag) chain_tag) ;;
  _ <- store_insert (db_ok env) ts (encode (dumps header)) ct
         [("count", JInt (Z.of_nat (List.length batch)))] ;;
  ret tt.

Definition set_buf (buf : list (dict json)) (next_flush : float) (w : t) : t :=
  mk (flush_sec w) (max_events w) (sess w) (_current_key w) (_prev_tag w)
     (_hmac_key w) (_last_chain_tag w) buf next_flush.

Definition _flush_if_needed `{PyRuntime} `{Crypto} (force : bool) (env : Env) : M unit :=
  w <- gets fst ;;
  let next := (now env + float_of_int (flush_sec w))%float in
  match _buf w with
  | [] => update (set_buf (_buf w) next)
  | _ =>
      if negb force
         && (Z.of_nat (List.length (_buf w)) <? max_events w)
         && PrimFloat.ltb (now env) (_next_flush w)
      then ret tt
      else
        let batch := _buf w in
        update (set_buf [] next) ;;
        _write_segment env batch
  end.

(** [add_event(ev)]; [utc_now] is the clock string [to_record] may read. *)
Definition add_event `{PyRuntime} `{Crypto} (utc_now : string) (ev : Events.Event)
    (env : Env) : M unit :=
  let rec := Events.to_record utc_now ev in
  update (fun w => set_buf (_buf w ++ [rec]) (_next_flush w) w) ;;
  _flush_if_needed false env.

(** [stop()]: the final, forced flush. *)
Definition stop `{PyRuntime} `{Crypto} (env : Env) : M unit :=
  _flush_if_needed true env.

(** One step of the writer's life: an event from the dispatcher, a wake-up
    of the poller, or the stop. The callers catch what a step raises. *)
Inductive Call : Type :=
| AddEvent (utc_now : string) (ev : Events.Event) (env : Env)
| Poll (env : Env)
| Stop (env : Env).

Definition call_env (c : Call) : Env :=
  match c with AddEvent _ _ env => env | Poll env => env | Stop env => env end.

Definition step `{PyRuntime} `{Crypto} (c : Call) : M unit :=
  match c with
  | AddEvent utc_now ev env => add_event utc_now ev env
  | Poll env => _flush_if_needed false env
  | Stop env => stop env
  end.

Definition run `{PyRuntime} `{Crypto} (calls : list Call) (s : St) : St :=
  fold_left (fun s c => snd (step c s)) calls s.

End SegmentWriter.

(** ** tools/verify_segments.py *)

Module VerifySegments.
Import Py Json.

Definition SUITE_CHACHA20P : string := "CHACHA20P".
Definition SUITE_AES_SIV : string := "AES_SIV".

Definition hkdf_derive `{Crypto} (master : bytes) (length : Z) (salt info : bytes) : bytes :=
  hkdf_sha256 length salt info master.

Definition stem_keys : list string :=
  ["ver"; "suite"; "session"; "padded_len"; "hkdf_info"; "prev_tag"; "sign_pub"].

(** [{k: header[k] for k in stem_keys}], in the order of [stem_keys] (its
    keys are distinct); a missing key is a [KeyError]. *)
Fixpoint pick_keys (ks : list string) (header : dict json) : option (dict json) :=
  match ks with
  | [] => Some []
  | k :: r =>
      match dict_get k header, pick_keys r header with
      | Some v, Some rest => Some ((k, v) :: rest)
      | _, _ => None
      end
  end.

Definition stem_of (header : dict json) : option (dict json) :=
  pick_keys stem_keys header.

Definition aad_from_header_stem `{PyRuntime} (header : dict json) : option bytes :=
  match stem_of header with
  | Some stem => Some (encode (dumps_compact stem))
  | None => None
  end.

Definition header_bytes_for_sig `{PyRuntime} (header : dict json) : bytes :=
  encode (dumps_compact_sorted (dict_pop "sig" header)).

Record VerifyStats : Type := mkStats {
  total : Z;
  sig_ok : Z;
  chain_ok : Z;
  decrypt_ok : Z
}.

(** The entries of the error list, by kind and sequence number. *)
Inductive VerifyError : Type :=
| NoRows
| MasterKeyNotFound
| HeaderDecodeFailed (seq : Z)
| SignatureFailed (seq : Z)
| ChainFailed (seq : Z)
| DecryptFailed (seq : Z).

(** One entry of [session_state]. *)
Record Sess : Type := mkSess {
  chain_key : bytes;
  prev_chain_tag : bytes;
  current_key : bytes
}.

Definition as_str (v : option json) : option string :=
  match v with Some (JStr x) => Some x | _ => None end.

(** Step 1: the header signature. [false] is any exception of the block. *)
Definition check_signature `{PyRuntime} `{Crypto} (header : dict json) : bool :=
  match as_str (dict_get "sign_pub" header), as_str (dict_get "sig" header) with
  | Some sign_pub_hex, Some sig_hex =>
      match fromhex sign_pub_hex, fromhex sig_hex with
      | Some pub, Some sg => ed25519_verify pub sg (header_bytes_for_sig header)
      | _, _ => false
      end
  | _, _ => false
  end.

(** Step 2: the chain HMAC. The session entry created on first sight stays
    in the table whatever the outcome. *)
Definition check_chain `{PyRuntime} `{Crypto} (master_key : bytes) (header : dict json)
    (body : bytes) (session_state : gmap string Sess) : bool * gmap string Sess :=
  match as_str (dict_get "session" header) with
  | None => (false, session_state)
  | Some session_id =>
      let found :=
        match session_state !! session_id with
        | Some sess => Some (sess, session_state)
        | None =>
            match fromhex session_id with
            | Some salt =>
                let sess :=
                  mkSess (hkdf_derive master_key 32 salt (encode "hmac-chain"))
                         (zeros 32)
                         (hkdf_derive master_key 32 salt (encode "session-key")) in
                Some (sess, <[session_id := sess]> session_state)
            | None => None
            end
        end in
      match found with
      | None => (false, session_state)
      | Some (sess, state1) =>
          match aad_from_header_stem header with
          | None => (false, state1)
          | Some aad =>
              let expected_chain_tag :=
                hex (hmac_sha256 (chain_key sess) (aad ++ body ++ prev_chain_tag sess)) in
              match dict_get "chain_tag" header with
              | Some (JStr recorded) =>
                  if String.eqb expected_chain_tag recorded then
                    match fromhex expected_chain_tag with
                    | Some tag =>
                        (true,
                         <[session_id := mkSess (chain_key sess) tag (current_key sess)]>
                           state1)
                    | None => (false, state1)
                    end
                  else (false, state1)
              | _ => (false, state1)
              end
          end
      end
  end.

(** The decryption of step 3 from the session's current key: the segment
    key, and the plaintext unless the AES-SIV check is skipped. *)
Definition decrypt_segment `{PyRuntime} `{Crypto} (HAVE_PYCRYPTO : bool) (key : bytes)
    (header : dict json) (body : bytes) : option (bytes * option bytes) :=
  match as_str (dict_get "suite" header), as_str (dict_get "hkdf_info" header),
        (match dict_get "prev_tag" header with
         | None => Some (hex (zeros 16))
         | v => as_str v
         end) with
  | Some suite, Some hkdf_info, Some prev_tag_hex =>
      match fromhex prev_tag_hex with
      | None => None
      | Some prev_tag =>
          let key_len :=
            if String.eqb suite SUITE_CHACHA20P then Some 32
            else if String.eqb suite SUITE_AES_SIV then Some 64
            else None in
          match key_len, aad_from_header_stem header with
          | Some key_len, Some aad =>
              let seg_key := hkdf_derive key key_len prev_tag (encode hkdf_info) in
              if String.eqb suite SUITE_CHACHA20P then
                match as_str (dict_get "nonce" header) with
                | Some nonce_hex =>
                    match fromhex nonce_hex with
                    | Some nonce =>
                        match chacha20poly1305_decrypt seg_key nonce body aad with
                        | Some pt => Some (seg_key, Some pt)
                        | None => None
                        end
                    | None => None
                    end
                | None => None
                end
              else if HAVE_PYCRYPTO then
                match aes_siv_decrypt_and_verify seg_key aad
                        (drop_last 16 body) (take_last 16 body) with
                | Some pt => Some (seg_key, Some pt)
                | None => None
                end
              else Some (seg_key, None)
          | _, _ => None
          end
      end
  | _, _, _ => None
  end.

(** Step 3: decryption and the verifier's own ratchet. *)
Definition check_decrypt `{PyRuntime} `{Crypto} (HAVE_PYCRYPTO : bool) (header : dict json)
    (body : bytes) (session_state : gmap string Sess) : bool * gmap string Sess :=
  match as_str (dict_get "session" header) with
  | None => (false, session_state)
  | Some session_id =>
      match session_state !! session_id with
      | None => (false, session_state)
      | Some sess =>
          match decrypt_segment HAVE_PYCRYPTO (current_key sess) header body with
          | Some (seg_key, _) =>
              (true,
               <[session_id := mkSess (chain_key sess) (prev_chain_tag sess) seg_key]>
                 session_state)
          | None => (false, session_state)
          end
      end
  end.

(** The loop state: counters, error list, per-session table. *)
Record Loop : Type := mkLoop {
  stats : VerifyStats;
  errors : list VerifyError;
  session_state : gmap string Sess
}.

Definition b2z (b : bool) : Z := if b then 1 else 0.

(** One iteration of the loop over the rows. *)
Definition verify_row `{PyRuntime} `{Crypto} (master_key : option bytes)
    (no_decrypt HAVE_PYCRYPTO : bool) (st : Loop) (row : Database.Row) : Loop :=
  let seq := Database.seq row in
  let st0 := stats st in
  match loads (decode (Database.header row)) with
  | None =>
      mkLoop (mkStats (total st0 + 1) (sig_ok st0) (chain_ok st0) (decrypt_ok st0))
             (errors st ++ [HeaderDecodeFailed seq]) (session_state st)
  | Some header =>
      let sig := check_signature header in
      let errs1 := errors st ++ (if sig then [] else [SignatureFailed seq]) in
      let '(chain, state1, errs2) :=
        match master_key with
        | Some mk =>
            let (ok, state1) := check_chain mk header (Database.body row) (session_state st) in
            (ok, state1, errs1 ++ (if ok then [] else [ChainFailed seq]))
        | None => (false, session_state st, errs1)
        end in
      let '(dec, state2, errs3) :=
        match master_key with
        | Some _ =>
            if no_decrypt then (false, state1, errs2)
            else
              let (ok, state2) :=
                check_decrypt HAVE_PYCRYPTO header (Database.body row) state1 in
              (ok, state2, errs2 ++ (if ok then [] else [DecryptFailed seq]))
        | None => (false, state1, errs2)
        end in
      mkLoop (mkStats (total st0 + 1) (sig_ok st0 + b2z sig) (chain_ok st0 + b2z chain)
                (decrypt_ok st0 + b2z dec))
             errs3 state2
  end.

(** [SELECT ... ORDER BY seq ASC [LIMIT n]] over a table kept in [seq]
    order; [if limit:] skips [None] and [0], a negative LIMIT is no limit. *)
Definition select_rows (db : Database.t) (limit : option Z) : list Database.Row :=
  match limit with
  | Some n => if (n =? 0) || (n <? 0) then Database.rows db
              else firstn (Z.to_nat n) (Database.rows db)
  | None => Database.rows db
  end.

(** [verify_db]; [secrets_dir] is [None] for a signatures-only run. *)
Definition verify_db `{PyRuntime} `{Crypto} (db : Database.t)
    (secrets_dir : option SecretsDir.t) (limit : option Z)
    (no_decrypt HAVE_PYCRYPTO : bool) : VerifyStats * list VerifyError :=
  let rows := select_rows db limit in
  match rows with
  | [] => (mkStats 0 0 0 0, [NoRows])
  | _ =>
      let '(master_key, errs) :=
        match secrets_dir with
        | Some d =>
            match SecretsDir.master_key_file d with
            | Some k => (Some k, [])
            | None => (None, [MasterKeyNotFound])
            end
        | None => (None, [])
        end in
      let final :=
        fold_left (verify_row master_key no_decrypt HAVE_PYCRYPTO) rows
          (mkLoop (mkStats 0 0 0 0) errs ∅) in
      (stats final, errors final)
  end.

End VerifySegments.

(** ** Stand-ins for the library interfaces, used to run the model

    A transparent "cipher" whose outputs name their inputs: distinct
    inputs give distinct outputs, and authentication compares them. *)

Module Toy.
Import Py.

Fixpoint beqb (a b : bytes) : bool :=
  match a, b with
  | [], [] => true
  | x :: a', y :: b' => Byte.eqb x y && beqb a' b'
  | _, _ => false
  end.

Definition runtime : PyRuntime := {|
  float_repr := fun _ => "0.0";
  format_f := fun _ _ => "0";
  round_nd := fun x _ => x;
  np_mean := fun _ => 0%float;
  np_std_ddof1 := fun _ => 0%float
|}.

(** A 32-byte digest stand-in: the input, zero-padded or cut to 32 bytes,
    after a length byte. *)
Definition digest32 (m : bytes) : bytes :=
  take 32 (byte_of_Z (blen m) :: m ++ zeros 32).

Definition crypto : Crypto := {|
  hkdf_sha256 := fun length salt info ikm =>
    take length (digest32 (take 4 ikm ++ take 4 salt ++ take_last 9 info) ++ zeros length);
  hmac_sha256 := fun key msg => digest32 (take 2 key ++ take_last 33 msg);
  ed25519_public_key := fun priv => priv;
  ed25519_sign := fun priv msg => priv ++ msg;
  ed25519_verify := fun pub sg msg => beqb sg (pub ++ msg);
  chacha20poly1305_encrypt := fun key nonce pt aad => pt ++ take 16 (key ++ zeros 16);
  chacha20poly1305_decrypt := fun key nonce ct aad =>
    if beqb (take_last 16 ct) (take 16 (key ++ zeros 16))
    then Some (drop_last 16 ct) else None;
  aes_siv_encrypt_and_digest := fun key aad pt => (pt, take 16 (key ++ zeros 16));
  aes_siv_decrypt_and_verify := fun key aad ct tag =>
    if beqb tag (take 16 (key ++ zeros 16)) then Some ct else None
|}.

End Toy.

(** ** What the model takes for granted about the cryptographic library *)

Module Contracts.
Import Py.

(** A signature made with a private key verifies under its public key. *)
Definition ed25519_correct `{Crypto} : Prop :=
  forall sk msg, ed25519_verify (ed25519_public_key sk) (ed25519_sign sk msg) msg = true.

(** Decryption under the same key, nonce and associated data returns the
    plaintext. *)
Definition chacha20poly1305_correct `{Crypto} : Prop :=
  forall key nonce pt aad,
    chacha20poly1305_decrypt key nonce (chacha20poly1305_encrypt key nonce pt aad) aad
    = Some pt.

(** The same for AES-SIV, whose tag is 16 bytes long. *)
Definition aes_siv_correct `{Crypto} : Prop :=
  forall key aad pt,
    aes_siv_decrypt_and_verify key aad
      (fst (aes_siv_encrypt_and_digest key aad pt))
      (snd (aes_siv_encrypt_and_digest key aad pt)) = Some pt
    /\ length (snd (aes_siv_encrypt_and_digest key aad pt)) = 16%nat.

(** An HMAC-SHA256 tag is 32 bytes long. *)
Definition hmac_sha256_length `{Crypto} : Prop :=
  forall key msg, length (hmac_sha256 key msg) = 32%nat.

End Contracts.

(** ** The values one [_write_segment] call computes, by name

    Each definition is the expression the method binds to the variable of
    the same name, as a function of the writer [w], the call's readings
    [env] and the [batch]. *)

Module SegmentView.
Import Py Json SegmentWriter.

Section Segment.
Context `{PyRuntime} `{Crypto}.
Variables (w : SegmentWriter.t) (env : Env) (batch : list (dict json)).

Definition suite : Aead.AEADSuite := Aead.pick_suite (HAVE_PYCRYPTO env) (suite_rnd env).

Definition key_len : Z :=
  if String.eqb (Aead.suite_id suite) Aead.SUITE_AES_SIV then 64 else 32.

Definition info : bytes := encode ("segment-key:" +:+ Aead.suite_id suite).

Definition seg_key : bytes :=
  MasterKeyManager.derive_segment_key (_current_key w) (_prev_tag w) key_len info.

Definition raw : bytes := payload batch.
Definition padded : bytes := fst (SegmentStore.pad_to_block raw 256).
Definition padded_len : Z := snd (SegmentStore.pad_to_block raw 256).

Definition stem : dict json := header_stem w suite padded_len info.
Definition aad : bytes := encode (dumps_compact stem).

Definition ct_params : bytes * dict json :=
  match suite with
  | Aead.ChaCha20PSuite =>
      (chacha20poly1305_encrypt seg_key (nonce_rnd env) padded aad,
       [("nonce", JStr (hex (nonce_rnd env)))])
  | Aead.AESSIVSuite =>
      (fst (aes_siv_encrypt_and_digest seg_key aad padded)
         ++ snd (aes_siv_encrypt_and_digest seg_key aad padded), [])
  end.
Definition ct : bytes := fst ct_params.
Definition params : dict json := snd ct_params.

Definition chain_tag : bytes :=
  hmac_sha256 (_hmac_key w) (aad ++ ct ++ _last_chain_tag w).

Definition header_unsigned : dict json :=
  dict_set "chain_tag" (JStr (hex chain_tag)) (dict_update stem params).

Definition header_bytes : bytes := encode (dumps_compact_sorted header_unsigned).
Definition signature : bytes :=
  ed25519_sign (SessionKeys.sign_private (sess w)) header_bytes.

Definition header : dict json := dict_set "sig" (JStr (hex signature)) header_unsigned.

(** The writer once the ratchet lines have run. *)
Definition advanced : SegmentWriter.t :=
  set_ratchet seg_key (take 16 chain_tag) chain_tag w.

(** The row a successful insert adds to a table whose counter is [last]. *)
Definition row (last : Z) : Database.Row :=
  Database.mkRow (last + 1) (ts_ms env) (encode (dumps header)) ct
    (dumps [("count", JInt (Z.of_nat (List.length batch)))]).

End Segment.

(** Whether a call of [_flush_if_needed] gets as far as writing: the
    buffer is not empty, and the flush is forced or a threshold is reached. *)
Definition due `{PyRuntime} (force : bool) (env : SegmentWriter.Env)
    (w : SegmentWriter.t) : bool :=
  match SegmentWriter._buf w with
  | [] => false
  | _ =>
      negb (negb force
            && (Z.of_nat (List.length (SegmentWriter._buf w)) <? SegmentWriter.max_events w)
            && PrimFloat.ltb (SegmentWriter.now env) (SegmentWriter._next_flush w))
  end.

(** The three values the ratchet consists of. *)
Definition ratchet (w : SegmentWriter.t) : Py.bytes * Py.bytes * Py.bytes :=
  (SegmentWriter._current_key w, SegmentWriter._prev_tag w,
   SegmentWriter._last_chain_tag w).

(** The writer as [_flush_if_needed] hands it to [_write_segment]: buffer
    swapped out, deadline moved. *)
Definition swapped (env : SegmentWriter.Env) (w : SegmentWriter.t) : SegmentWriter.t :=
  SegmentWriter.set_buf []
    (SegmentWriter.now env
     + SegmentWriter.float_of_int (SegmentWriter.flush_sec w))%float w.

(** What makes a stored row a non-empty segment: a count of at least one
    and a padded length that is a positive multiple of 256. *)
Definition nonempty_segment `{PyRuntime} (r : Database.Row) : Prop :=
  exists (n p : Z) (h : Py.dict Json.json),
    1 <= n
    /\ Database.meta r = Json.dumps [("count", Json.JInt n)]
    /\ Json.loads (Py.decode (Database.header r)) = Some h
    /\ Py.dict_get "padded_len" h = Some (Json.JInt p)
    /\ 0 < p /\ p mod 256 = 0.

(** A stored row whose header decodes and whose signature verifies under
    the public key the header carries. *)
Definition signature_verifies `{PyRuntime} `{Crypto} (r : Database.Row) : Prop :=
  exists h : Py.dict Json.json,
    Json.loads (Py.decode (Database.header r)) = Some h
    /\ VerifySegments.check_signature h = true.

End SegmentView.

(** ** The verifier's view of one session *)

Module SessionView.
Import Py Json VerifySegments.

(** The entry the chain step works with: the one in the table, or the one
    it derives from the master key when the session is new. *)
Definition session_view `{Crypto} (master_key : bytes) (session_state : gmap string Sess)
    (session_id : string) : option Sess :=
  match session_state !! session_id with
  | Some sess => Some sess
  | None =>
      match fromhex session_id with
      | Some salt =>
          Some (mkSess (hkdf_derive master_key 32 salt (encode "hmac-chain"))
                       (zeros 32)
                       (hkdf_derive master_key 32 salt (encode "session-key")))
      | None => None
      end
  end.

Definition is_chain_error (e : VerifyError) : bool :=
  match e with ChainFailed _ => true | _ => false end.

Definition is_decrypt_error (e : VerifyError) : bool :=
  match e with DecryptFailed _ => true | _ => false end.

(** The loop of [verify_db] over [rows], from its initial state. *)
Definition walk `{PyRuntime} `{Crypto} (master_key : bytes) (no_decrypt HAVE_PYCRYPTO : bool)
    (rows : list Database.Row) : Loop :=
  fold_left (verify_row (Some master_key) no_decrypt HAVE_PYCRYPTO) rows
    (mkLoop (mkStats 0 0 0 0) [] ∅).

(** Every call of the list finds the database willing. *)
Definition all_persist (calls : list SegmentWriter.Call) : Prop :=
  Forall (fun c => SegmentWriter.db_ok (SegmentWriter.call_env c) = true) calls.

End SessionView.

(** ** Notions the statements below are phrased with *)

Module Notions.
Import Py Json.

(** What [safe_put] leaves in the queue: the tail gains the item, and a
    full queue loses its head first. *)
Definition offered {A} (q : Queueing.Queue A) (item : A) : Queueing.Queue A :=
  Queueing.mkQueue (Queueing.maxsize q)
    ((if Queueing.full q then tl (Queueing.items q) else Queueing.items q) ++ [item]).

(** A relation between the state before and after that a computation
    maintains. *)
Definition preserves {S E A} (f : S -> S -> Prop) (c : Eff S E A) : Prop :=
  forall s, f s (snd (c s)).

(** The world after a successful put of [ev], and after a clock reading. *)
Definition after_put (ev : Events.Event) (w : World.t) : World.t :=
  World.mk (World.perf_counter w) (World.ticks w)
    (offered (World.out_q w) ev) (World.emitted w ++ [ev]).
Definition tick (w : World.t) : World.t := snd (World.read_clock w).

(** The anomaly, or the command, an emission builds in world [w]. *)
Definition anomaly_in (w : World.t) (sev : Severity.t) (rule rationale : string)
    (features : dict json) : Events.Event :=
  Events.Anomaly (AnomalyEvent.mk
                    (BaseEvent.mk None (World.perf_counter w (World.ticks w)) None)
                    sev rule rationale features).
Definition command_in (w : World.t) (cmd : CommandType.t) (source : string)
    (notes : option string) : Events.Event :=
  Events.Command (CommandEvent.mk
                    (BaseEvent.mk None (World.perf_counter w (World.ticks w)) None)
                    cmd source notes).

Definition is_idle_to_burst (ev : Events.Event) : bool :=
  match ev with
  | Events.Anomaly a => String.eqb (AnomalyEvent.rule_id a) "idle_to_burst"
  | _ => false
  end.

(** Same [_last_non_idle_t] before and after. *)
Definition same_idle_mark (s s' : AnomalyEngine.St) : Prop :=
  AnomalyEngine._last_non_idle_t (fst s') = AnomalyEngine._last_non_idle_t (fst s).

(** The cooldown test of the context-paste branch, at clock reading [now]. *)
Definition cooldown_passed (p : PasteClassifier.t) (now : float) : bool :=
  negb (truthy_float (PasteClassifier._last_context_emit_mono p))
  || match PasteClassifier._last_context_emit_mono p with
     | Some last =>
         PrimFloat.leb
           (PasteClassifierConfig.context_cooldown_sec (PasteClassifier.cfg p))
           (now - last)
     | None => false
     end.

(** What may follow a number: nothing, or a character that neither
    continues the digits nor starts a fraction or an exponent. *)
Definition number_end (rest : string) : bool :=
  match rest with
  | "" => true
  | String c _ =>
      let n := N_of_ascii c in
      negb (is_digit c) && negb ((n =? 46) || (n =? 101) || (n =? 69))%N
  end.

(** Values a header holds: integers and strings. *)
Definition is_flat (v : json) : bool :=
  match v with JInt _ | JStr _ => true | _ => false end.

(** What follows a value inside an object: a comma or the closing brace. *)
Definition value_end (rest : string) : bool :=
  match rest with
  | String c _ => let n := N_of_ascii c in ((n =? 44) || (n =? 125))%N
  | "" => false
  end.

(** The text of one member and of all members of an object, as
    [json.dumps] writes them with its default separators. *)
Definition member_text `{PyRuntime} (kv : string * json) : string :=
  enc_str (fst kv) +:+ ": " +:+ enc default_seps (snd kv).
Definition members_text `{PyRuntime} (d : dict json) : string :=
  String.concat ", " (map member_text d).

(** The writer's key pair belongs together. *)
Definition paired `{Crypto} (w : SegmentWriter.t) : Prop :=
  SessionKeys.sign_public_bytes (SegmentWriter.sess w)
  = ed25519_public_key (SessionKeys.sign_private (SegmentWriter.sess w)).

(** The writer and the verifier agree on chain key and last chain tag. *)
Definition chain_synced `{Crypto} (master_key : bytes) (w : SegmentWriter.t)
    (L : VerifySegments.Loop) : Prop :=
  exists se,
    SessionView.session_view master_key (VerifySegments.session_state L)
      (SessionKeys.session_id (SegmentWriter.sess w)) = Some se
    /\ VerifySegments.chain_key se = SegmentWriter._hmac_key w
    /\ VerifySegments.prev_chain_tag se = SegmentWriter._last_chain_tag w.

(** The writer and the verifier agree on all three session values, and
    the writer's salt is not empty. *)
Definition synced `{Crypto} (master_key : bytes) (w : SegmentWriter.t)
    (L : VerifySegments.Loop) : Prop :=
  SessionView.session_view master_key (VerifySegments.session_state L)
    (SessionKeys.session_id (SegmentWriter.sess w))
  = Some (VerifySegments.mkSess (SegmentWriter._hmac_key w)
            (SegmentWriter._last_chain_tag w) (SegmentWriter._current_key w))
  /\ SegmentWriter._prev_tag w <> [].

(** What the verifier's decryption returns for a suite: the plaintext,
    unless it is an AES-SIV segment and the AES library is missing. *)
Definition recovered `{PyRuntime} (have : bool) (env : SegmentWriter.Env)
    (batch : list (dict json)) : option bytes :=
  match SegmentView.suite env with
  | Aead.ChaCha20PSuite => Some (SegmentView.padded batch)
  | Aead.AESSIVSuite => if have then Some (SegmentView.padded batch) else None
  end.

End Notions.

(** ** Concrete inputs used by the examples below *)

Module Scenarios.
Import Py Json Events.

(** An event as the hooks build it: no [t_utc]. *)
Definition unstamped_key : Event :=
  Key (KeyEvent.mk (BaseEvent.mk None 1.5 None) "a" KeyAction.DOWN ∅ None).

(** A tracker with a half-second CPM window that has seen one key-down. *)
Definition half_second_tracker : MetricsTracker.t :=
  MetricsTracker.observe_key
    (KeyEvent.mk (BaseEvent.mk None 0.125 None) "a" KeyAction.DOWN ∅ None)
    (MetricsTracker.init 60 0.5 20 0).

(** A world whose clock always reads 100 s and whose channel is the
    runtime's (capacity 5000), an engine built in it, and a clipboard
    change of 120 characters seven seconds later. *)
Definition quiet_world : World.t :=
  World.mk (fun _ => 100%float) 0 (Queueing.mkQueue 5000 []) [].
Definition quiet_engine : AnomalyEngine.St :=
  AnomalyEngine.init AnomalyConfig.default quiet_world.
Definition burst_clip : ClipboardEvent.t :=
  ClipboardEvent.mk (BaseEvent.mk None 107 None) ClipboardAction.CHANGE 120 "text" None.

(** A classifier (window 0.5 s) that has just seen a right-click stamped
    10 s, and a clipboard change stamped 3 s: seven seconds before it. *)
Definition right_click_at_10 : Events.Event :=
  Events.Mouse (MouseEvent.mk (BaseEvent.mk None 10 None) (Some "right")
                  MouseAction.DOWN None None None).
Definition after_right_click : PasteClassifier.St :=
  snd (PasteClassifier.process right_click_at_10
         (PasteClassifier.init (PasteClassifierConfig.mk 0.5 0.3 true), quiet_world)).
Definition early_clip : ClipboardEvent.t :=
  ClipboardEvent.mk (BaseEvent.mk None 3 None) ClipboardAction.CHANGE 42 "text" None.

(** A writer on the stand-in primitives with one event buffered, and the
    readings of a call whose insert the database accepts or refuses. *)
Definition toy_entropy : MasterKeyManager.Entropy :=
  MasterKeyManager.mkEntropy
    [Byte.x01; Byte.x02; Byte.x03; Byte.x04; Byte.x05] [Byte.xaa; Byte.xbb]
    [Byte.x09; Byte.x08].
Definition toy_writer : SegmentWriter.t :=
  fst (@SegmentWriter.init Toy.crypto 60 500 toy_entropy 1000 (SecretsDir.mk None None)).
Definition toy_secrets : SecretsDir.t :=
  snd (@SegmentWriter.init Toy.crypto 60 500 toy_entropy 1000 (SecretsDir.mk None None)).
Definition toy_env (db_ok : bool) : SegmentWriter.Env :=
  SegmentWriter.mkEnv 1001 Byte.x00 [Byte.x0a; Byte.x0b; Byte.x0c] 1700000000000 true db_ok.
Definition toy_add (db_ok : bool) : SegmentWriter.Call :=
  SegmentWriter.AddEvent "2024-01-01T00:00:00.000+00:00" (Events.Clipboard burst_clip)
    (toy_env db_ok).
Definition one_buffered : SegmentWriter.St :=
  @SegmentWriter.run Toy.runtime Toy.crypto [toy_add true] (toy_writer, Database.empty).

(** Three forced flushes of one event each; in [gap_calls] the database
    refuses the second insert. *)
Definition flush_one (db_ok : bool) : list SegmentWriter.Call :=
  [toy_add true; SegmentWriter.Stop (toy_env db_ok)].
Definition steady_calls : list SegmentWriter.Call :=
  flush_one true ++ flush_one true ++ flush_one true.
Definition gap_calls : list SegmentWriter.Call :=
  flush_one true ++ flush_one false ++ flush_one true.
Definition toy_run (calls : list SegmentWriter.Call) : SegmentWriter.St :=
  @SegmentWriter.run Toy.runtime Toy.crypto calls (toy_writer, Database.empty).

End Scenarios.

(** ** app/policy/whitelist.py

    [fnmatch.fnmatch] and [str.lower] belong to the interpreter's library;
    the policy is parametric in them. *)

Class PyText : Type := {
  (** [fnmatch(name, pat)] *)
  fnmatch : string -> string -> bool;
  (** [s.lower()] *)
  str_lower : string -> string
}.

Module Verdict.
Record t : Type := mk { allowed : bool; reason : string }.
End Verdict.

Module WhitelistPolicy.

Record t : Type := mk {
  allow : list string;
  deny : list string
}.

Definition default : t :=
  mk ["exam-app*"]
     ["*browser*"; "*chrome*"; "*edge*"; "*firefox*"; "*safari*"; "*notepad*"; "*notes*"].

(** [for pat in pats: if fnmatch(name, pat): return ...]: the first
    pattern that matches, if any. *)
Fixpoint first_match `{PyText} (name : string) (pats : list string) : option string :=
  match pats with
  | [] => None
  | pat :: rest => if fnmatch name pat then Some pat else first_match name rest
  end.

Definition decide `{PyText} (p : t) (app_name : option string) : Verdict.t :=
  let name :=
    str_lower (if Py.truthy_str app_name
               then match app_name with Some s => s | None => "unknown" end
               else "unknown") in
  match first_match name (deny p) with
  | Some pat => Verdict.mk false ("deny:" +:+ pat)
  | None =>
      match first_match name (allow p) with
      | Some pat => Verdict.mk true ("allow:" +:+ pat)
      | None => Verdict.mk false "default-deny"
      end
  end.

End WhitelistPolicy.

(** ** app/controller/context_state.py (the lock is not modelled) *)

Module AppContext.
Record t : Type := mk {
  app_name : string;
  pid : option Z;
  title : option string;
  since_mono : float
}.
Definition default : t := mk "unknown" None None 0.
End AppContext.

Module ContextState.
Record t : Type := mk { _current : AppContext.t }.
Definition init : t := mk AppContext.default.
Definition update (app_name : string) (pid : option Z) (title : option string)
    (since_mono : float) (c : t) : t :=
  mk (AppContext.mk app_name pid title since_mono).
Definition get_current (c : t) : AppContext.t := _current c.
End ContextState.

(** ** app/controller/runner.py: the body of the consumer loop

    The hooks, the log and the [on_event] callback are left out; the
    channel is the world's, shared by the classifier and the engine. *)

Module HookRuntime.
Import Py Json Events.

Record t : Type := mk {
  classifier : PasteClassifier.t;
  anomaly : AnomalyEngine.t;
  seg_writer : SegmentWriter.t;
  ctx : ContextState.t
}.

Definition St : Type := t * World.t * Database.t.

(** [dataclasses.replace(ev, app=app)]: every other field is kept, and
    [__post_init__] sets the same [etype] again. *)
Definition with_app (app : string) (b : BaseEvent.t) : BaseEvent.t :=
  BaseEvent.mk (BaseEvent.t_utc b) (BaseEvent.t_mono b) (Some app).

Definition replace_app (app : string) (ev : Event) : Event :=
  match ev with
  | Key e =>
      Key (KeyEvent.mk (with_app app (KeyEvent.base e)) (KeyEvent.key e)
             (KeyEvent.action e) (KeyEvent.mods e) (KeyEvent.scan_code e))
  | Mouse e =>
      Mouse (MouseEvent.mk (with_app app (MouseEvent.base e)) (MouseEvent.button e)
               (MouseEvent.action e) (MouseEvent.clicks e) (MouseEvent.x e)
               (MouseEvent.y e))
  | Clipboard e =>
      Clipboard (ClipboardEvent.mk (with_app app (ClipboardEvent.base e))
                   (ClipboardEvent.action e) (ClipboardEvent.length e)
                   (ClipboardEvent.kind e) (ClipboardEvent.session_digest e))
  | Command e =>
      Command (CommandEvent.mk (with_app app (CommandEvent.base e))
                 (CommandEvent.command e) (CommandEvent.source e) (CommandEvent.notes e))
  | Focus e =>
      Focus (FocusEvent.mk (with_app app (FocusEvent.base e)) (FocusEvent.app_name e)
               (FocusEvent.pid e) (FocusEvent.title e) (FocusEvent.dwell_prev_s e))
  | Anomaly e =>
      Anomaly (AnomalyEvent.mk (with_app app (AnomalyEvent.base e))
                 (AnomalyEvent.severity e) (AnomalyEvent.rule_id e)
                 (AnomalyEvent.rationale e) (AnomalyEvent.features e))
  end.

(** The first step of a turn: a focus change updates the context, any
    other event is stamped with the current application. *)
Definition annotate (ev : Event) (c : ContextState.t) : ContextState.t * Event :=
  match ev with
  | Focus f =>
      (ContextState.update (FocusEvent.app_name f) (FocusEvent.pid f)
         (FocusEvent.title f) (t_mono ev) c, ev)
  | _ => (c, replace_app (AppContext.app_name (ContextState.get_current c)) ev)
  end.

(** The body of the loop for an event [ev] taken from the channel: each
    component is called in turn, and what it raises is caught and logged.
    [utc_now] and [env] are what [add_event] reads from its surroundings. *)
Definition dispatch `{PyRuntime} `{Crypto} (utc_now : string) (env : SegmentWriter.Env)
    (ev : Event) (s : St) : St :=
  let '(rt, w, db) := s in
  let (ctx1, ev1) := annotate ev (ctx rt) in
  let '(_, (cl, w1)) := PasteClassifier.process ev1 (classifier rt, w) in
  let '(_, (an, w2)) := AnomalyEngine.process ev1 (anomaly rt, w1) in
  let '(_, (sw, db1)) := SegmentWriter.add_event utc_now ev1 env (seg_writer rt, db) in
  (mk cl an sw ctx1, w2, db1).

End HookRuntime.

(** ** Notions used by the further properties *)

Module Observations.
Import Py Json.

(** The last [k] elements of a list. *)
Definition newest {A} (k : Z) (l : list A) : list A :=
  skipn (length l - Z.to_nat k)%nat l.

(** [safe_put] of each item in turn, whatever each call returns. *)
Definition put_all {A} (q : Queueing.Queue A) (xs : list A) : Queueing.Queue A :=
  fold_left (fun q x => snd (Queueing.safe_put q x)) xs q.

(** [observe_key] of each event in turn. *)
Definition observe_all (evs : list KeyEvent.t) (m : MetricsTracker.t) : MetricsTracker.t :=
  fold_left (fun m e => MetricsTracker.observe_key e m) evs m.

Definition is_down (e : KeyEvent.t) : bool :=
  match KeyEvent.action e with KeyAction.DOWN => true | KeyAction.UP => false end.

(** What [observe_key] appends to the key window. *)
Definition key_entry (e : KeyEvent.t) : list (float * string) :=
  match KeyEvent.action e with
  | KeyAction.DOWN => [(BaseEvent.t_mono (KeyEvent.base e), KeyEvent.key e)]
  | KeyAction.UP => []
  end.

(** The invariant behind the interval window: nothing recorded before the
    first key-down; afterwards at most one interval per further key-down,
    each of positive length. *)
Definition intervals_inv (downs : nat) (m : MetricsTracker.t) : Prop :=
  Forall (fun p => PrimFloat.ltb 0 (snd p) = true) (MetricsTracker._intervals m)
  /\ (length (MetricsTracker._intervals m) <= downs - 1)%nat
  /\ (downs = 0%nat -> MetricsTracker._last_key_down_t m = None).

Definition is_anomaly (ev : Events.Event) : bool :=
  match ev with Events.Anomaly _ => true | _ => false end.

Definition is_command (ev : Events.Event) : bool :=
  match ev with Events.Command _ => true | _ => false end.

(** An anomaly raised under the given rule. *)
Definition rule_is (rule : string) (ev : Events.Event) : bool :=
  match ev with
  | Events.Anomaly a => String.eqb (AnomalyEvent.rule_id a) rule
  | _ => false
  end.

(** A computation of a pipeline component that, on a channel respecting
    its bound, returns normally, keeps the bound, and puts at most [n]
    events on the channel, each satisfying [P]. *)
Definition emits {T A : Type} (n : nat) (P : Events.Event -> bool)
    (c : Eff (T * World.t) Queueing.QueueExn A) : Prop :=
  forall s, Queueing.queue_wf (World.out_q (snd s)) ->
    exists a s' new,
      c s = (Ok a, s')
      /\ Queueing.queue_wf (World.out_q (snd s'))
      /\ World.emitted (snd s') = World.emitted (snd s) ++ new
      /\ (length new <= n)%nat
      /\ forallb P new = true.

(** The engine as [_gc] leaves it at time [now]. *)
Definition swept (now : float) (e : AnomalyEngine.t) : AnomalyEngine.t :=
  AnomalyEngine.mk (AnomalyEngine.cfg e) (AnomalyEngine.metrics e)
    (AnomalyEngine.popleft_while_lt
       (now - AnomalyConfig.keys_window_s (AnomalyEngine.cfg e))%float
       (AnomalyEngine._recent_keys e))
    (AnomalyEngine._paste_times e) (AnomalyEngine._last_idle_start e)
    (AnomalyEngine._last_non_idle_t e).

Definition with_paste_times (times : list float) (e : AnomalyEngine.t) : AnomalyEngine.t :=
  AnomalyEngine.mk (AnomalyEngine.cfg e) (AnomalyEngine.metrics e)
    (AnomalyEngine._recent_keys e) times (AnomalyEngine._last_idle_start e)
    (AnomalyEngine._last_non_idle_t e).

(** How many anomalies one event can raise. *)
Definition anomaly_bound (ev : Events.Event) : nat :=
  match ev with
  | Events.Key _ => 1
  | Events.Clipboard _ => 2
  | Events.Command _ => 1
  | _ => 0
  end.

(** The number of recent key-downs the text-injection rule counts. *)
Definition recent_count (now : float) (e : AnomalyEngine.t) : Z :=
  Z.of_nat (length (List.filter
    (fun t0 => PrimFloat.leb (now - AnomalyConfig.keys_window_s (AnomalyEngine.cfg e)) t0)
    (AnomalyEngine._recent_keys e))).

(** How many commands one event can give rise to. *)
Definition command_bound (ev : Events.Event) : nat :=
  match ev with
  | Events.Key _ | Events.Mouse _ | Events.Clipboard _ => 1
  | _ => 0
  end.

(** The shortcut letters and their commands. *)
Definition hotkey_command (letter : string) : option CommandType.t :=
  if String.eqb letter "c" then Some CommandType.COPY
  else if String.eqb letter "x" then Some CommandType.CUT
  else if String.eqb letter "v" then Some CommandType.PASTE
  else None.

(** A key-down with Ctrl or Cmd held. *)
Definition is_shortcut (k : KeyEvent.t) : bool :=
  is_down k
  && (bool_decide ("ctrl" ∈ KeyEvent.mods k) || bool_decide ("cmd" ∈ KeyEvent.mods k)).

(** The classifier after it has noted a clipboard change at [t]. *)
Definition noted (t : float) (p : PasteClassifier.t) : PasteClassifier.t :=
  PasteClassifier.mk (PasteClassifier.cfg p) (PasteClassifier._last_right_click_mono p)
    (Some t) (PasteClassifier._last_context_emit_mono p).

(** The window test of the context-paste branch. *)
Definition in_context_window (p : PasteClassifier.t) (t : float) : bool :=
  match PasteClassifier._last_right_click_mono p with
  | Some rc =>
      PrimFloat.leb (t - rc)
        (PasteClassifierConfig.context_window_sec (PasteClassifier.cfg p))
  | None => false
  end.

(** A press or release of the right button; a press of the middle one. *)
Definition is_right_click (m : MouseEvent.t) : bool :=
  PasteClassifier.str_opt_eqb (MouseEvent.button m) "right"
  && match MouseEvent.action m with
     | MouseAction.DOWN | MouseAction.UP => true
     | _ => false
     end.
Definition is_middle_press (m : MouseEvent.t) : bool :=
  PasteClassifier.str_opt_eqb (MouseEvent.button m) "middle"
  && match MouseEvent.action m with MouseAction.DOWN => true | _ => false end.

(** The number of events a stored row stands for, read back from its
    [meta] column; the events held by a table; the [add_event] calls of a
    list of calls. *)
Definition meta_count `{PyRuntime} (r : Database.Row) : Z :=
  match loads (Database.meta r) with
  | Some d => match dict_get "count" d with Some (JInt n) => n | _ => 0 end
  | None => 0
  end.
Definition stored_events `{PyRuntime} (db : Database.t) : Z :=
  fold_right (fun r acc => meta_count r + acc) 0 (Database.rows db).
Definition buffered_events (w : SegmentWriter.t) : Z :=
  Z.of_nat (length (SegmentWriter._buf w)).
Definition is_add (c : SegmentWriter.Call) : bool :=
  match c with SegmentWriter.AddEvent _ _ _ => true | _ => false end.
Definition adds (calls : list SegmentWriter.Call) : Z :=
  Z.of_nat (length (List.filter is_add calls)).

(** A table whose rows are numbered 1, 2, ... in order, the counter
    standing at the last number given out. *)
Definition numbered (db : Database.t) : Prop :=
  map Database.seq (Database.rows db)
  = map Z.of_nat (seq 1 (length (Database.rows db)))
  /\ Database.last_seq db = Z.of_nat (length (Database.rows db)).

(** Line feeds in a text, and [text.split("\n")]. *)
Definition is_newline (c : ascii) : bool := (N_of_ascii c =? 10)%N.
Fixpoint newlines (s : string) : nat :=
  match s with
  | "" => 0
  | String c r => (if is_newline c then 1 else 0) + newlines r
  end.
Fixpoint split_lines (s : string) : list string :=
  match s with
  | "" => [""]
  | String c r =>
      if is_newline c then "" :: split_lines r
      else match split_lines r with
           | l :: ls => String c l :: ls
           | [] => [String c ""]
           end
  end.

(** The interpreter prints a float on one line. *)
Definition floats_on_one_line `{PyRuntime} : Prop :=
  forall f, newlines (float_repr f) = 0%nat.

(** The events a turn of the consumer loop has put on the channel. *)
Definition put_by (s s' : HookRuntime.St) (new : list Events.Event) : Prop :=
  World.emitted (snd (fst s')) = World.emitted (snd (fst s)) ++ new.

End Observations.

(** ** Further concrete inputs *)

Module Cases.
Import Py Json Events Scenarios.

(** A paste by shortcut, a clipboard change of ten characters, a plain
    key-down, Ctrl+V with a capital V, and a press of the middle button. *)
Definition paste_cmd : CommandEvent.t :=
  CommandEvent.mk (BaseEvent.mk None 101 None) CommandType.PASTE "hotkey" None.
Definition short_clip : ClipboardEvent.t :=
  ClipboardEvent.mk (BaseEvent.mk None 107 None) ClipboardAction.CHANGE 10 "text" None.
Definition key_a : KeyEvent.t :=
  KeyEvent.mk (BaseEvent.mk None 101 None) "a" KeyAction.DOWN ∅ None.
Definition ctrl_v : KeyEvent.t :=
  KeyEvent.mk (BaseEvent.mk None 101 None) "V" KeyAction.DOWN {[ "ctrl" ]} None.
Definition middle_press : MouseEvent.t :=
  MouseEvent.mk (BaseEvent.mk None 101 None) (Some "middle") MouseAction.DOWN
    None None None.

(** A classifier as the runtime builds it, and one whose last context
    paste was stamped 0.0, with a right click on record at 10 s. *)
Definition fresh_classifier : PasteClassifier.t :=
  PasteClassifier.init PasteClassifierConfig.default.
Definition emitted_at_zero : PasteClassifier.t :=
  PasteClassifier.mk (PasteClassifierConfig.mk 0.5 0.3 true) (Some 10%float) None
    (Some 0%float).

(** The components together, on the stand-in primitives; a table with one
    stored segment. *)
Definition fresh_runtime : HookRuntime.t :=
  HookRuntime.mk fresh_classifier (fst quiet_engine) toy_writer ContextState.init.
Definition one_segment : Database.t := snd (toy_run (flush_one true)).

End Cases.

(** ** Theorems *)

Module QueueingFacts.
Import Notions.
Import Queueing.

Lemma full_nonempty {A} (q : Queue A) :
  queue_wf q -> full q = true ->
  exists oldest rest, items q = oldest :: rest /\ qsize q = maxsize q.
Proof.
  unfold queue_wf, full, qsize. intros Hwf Hfull.
  apply andb_prop in Hfull as [Hpos Hge].
  apply Z.ltb_lt in Hpos. apply Z.leb_le in Hge.
  destruct (items q) as [|oldest rest] eqn:E; cbn in *; [lia|].
  exists oldest, rest. split; [reflexivity | lia].
Qed.

Lemma safe_put_offered {A} (q : Queue A) (item : A) :
  queue_wf q -> safe_put q item = (Ok tt, offered q item) /\ queue_wf (offered q item).
Proof.
  intros Hwf. unfold safe_put, put_nowait, offered.
  destruct (full q) eqn:Hfull.
  - destruct (full_nonempty q Hwf Hfull) as (oldest & rest & Hit & Hsz).
    unfold get_nowait. rewrite Hit. cbn [tl].
    unfold qsize in Hsz. rewrite Hit in Hsz. cbn in Hsz.
    assert (Hnf : full (mkQueue (maxsize q) rest) = false).
    { unfold full, qsize. cbn. apply andb_false_iff. right. apply Z.leb_gt. lia. }
    rewrite Hnf. split; [reflexivity|].
    right. unfold qsize. cbn. rewrite length_app. cbn. lia.
  - split; [reflexivity|].
    unfold queue_wf, full, qsize in *. cbn. rewrite length_app. cbn.
    apply andb_false_iff in Hfull as [H|H];
      [apply Z.ltb_ge in H | apply Z.leb_gt in H]; lia.
Qed.

(** C6. On a channel that respects its bound [safe_put] always returns
    normally and keeps the capacity; with room the item goes to the tail;
    when the channel is full exactly the head is dropped, the rest keeps
    its order and the item goes to the tail. *)
Theorem safe_put_drop_oldest {A} (q : Queue A) (item : A) :
  queue_wf q ->
  exists q', safe_put q item = (Ok tt, q') /\
    maxsize q' = maxsize q /\ queue_wf q' /\
    (full q = false -> items q' = items q ++ [item]) /\
    (full q = true ->
       exists oldest rest,
         items q = oldest :: rest /\ items q' = rest ++ [item] /\
         length (items q') = length (items q)).
Proof.
  intros Hwf. destruct (safe_put_offered q item Hwf) as [Hput Hwf'].
  exists (offered q item). split; [exact Hput|]. split; [reflexivity|].
  split; [exact Hwf'|]. unfold offered. cbn. split.
  - intros ->. reflexivity.
  - intros Hfull. destruct (full_nonempty q Hwf Hfull) as (oldest & rest & Hit & _).
    exists oldest, rest. rewrite Hfull, Hit. cbn [tl]. repeat split.
    rewrite length_app. cbn. lia.
Qed.

Lemma safe_put_drop_oldest_witness :
  exists q', safe_put (mkQueue 2 [1; 2]) 3 = (Ok tt, q') /\
    maxsize q' = 2 /\ queue_wf q' /\
    (full (mkQueue 2 [1; 2]) = false -> items q' = [1; 2] ++ [3]) /\
    (full (mkQueue 2 [1; 2]) = true ->
       exists oldest rest,
         [1; 2] = oldest :: rest /\ items q' = rest ++ [3] /\
         length (items q') = length [1; 2]).
Proof.
  apply (safe_put_drop_oldest (mkQueue 2 [1; 2]) 3).
  right. vm_compute. discriminate.
Defined.

End QueueingFacts.

Module EventsFacts.
Import Notions.
Import Py Json Events Scenarios.

Lemma base_record_keys utc_now ev :
  keys (base_to_record utc_now ev) = ["etype"; "t_utc"; "t_mono"; "app"].
Proof. reflexivity. Qed.

(** C5, refuted as stated: one unstamped event, serialized at two wall-clock
    times, gives two different records. *)
Lemma to_record_depends_on_clock :
  dict_get "t_utc" (to_record "2024-01-01T00:00:00.000+00:00" unstamped_key)
    = Some (JStr "2024-01-01T00:00:00.000+00:00") /\
  dict_get "t_utc" (to_record "2024-01-01T00:00:00.001+00:00" unstamped_key)
    = Some (JStr "2024-01-01T00:00:00.001+00:00") /\
  to_record "2024-01-01T00:00:00.000+00:00" unstamped_key
    <> to_record "2024-01-01T00:00:00.001+00:00" unstamped_key.
Proof.
  split; [reflexivity|]. split; [reflexivity|].
  intros H. apply (f_equal (dict_get "t_utc")) in H. vm_compute in H. discriminate H.
Qed.

(** C5, amended. An event whose [t_utc] is a non-empty string serializes to
    the same record whatever the clock shows; otherwise the record's
    [t_utc] is the clock reading, and every other key is the same. *)
Theorem to_record_deterministic_up_to_t_utc (ev : Event) (u1 u2 : string) :
  (truthy_str (BaseEvent.t_utc (base ev)) = true ->
     to_record u1 ev = to_record u2 ev) /\
  (truthy_str (BaseEvent.t_utc (base ev)) = false ->
     dict_get "t_utc" (to_record u1 ev) = Some (JStr u1)) /\
  dict_pop "t_utc" (to_record u1 ev) = dict_pop "t_utc" (to_record u2 ev).
Proof.
  unfold to_record, base_to_record, t_utc_val.
  destruct (BaseEvent.t_utc (base ev)) as [s|]; cbn [truthy_str].
  - destruct (negb (String.eqb s "")).
    + split; [reflexivity|]. split; [discriminate|]. reflexivity.
    + split; [discriminate|]. split; [intros _|]; destruct ev; reflexivity.
  - split; [discriminate|]. split; [intros _|]; destruct ev; reflexivity.
Qed.

End EventsFacts.

(** ** Facts about binary64 comparisons used below *)

Module FloatFacts.
Import Notions.
Import Py.

Lemma SFcompare_finite_eq (m1 : positive) (e1 : Z) (f2 : spec_float) :
  SFleb (S754_finite false m1 e1) f2 = true ->
  SFltb (S754_finite false m1 e1) f2 = false ->
  f2 = S754_finite false m1 e1.
Proof.
  unfold SFleb, SFltb.
  destruct f2 as [s| s | |s m e]; cbn; intros Hle Hlt; try discriminate.
  - destruct s; discriminate.
  - destruct s; [discriminate|].
    destruct (e1 ?= e)%Z eqn:He; try discriminate.
    apply Z.compare_eq in He. subst e.
    destruct (Pos.compare_cont Eq m1 m) eqn:Hm; try discriminate.
    apply Pcompare_Eq_eq in Hm. subst m. reflexivity.
Qed.

(** A float that is not below 1.0 and not above it is 1.0. *)
Lemma leb_not_ltb_one (w : float) :
  PrimFloat.leb 1 w = true -> PrimFloat.ltb 1 w = false -> w = 1%float.
Proof.
  rewrite leb_spec, ltb_spec. intros Hle Hlt.
  apply Prim2SF_inj.
  change (Prim2SF 1) with (S754_finite false 4503599627370496 (-52)) in *.
  apply SFcompare_finite_eq; assumption.
Qed.

Lemma fmax_one_le (w : float) : PrimFloat.leb 1 w = true -> fmax 1 w = w.
Proof.
  intros Hle. unfold fmax. destruct (PrimFloat.ltb 1 w) eqn:Hlt; [reflexivity|].
  symmetry. apply leb_not_ltb_one; assumption.
Qed.

(** Anything below zero is below anything at or above zero. *)
Lemma negative_leb_nonnegative (d w : float) :
  PrimFloat.ltb d 0 = true -> PrimFloat.leb 0 w = true -> PrimFloat.leb d w = true.
Proof.
  rewrite !leb_spec, ltb_spec.
  change (Prim2SF 0) with (S754_zero false).
  unfold SFleb, SFltb.
  destruct (Prim2SF d) as [sd| sd | |sd md ed], (Prim2SF w) as [sw| sw | |sw mw ew];
    cbn; intros Hd Hw; try discriminate; try reflexivity;
    destruct sd; try discriminate; destruct sw; try discriminate; reflexivity.
Qed.

End FloatFacts.

Module MetricsFacts.
Import Notions.
Import Py Scenarios.

(** C8, refuted as stated: with a half-second window and one key-down in
    it, the snapshot reports 60 where the stated formula gives 120. *)
Lemma cpm_short_window_divides_by_one :
  PrimFloat.ltb 0 (MetricsTracker.cpm_window_s half_second_tracker) = true /\
  MetricsTracker.keys_recent 0.25 half_second_tracker = ["a"] /\
  MetricsSnapshot.cpm (@MetricsTracker.snapshot Toy.runtime 0.25 half_second_tracker)
    = 60%float /\
  (MetricsTracker.float_of_len (MetricsTracker.keys_recent 0.25 half_second_tracker)
     / MetricsTracker.cpm_window_s half_second_tracker * 60)%float = 120%float.
Proof. repeat split; vm_compute; reflexivity. Qed.

(** C8, amended. The snapshot divides the count of recent key-downs by
    [max(1.0, cpm_window_s)]; this is the stated formula whenever the
    window is at least one second; [wpm] is [cpm / 5]. *)
Theorem snapshot_cpm_wpm `{PyRuntime} (now : float) (m : MetricsTracker.t) :
  let count := MetricsTracker.float_of_len (MetricsTracker.keys_recent now m) in
  let s := MetricsTracker.snapshot now m in
  MetricsSnapshot.cpm s
    = (count / fmax 1 (MetricsTracker.cpm_window_s m) * 60)%float /\
  MetricsSnapshot.wpm s = (MetricsSnapshot.cpm s / 5)%float /\
  (PrimFloat.leb 1 (MetricsTracker.cpm_window_s m) = true ->
   MetricsSnapshot.cpm s = (count / MetricsTracker.cpm_window_s m * 60)%float).
Proof.
  cbn. split; [reflexivity|]. split; [reflexivity|].
  intros Hw. rewrite (FloatFacts.fmax_one_le _ Hw). reflexivity.
Qed.

End MetricsFacts.

(** ** The effect monad and the surroundings *)

Module EffFacts.
Import Notions.

Lemma bind_ok {S E A B} (c : Eff S E A) (k : A -> Eff S E B) (s s' : S) (a : A) :
  c s = (Ok a, s') -> bind c k s = k a s'.
Proof. unfold bind. intros ->. reflexivity. Qed.

Lemma bind_raise {S E A B} (c : Eff S E A) (k : A -> Eff S E B) (s s' : S) (e : E) :
  c s = (Raise e, s') -> bind c k s = (Raise e, s').
Proof. unfold bind. intros ->. reflexivity. Qed.

Lemma preserves_bind {S E A B} (f : S -> S -> Prop) (c : Eff S E A) (k : A -> Eff S E B) :
  (forall s1 s2 s3, f s1 s2 -> f s2 s3 -> f s1 s3) ->
  preserves f c -> (forall a, preserves f (k a)) -> preserves f (bind c k).
Proof.
  intros Htrans Hc Hk s. unfold bind.
  specialize (Hc s). destruct (c s) as [[a|e] s']; cbn in *.
  - eapply Htrans; [exact Hc | apply Hk].
  - exact Hc.
Qed.

Lemma preserves_when {S E} (f : S -> S -> Prop) (b : bool) (c : Eff S E unit) :
  (forall s, f s s) -> preserves f c -> preserves f (when b c).
Proof. intros Hrefl Hc. destruct b; [exact Hc | intros s; apply Hrefl]. Qed.

End EffFacts.

Module WorldFacts.
Import Notions.
Import Queueing QueueingFacts.

Lemma put_ok (ev : Events.Event) (w : World.t) :
  queue_wf (World.out_q w) ->
  World.put ev w = (Ok tt, after_put ev w) /\ queue_wf (World.out_q (after_put ev w)).
Proof.
  intros Hwf. destruct (safe_put_offered (World.out_q w) ev Hwf) as [Hput Hwf'].
  unfold World.put. rewrite Hput. split; [reflexivity | exact Hwf'].
Qed.

End WorldFacts.

Module EngineFacts.
Import Notions.
Import Py Json Events Queueing QueueingFacts EffFacts WorldFacts AnomalyEngine Scenarios.

Lemma emit_anomaly_ok (e : t) (w : World.t) sev rule rationale features :
  queue_wf (World.out_q w) ->
  let ev := anomaly_in w sev rule rationale features in
  emit_anomaly sev rule rationale features (e, w) = (Ok tt, (e, after_put ev (tick w)))
  /\ queue_wf (World.out_q (after_put ev (tick w))).
Proof.
  intros Hwf. cbv zeta.
  destruct (put_ok (anomaly_in w sev rule rationale features) (tick w) Hwf)
    as [Hput Hwf'].
  split; [|exact Hwf'].
  unfold emit_anomaly, bind, mono_ts, safe_put_out.
  unfold anomaly_in, tick, World.read_clock in *. cbn [fst snd] in *.
  rewrite Hput. reflexivity.
Qed.

Lemma same_idle_mark_trans (s1 s2 s3 : St) :
  same_idle_mark s1 s2 -> same_idle_mark s2 s3 -> same_idle_mark s1 s3.
Proof. unfold same_idle_mark. congruence. Qed.

Lemma same_idle_mark_refl (s : St) : same_idle_mark s s.
Proof. reflexivity. Qed.

Create HintDb idle.
#[local] Hint Resolve same_idle_mark_trans same_idle_mark_refl : idle.

Lemma emit_keeps_idle_mark sev rule rationale features :
  preserves same_idle_mark (emit_anomaly sev rule rationale features).
Proof.
  intros [e w]. unfold emit_anomaly, bind, mono_ts, safe_put_out, same_idle_mark. cbn.
  destruct (World.put _ _) as [[u|x] w']; reflexivity.
Qed.

Lemma idle_to_burst_keeps `{PyRuntime} now n : preserves same_idle_mark (_idle_to_burst now n).
Proof.
  unfold _idle_to_burst. apply preserves_bind; eauto with idle.
  - intros s. apply same_idle_mark_refl.
  - intros e. apply preserves_when; eauto with idle. apply emit_keeps_idle_mark.
Qed.

Lemma text_injection_keeps `{PyRuntime} now n :
  preserves same_idle_mark (_text_injection_without_typing now n).
Proof.
  unfold _text_injection_without_typing. apply preserves_bind; eauto with idle.
  - intros s. apply same_idle_mark_refl.
  - intros e. apply preserves_when; eauto with idle. apply emit_keeps_idle_mark.
Qed.

Lemma update_keeps (f : t -> t) :
  (forall e, _last_non_idle_t (f e) = _last_non_idle_t e) ->
  preserves same_idle_mark (update f).
Proof. intros Hf [e w]. unfold same_idle_mark. cbn. apply Hf. Qed.

Lemma multi_paste_keeps `{PyRuntime} now : preserves same_idle_mark (_multi_paste_streaks now).
Proof.
  unfold _multi_paste_streaks.
  apply preserves_bind; eauto with idle; [intros s; apply same_idle_mark_refl|].
  intros e0. apply preserves_bind; eauto with idle; [apply update_keeps; reflexivity|].
  intros _. apply preserves_bind; eauto with idle; [intros s; apply same_idle_mark_refl|].
  intros e. apply preserves_when; eauto with idle. apply emit_keeps_idle_mark.
Qed.

Lemma timing_keeps `{PyRuntime} : preserves same_idle_mark _timing_entropy_check.
Proof.
  unfold _timing_entropy_check.
  apply preserves_bind; eauto with idle; [intros s; apply same_idle_mark_refl|].
  intros e. destruct (MetricsTracker.interkey_uniformity_cv _).
  - apply preserves_when; eauto with idle. apply emit_keeps_idle_mark.
  - intros s. apply same_idle_mark_refl.
Qed.

Lemma gc_keeps now : preserves same_idle_mark (_gc now).
Proof. apply update_keeps. reflexivity. Qed.

Lemma ret_keeps : preserves same_idle_mark (ret tt : M unit).
Proof. intros s. apply same_idle_mark_refl. Qed.

#[local] Hint Resolve emit_keeps_idle_mark idle_to_burst_keeps text_injection_keeps
  multi_paste_keeps timing_keeps gc_keeps ret_keeps : idle.

Ltac keeps :=
  repeat first
    [ solve [eauto with idle]
    | apply update_keeps; reflexivity
    | apply preserves_when; [eauto with idle | ]
    | apply preserves_bind; [eauto with idle | | intros ?] ].

Lemma keeps_apply {A} (c : M A) (s : St) :
  preserves same_idle_mark c ->
  _last_non_idle_t (fst (snd (c s))) = _last_non_idle_t (fst s).
Proof. intros Hc. apply (Hc s). Qed.

(** Where [process] leaves [_last_non_idle_t]. *)
Lemma process_idle_mark `{PyRuntime} (ev : Event) (s : St) :
  _last_non_idle_t (fst (snd (process ev s))) =
  match ev with
  | Key k =>
      match KeyEvent.action k with
      | KeyAction.DOWN => t_mono ev
      | KeyAction.UP => _last_non_idle_t (fst s)
      end
  | _ => _last_non_idle_t (fst s)
  end.
Proof.
  destruct ev as [k|m|c|c|f|a]; unfold process.
  2-6: (apply keeps_apply; keeps).
  destruct (KeyEvent.action k) eqn:Ha.
  - unfold bind at 1. unfold bind at 1. cbn [update modify fst snd].
    etransitivity; [apply keeps_apply; keeps | reflexivity].
  - apply keeps_apply; keeps.
Qed.

(** The rule's own step, when its condition holds. *)
Lemma idle_to_burst_emits `{PyRuntime} (e : t) (w : World.t) (now : float) (n : Z) :
  queue_wf (World.out_q w) ->
  PrimFloat.leb (AnomalyConfig.idle_threshold_s (cfg e)) (now - _last_non_idle_t e) = true ->
  AnomalyConfig.burst_min_len (cfg e) <= n ->
  exists rationale,
    let ev := anomaly_in w Severity.HIGH "idle_to_burst" rationale
                [ ("idle_s", JFloat (round_nd (now - _last_non_idle_t e) 3));
                  ("clip_len", JInt n) ] in
    _idle_to_burst now n (e, w) = (Ok tt, (e, after_put ev (tick w)))
    /\ queue_wf (World.out_q (after_put ev (tick w))).
Proof.
  intros Hwf Hidle Hlen. eexists. cbv zeta.
  unfold _idle_to_burst, bind, gets. cbn [fst snd].
  rewrite Hidle. apply Z.leb_le in Hlen. rewrite Hlen. cbn [andb when].
  apply emit_anomaly_ok. exact Hwf.
Qed.

(** The second clipboard rule never emits under the first rule's name. *)
Lemma text_injection_emits_other `{PyRuntime} (e : t) (w : World.t) (now : float) (n : Z) :
  queue_wf (World.out_q w) ->
  exists w' new,
    _text_injection_without_typing now n (e, w) = (Ok tt, (e, w'))
    /\ World.emitted w' = World.emitted w ++ new
    /\ List.filter is_idle_to_burst new = [].
Proof.
  intros Hwf. unfold _text_injection_without_typing, bind, gets. cbn [fst snd].
  match goal with |- context [when ?b _] => destruct b end; cbn [when].
  - match goal with |- context [emit_anomaly ?a ?b ?c ?d] =>
      destruct (emit_anomaly_ok e w a b c d Hwf) as [Hemit _] end.
    cbv zeta in Hemit. rewrite Hemit.
    eexists. eexists. split; [reflexivity|]. split; [reflexivity|]. reflexivity.
  - exists w, []. split; [reflexivity|]. split; [symmetry; apply app_nil_r | reflexivity].
Qed.

(** C7. On a clipboard change with [t_mono - _last_non_idle_t] at least
    the idle threshold and a length at least [burst_min_len], [process]
    returns normally and puts exactly one [idle_to_burst] anomaly on the
    channel: severity HIGH, features [idle_s] and [clip_len], the latter the
    event's length. And [process] sets [_last_non_idle_t] to the event's
    time on a key-down and leaves it alone on every other event. *)
Theorem idle_to_burst_rule `{PyRuntime} (ev : Event) (e : t) (w : World.t) :
  queue_wf (World.out_q w) ->
  let out := process ev (e, w) in
  (forall c, ev = Clipboard c ->
     let idle_s := (t_mono ev - _last_non_idle_t e)%float in
     PrimFloat.leb (AnomalyConfig.idle_threshold_s (cfg e)) idle_s = true ->
     AnomalyConfig.burst_min_len (cfg e) <= ClipboardEvent.length c ->
     fst out = Ok tt /\
     exists new t0 rationale,
       World.emitted (snd (snd out)) = World.emitted w ++ new /\
       List.filter is_idle_to_burst new =
         [ Anomaly (AnomalyEvent.mk (BaseEvent.mk None t0 None) Severity.HIGH
                      "idle_to_burst" rationale
                      [ ("idle_s", JFloat (round_nd idle_s 3));
                        ("clip_len", JInt (ClipboardEvent.length c)) ]) ]) /\
  _last_non_idle_t (fst (snd out)) =
    match ev with
    | Key k =>
        match KeyEvent.action k with
        | KeyAction.DOWN => t_mono ev
        | KeyAction.UP => _last_non_idle_t e
        end
    | _ => _last_non_idle_t e
    end.
Proof.
  intros Hwf out. split; [|apply (process_idle_mark ev (e, w))].
  intros c -> idle_s Hidle Hlen. subst out idle_s.
  destruct (idle_to_burst_emits e w (t_mono (Clipboard c)) (ClipboardEvent.length c)
              Hwf Hidle Hlen) as (rationale & Hitb & Hwf1).
  cbv zeta in Hitb, Hwf1.
  destruct (text_injection_emits_other e _ (t_mono (Clipboard c))
              (ClipboardEvent.length c) Hwf1) as (w2 & new & Hti & Hem & Hnone).
  assert (Hclip :
    bind (_idle_to_burst (t_mono (Clipboard c)) (ClipboardEvent.length c))
         (fun _ => _text_injection_without_typing (t_mono (Clipboard c))
                     (ClipboardEvent.length c)) (e, w)
    = (Ok tt, (e, w2))).
  { erewrite bind_ok by exact Hitb. exact Hti. }
  unfold process. cbv beta iota zeta.
  erewrite (bind_ok (ret tt)) by reflexivity.
  erewrite bind_ok by exact Hclip.
  unfold bind, ret, when, _gc, update, modify. cbn.
  split; [reflexivity|].
  eexists (_ :: new), _, rationale. rewrite Hem. cbn.
  split; [rewrite <- app_assoc; reflexivity|].
  rewrite Hnone. reflexivity.
Qed.

Lemma idle_to_burst_rule_witness :
  queue_wf (World.out_q (snd quiet_engine)) /\
  fst (@process Toy.runtime (Clipboard burst_clip) quiet_engine) = Ok tt /\
  exists new t0 rationale,
    World.emitted (snd (snd (@process Toy.runtime (Clipboard burst_clip) quiet_engine)))
      = World.emitted (snd quiet_engine) ++ new /\
    List.filter is_idle_to_burst new =
      [ Anomaly (AnomalyEvent.mk (BaseEvent.mk None t0 None) Severity.HIGH
                   "idle_to_burst" rationale
                   [ ("idle_s", JFloat 7); ("clip_len", JInt 120) ]) ].
Proof.
  assert (Hwf : queue_wf (World.out_q (snd quiet_engine))).
  { right. vm_compute. discriminate. }
  split; [exact Hwf|].
  destruct (@idle_to_burst_rule Toy.runtime (Clipboard burst_clip)
              (fst quiet_engine) (snd quiet_engine) Hwf) as [Hrule _].
  apply (Hrule burst_clip eq_refl).
  - vm_compute. reflexivity.
  - vm_compute. discriminate.
Defined.

End EngineFacts.

Module ClassifierFacts.
Import Notions.
Import Py Json Events Queueing QueueingFacts EffFacts WorldFacts PasteClassifier Scenarios.

Lemma emit_ok (p : t) (w : World.t) cmd source notes :
  queue_wf (World.out_q w) ->
  _emit cmd source notes (p, w)
    = (Ok tt, (p, after_put (command_in w cmd source notes) (tick w))).
Proof.
  intros Hwf.
  destruct (put_ok (command_in w cmd source notes) (tick w) Hwf) as [Hput _].
  unfold _emit, bind, clock, safe_put_out.
  unfold command_in, tick, World.read_clock in *. cbn [fst snd] in *.
  rewrite Hput. reflexivity.
Qed.

(** C9. The window test of the context-paste branch is one-sided: once a
    right-click is on record, a clipboard change whose time minus the
    right-click's is at most the window -- in particular any negative
    difference, for a non-negative window -- emits [paste_context], the
    cooldown permitting. *)
Theorem context_paste_window_one_sided (p : t) (w : World.t) (c : ClipboardEvent.t)
    (rc : float) :
  queue_wf (World.out_q w) ->
  _last_right_click_mono p = Some rc ->
  let diff := (t_mono (Clipboard c) - rc)%float in
  let window := PasteClassifierConfig.context_window_sec (cfg p) in
  PrimFloat.leb diff window = true
    \/ (PrimFloat.ltb diff 0 = true /\ PrimFloat.leb 0 window = true) ->
  let now := World.perf_counter w (World.ticks w) in
  cooldown_passed p now = true ->
  exists t0,
    process (Clipboard c) (p, w)
      = (Ok tt,
         (mk (cfg p) (Some rc) (Some (t_mono (Clipboard c))) (Some now),
          after_put
            (Command (CommandEvent.mk (BaseEvent.mk None t0 None)
                        CommandType.PASTE_CONTEXT "context"
                        (Some "right-click->clipboard change")))
            (tick (tick w)))).
Proof.
  intros Hwf Hrc diff window Hwin now Hcool.
  assert (Hle : PrimFloat.leb diff window = true).
  { destruct Hwin as [Hle | [Hneg Hnn]]; [exact Hle|].
    apply FloatFacts.negative_leb_nonnegative; assumption. }
  eexists. unfold process.
  unfold bind at 1. unfold clock at 1. cbn [World.read_clock fst snd].
  cbv beta iota.
  erewrite (bind_ok (ret tt)) by reflexivity.
  erewrite (bind_ok (ret tt)) by reflexivity.
  unfold notify_clipboard_changed, update, modify, gets.
  unfold bind at 1. unfold bind at 1. cbn [fst snd _last_right_click_mono cfg
    _last_context_emit_mono].
  rewrite Hrc. fold diff window. rewrite Hle. cbn [when].
  unfold cooldown_passed in Hcool. subst now. rewrite Hcool. cbn [when].
  erewrite bind_ok; [|apply emit_ok; exact Hwf].
  reflexivity.
Qed.

Lemma context_paste_window_one_sided_witness :
  queue_wf (World.out_q (snd after_right_click)) /\
  _last_right_click_mono (fst after_right_click) = Some 10%float /\
  PrimFloat.ltb (t_mono (Clipboard early_clip) - 10) 0 = true /\
  exists t0,
    World.emitted (snd (snd (process (Clipboard early_clip) after_right_click)))
      = [ Command (CommandEvent.mk (BaseEvent.mk None t0 None)
                     CommandType.PASTE_CONTEXT "context"
                     (Some "right-click->clipboard change")) ].
Proof.
  assert (Hwf : queue_wf (World.out_q (snd after_right_click))).
  { right. vm_compute. discriminate. }
  split; [exact Hwf|]. split; [reflexivity|]. split; [vm_compute; reflexivity|].
  destruct (context_paste_window_one_sided (fst after_right_click)
              (snd after_right_click) early_clip 10%float Hwf eq_refl) as [t0 Hp].
  - right. split; vm_compute; reflexivity.
  - vm_compute. reflexivity.
  - exists t0. change (fst after_right_click, snd after_right_click)
      with after_right_click in Hp. rewrite Hp. reflexivity.
Defined.

End ClassifierFacts.

(** ** Python built-ins: hex and dictionaries *)

Module PyFacts.
Import Notions.
Import Py.

Lemma append_cons (x : ascii) (a b : string) : String x a +:+ b = String x (a +:+ b).
Proof. reflexivity. Qed.

Lemma append_nil_l (b : string) : "" +:+ b = b.
Proof. reflexivity. Qed.

Lemma append_assoc (a b c : string) : (a +:+ b) +:+ c = a +:+ (b +:+ c).
Proof.
  induction a as [|x a IH]; [reflexivity|].
  rewrite !append_cons, IH. reflexivity.
Qed.

Lemma append_nil_r (a : string) : a +:+ "" = a.
Proof.
  induction a as [|x a IH]; [reflexivity|].
  rewrite append_cons, IH. reflexivity.
Qed.

Lemma fromhex_hex_byte (x : byte) (r : string) :
  fromhex (hex_byte x +:+ r) =
  match fromhex r with Some tl => Some (x :: tl) | None => None end.
Proof. destruct x; reflexivity. Qed.

(** [bytes.fromhex(b.hex()) == b] *)
Lemma fromhex_hex (b : bytes) : fromhex (hex b) = Some b.
Proof.
  induction b as [|x b IH]; [reflexivity|].
  cbn [hex]. rewrite fromhex_hex_byte, IH. reflexivity.
Qed.

Lemma decode_encode (s : string) : decode (encode s) = s.
Proof. apply string_of_list_byte_of_string. Qed.

Lemma dict_get_set_other {V} (k k' : string) (v : V) (d : dict V) :
  k <> k' -> dict_get k (dict_set k' v d) = dict_get k d.
Proof.
  intros Hne. induction d as [|[k0 v0] d IH]; cbn.
  - destruct (String.eqb_spec k k'); [contradiction | reflexivity].
  - destruct (String.eqb_spec k' k0) as [->|Hk0]; cbn.
    + destruct (String.eqb_spec k k0); [contradiction | reflexivity].
    + destruct (String.eqb_spec k k0); [reflexivity | exact IH].
Qed.

Lemma dict_set_fresh {V} (k : string) (v : V) (d : dict V) :
  ~ In k (keys d) -> dict_set k v d = d ++ [(k, v)].
Proof.
  induction d as [|[k0 v0] d IH]; cbn; intros Hnin; [reflexivity|].
  destruct (String.eqb_spec k k0) as [->|Hne]; [tauto|].
  rewrite IH by tauto. reflexivity.
Qed.

Lemma keys_app {V} (d1 d2 : dict V) : keys (d1 ++ d2) = keys d1 ++ keys d2.
Proof. apply map_app. Qed.

(** Filling an empty dictionary from pairs with distinct keys keeps them. *)
Lemma dict_update_fresh {V} (d ms : dict V) :
  List.NoDup (keys d ++ keys ms) -> dict_update d ms = d ++ ms.
Proof.
  unfold dict_update. revert d.
  induction ms as [|[k v] ms IH]; intros d Hnd; cbn.
  - symmetry. apply app_nil_r.
  - assert (Hk : ~ In k (keys d)).
    { intros Hin. apply List.NoDup_remove_2 in Hnd. apply Hnd.
      apply in_or_app. left. exact Hin. }
    rewrite (dict_set_fresh k v d Hk).
    rewrite IH.
    + rewrite <- app_assoc. reflexivity.
    + rewrite keys_app. cbn. rewrite <- app_assoc. exact Hnd.
Qed.

Lemma dict_pop_set_fresh {V} (k : string) (v : V) (d : dict V) :
  ~ In k (keys d) -> dict_pop k (dict_set k v d) = d.
Proof.
  intros Hnin. rewrite (dict_set_fresh k v d Hnin). unfold dict_pop.
  rewrite List.filter_app. cbn. rewrite String.eqb_refl. cbn.
  rewrite app_nil_r.
  induction d as [|[k0 v0] d IH]; cbn in *; [reflexivity|].
  destruct (String.eqb_spec k k0) as [->|Hne]; [tauto|].
  cbn. rewrite IH by tauto. reflexivity.
Qed.

End PyFacts.

(** ** [json.loads] reads back what [json.dumps] wrote *)

Module JsonFacts.
Import Notions.
Import Py PyFacts Json.

Lemma parse_esc_char (c : ascii) (tail : string) :
  parse_str_body (esc_char c +:+ tail) = push c (parse_str_body tail).
Proof. destruct c as [[] [] [] [] [] [] [] []]; reflexivity. Qed.

Lemma parse_esc_body (s rest : string) :
  parse_str_body (esc_body s +:+ quote +:+ rest) = Some (s, rest).
Proof.
  induction s as [|c s IH]; [reflexivity|].
  cbn [esc_body]. rewrite append_assoc, parse_esc_char, IH. reflexivity.
Qed.

Lemma enc_str_append (s rest : string) :
  enc_str s +:+ rest = String (ascii_of_N 34) (esc_body s +:+ quote +:+ rest).
Proof.
  unfold enc_str. rewrite !append_assoc. reflexivity.
Qed.

Lemma parse_key_enc_str (k rest : string) :
  parse_key (enc_str k +:+ rest) = Some (k, rest).
Proof. rewrite enc_str_append. cbn. apply parse_esc_body. Qed.

Lemma span_digits_end (rest : string) :
  number_end rest = true -> span_digits rest = ("", rest).
Proof.
  destruct rest as [|c r]; [reflexivity|]. cbn.
  intros H. apply andb_prop in H as [H _]. apply negb_true_iff in H.
  rewrite H. reflexivity.
Qed.

Lemma span_digits_uint (d : Decimal.uint) (rest : string) :
  number_end rest = true ->
  span_digits (NilEmpty.string_of_uint d +:+ rest) = (NilEmpty.string_of_uint d, rest).
Proof.
  intros Hend.
  induction d as [|d IH|d IH|d IH|d IH|d IH|d IH|d IH|d IH|d IH|d IH];
    cbn [NilEmpty.string_of_uint];
    [ rewrite append_nil_l; apply span_digits_end; exact Hend
    | rewrite append_cons; cbn [span_digits]; rewrite IH; reflexivity .. ].
Qed.

Lemma string_of_uint_nonnil (d : Decimal.uint) :
  d <> Decimal.Nil -> NilZero.string_of_uint d = NilEmpty.string_of_uint d.
Proof. destruct d; [contradiction | reflexivity ..]. Qed.

Lemma parse_nat_uint (d : Decimal.uint) (rest : string) :
  d <> Decimal.Nil -> number_end rest = true ->
  parse_nat (NilEmpty.string_of_uint d +:+ rest) = Some (N.of_uint d, rest).
Proof.
  intros Hd Hend. unfold parse_nat. rewrite (span_digits_uint d rest Hend).
  rewrite <- (string_of_uint_nonnil d Hd), (NilZero.usu d Hd).
  destruct rest as [|c r]; [reflexivity|].
  cbn in Hend. apply andb_prop in Hend as [_ H]. apply negb_true_iff in H.
  cbv zeta. rewrite H. reflexivity.
Qed.

Lemma parse_value_uint (d : Decimal.uint) (rest : string) :
  d <> Decimal.Nil -> number_end rest = true ->
  parse_value (NilEmpty.string_of_uint d +:+ rest)
    = Some (JInt (Z.of_N (N.of_uint d)), rest).
Proof.
  intros Hd Hend. pose proof (parse_nat_uint d rest Hd Hend) as Hp.
  destruct d; [contradiction | ..];
    cbn [NilEmpty.string_of_uint] in *; rewrite append_cons in *;
    unfold parse_value; cbn [N_of_ascii N.eqb]; cbv beta iota zeta;
    (change (N_of_ascii _ =? 34)%N with false);
    (change (N_of_ascii _ =? 45)%N with false); cbv iota;
    rewrite Hp; reflexivity.
Qed.

Lemma skip_ws_uint (d : Decimal.uint) (rest : string) :
  d <> Decimal.Nil ->
  skip_ws (NilEmpty.string_of_uint d +:+ rest) = NilEmpty.string_of_uint d +:+ rest.
Proof. destruct d; [contradiction | reflexivity ..]. Qed.

Lemma str_of_int_cases (z : Z) :
  exists d, d <> Decimal.Nil /\
    ((str_of_int z = NilEmpty.string_of_uint d /\ z = Z.of_N (N.of_uint d)) \/
     (str_of_int z = String "-" (NilEmpty.string_of_uint d)
      /\ z = - Z.of_N (N.of_uint d))).
Proof.
  destruct z as [|p|p]; unfold str_of_int; cbn [Z.to_int NilZero.string_of_int].
  - exists (Decimal.D0 Decimal.Nil). split; [discriminate|]. left. split; reflexivity.
  - exists (Pos.to_uint p). split; [apply DecimalPos.Unsigned.to_uint_nonnil|]. left.
    split; [apply string_of_uint_nonnil, DecimalPos.Unsigned.to_uint_nonnil|].
    change (Pos.to_uint p) with (N.to_uint (N.pos p)).
    rewrite DecimalN.Unsigned.of_to. reflexivity.
  - exists (Pos.to_uint p). split; [apply DecimalPos.Unsigned.to_uint_nonnil|]. right.
    split; [f_equal; apply string_of_uint_nonnil, DecimalPos.Unsigned.to_uint_nonnil|].
    change (Pos.to_uint p) with (N.to_uint (N.pos p)).
    rewrite DecimalN.Unsigned.of_to. reflexivity.
Qed.

Lemma parse_value_int (z : Z) (rest : string) :
  number_end rest = true ->
  parse_value (str_of_int z +:+ rest) = Some (JInt z, rest)
  /\ skip_ws (str_of_int z +:+ rest) = str_of_int z +:+ rest.
Proof.
  intros Hend. destruct (str_of_int_cases z) as (d & Hd & [[-> ->] | [-> ->]]).
  - split; [apply parse_value_uint; assumption | apply skip_ws_uint; assumption].
  - split; [|reflexivity].
    rewrite append_cons. unfold parse_value. cbn [N_of_ascii N.eqb]. cbv beta iota zeta.
    change (N_of_ascii "-" =? 34)%N with false.
    change (N_of_ascii "-" =? 45)%N with true. cbv iota.
    rewrite (parse_nat_uint d rest Hd Hend). reflexivity.
Qed.

Lemma value_end_number_end (rest : string) : value_end rest = true -> number_end rest = true.
Proof.
  destruct rest as [|c r]; [discriminate|]. unfold value_end, number_end, is_digit.
  cbv zeta. intros H. apply orb_prop in H as [H|H]; apply N.eqb_eq in H; rewrite H;
    reflexivity.
Qed.

Lemma value_end_skip_ws (rest : string) : value_end rest = true -> skip_ws rest = rest.
Proof.
  destruct rest as [|c r]; [discriminate|]. unfold value_end. cbn [skip_ws]. unfold is_ws.
  cbv zeta. intros H. apply orb_prop in H as [H|H]; apply N.eqb_eq in H; rewrite H;
    reflexivity.
Qed.

Lemma parse_value_flat `{PyRuntime} (v : json) (rest : string) :
  is_flat v = true -> value_end rest = true ->
  parse_value (enc default_seps v +:+ rest) = Some (v, rest)
  /\ skip_ws (enc default_seps v +:+ rest) = enc default_seps v +:+ rest.
Proof.
  intros Hflat Hend. destruct v; try discriminate; cbn [enc].
  - apply parse_value_int, value_end_number_end, Hend.
  - rewrite enc_str_append. split; [|reflexivity].
    unfold parse_value. cbn [N_of_ascii N.eqb]. cbv beta iota zeta.
    change (N_of_ascii (ascii_of_N 34) =? 34)%N with true. cbv iota.
    rewrite parse_esc_body. reflexivity.
Qed.

Lemma enc_dict_default `{PyRuntime} (d : dict json) :
  enc default_seps (JDict d) = "{" +:+ members_text d +:+ "}".
Proof. reflexivity. Qed.

Lemma members_text_cons2 `{PyRuntime} (kv kv2 : string * json) (d : dict json) :
  members_text (kv :: kv2 :: d) = member_text kv +:+ ", " +:+ members_text (kv2 :: d).
Proof. reflexivity. Qed.

Lemma members_text_starts_quote `{PyRuntime} (d : dict json) (tail : string) :
  d <> [] -> exists r, members_text d +:+ tail = String (ascii_of_N 34) r.
Proof.
  destruct d as [|[k v] d]; [contradiction|]. intros _.
  destruct d as [|kv2 d].
  - change (members_text [(k, v)]) with (member_text (k, v)).
    unfold member_text. rewrite !append_assoc, enc_str_append. eexists. reflexivity.
  - rewrite members_text_cons2. unfold member_text at 1.
    rewrite !append_assoc, enc_str_append. eexists. reflexivity.
Qed.

Lemma skip_ws_members_text `{PyRuntime} (d : dict json) (tail : string) :
  d <> [] -> skip_ws (members_text d +:+ tail) = members_text d +:+ tail.
Proof.
  intros Hne. destruct (members_text_starts_quote d tail Hne) as [r ->]. reflexivity.
Qed.

(** One member, followed by [tail]. *)
Lemma parse_member `{PyRuntime} (k : string) (v : json) (tail : string) :
  is_flat v = true -> value_end tail = true ->
  exists r1 r2,
    parse_key (member_text (k, v) +:+ tail) = Some (k, r1)
    /\ expect 58 (skip_ws r1) = Some r2
    /\ parse_value (skip_ws r2) = Some (v, tail).
Proof.
  intros Hflat Hend. unfold member_text. cbn [fst snd].
  destruct (parse_value_flat v tail Hflat Hend) as [Hpv Hws].
  exists (": " +:+ enc default_seps v +:+ tail), (" " +:+ enc default_seps v +:+ tail).
  split; [|split].
  - rewrite !append_assoc. apply parse_key_enc_str.
  - reflexivity.
  - rewrite append_cons, append_nil_l.
    change (skip_ws (String " " ?x)) with (skip_ws x).
    rewrite Hws. exact Hpv.
Qed.

Lemma parse_members_text `{PyRuntime} (d : dict json) :
  forall (fuel : nat) (s rest0 : string),
    d <> [] -> forallb (fun kv => is_flat (snd kv)) d = true ->
    (length d <= fuel)%nat ->
    skip_ws s = members_text d +:+ "}" +:+ rest0 ->
    parse_members fuel s = Some (d, rest0).
Proof.
  induction d as [|[k v] d IH]; intros fuel s rest0 Hne Hflat Hfuel Hs; [contradiction|].
  destruct fuel as [|fuel]; [cbn in Hfuel; lia|].
  cbn [forallb snd] in Hflat. apply andb_prop in Hflat as [Hv Hd].
  cbn [parse_members]. rewrite Hs.
  destruct d as [|kv2 d].
  - change (members_text [(k, v)]) with (member_text (k, v)).
    destruct (parse_member k v ("}" +:+ rest0) Hv eq_refl) as (r1 & r2 & Hk & He & Hpv).
    rewrite Hk, He, Hpv. reflexivity.
  - rewrite members_text_cons2, !append_assoc.
    destruct (parse_member k v (", " +:+ members_text (kv2 :: d) +:+ "}" +:+ rest0)
                Hv eq_refl) as (r1 & r2 & Hk & He & Hpv).
    rewrite Hk, He, Hpv.
    rewrite append_cons. cbn [skip_ws]. 
    change (is_ws ",") with false. cbv iota.
    change (N_of_ascii "," =? 44)%N with true. cbv iota.
    rewrite (IH fuel _ rest0); [reflexivity | discriminate | exact Hd | cbn in *; lia |].
    rewrite append_cons, append_nil_l.
    change (skip_ws (String " " ?x)) with (skip_ws x).
    apply skip_ws_members_text. discriminate.
Qed.

Lemma length_append (a b : string) :
  String.length (a +:+ b) = (String.length a + String.length b)%nat.
Proof.
  induction a as [|x a IH]; [reflexivity|].
  rewrite append_cons. cbn [String.length]. rewrite IH. reflexivity.
Qed.

Lemma length_member_text `{PyRuntime} (kv : string * json) :
  (1 <= String.length (member_text kv))%nat.
Proof.
  unfold member_text. rewrite enc_str_append. cbn [String.length]. lia.
Qed.

Lemma length_members_text `{PyRuntime} (d : dict json) (tail : string) :
  (length d <= String.length (members_text d +:+ tail))%nat.
Proof.
  rewrite length_append.
  enough (length d <= String.length (members_text d))%nat by lia.
  induction d as [|kv d IH]; [cbn; lia|].
  destruct d as [|kv2 d].
  - change (members_text [kv]) with (member_text kv).
    pose proof (length_member_text kv). cbn [length]. lia.
  - rewrite members_text_cons2, !length_append.
    pose proof (length_member_text kv). cbn [length] in *. lia.
Qed.

(** [json.loads(json.dumps(d)) == d] for a dictionary of integers and
    strings with distinct keys. *)
Lemma loads_dumps `{PyRuntime} (d : dict json) :
  forallb (fun kv => is_flat (snd kv)) d = true ->
  List.NoDup (keys d) ->
  loads (dumps d) = Some d.
Proof.
  intros Hflat Hnd. unfold loads, dumps. rewrite enc_dict_default.
  assert (Hobj : parse_object ("{" +:+ members_text d +:+ "}") = Some d).
  { unfold parse_object. rewrite append_cons, append_nil_l.
    cbn [skip_ws]. change (is_ws "{") with false. cbv iota.
    cbn [expect]. change (N_of_ascii "{" =? 123)%N with true. cbv iota.
    destruct d as [|[k v] d]; [reflexivity|].
    assert (Hws : skip_ws (members_text ((k, v) :: d) +:+ "}")
                  = members_text ((k, v) :: d) +:+ "}").
    { apply skip_ws_members_text. discriminate. }
    rewrite Hws.
    destruct (members_text_starts_quote ((k, v) :: d) "}") as [r Hq]; [discriminate|].
    rewrite Hq.
    change (N_of_ascii (ascii_of_N 34) =? 125)%N with false. cbv iota.
    rewrite <- Hq.
    rewrite (parse_members_text ((k, v) :: d) _ _ "");
      [reflexivity | discriminate | exact Hflat | apply length_members_text |].
    rewrite Hws. rewrite append_nil_r. reflexivity. }
  rewrite Hobj. rewrite dict_update_fresh; [reflexivity | exact Hnd].
Qed.

End JsonFacts.

(** ** The segment writer, call by call *)

Module WriterFacts.
Import Notions.
Import Py PyFacts Json JsonFacts EffFacts SegmentWriter SegmentView.

Section Writer.
Context `{PyRuntime} `{Crypto}.

Lemma pick_suite_available (env : Env) :
  suite env = Aead.AESSIVSuite -> HAVE_PYCRYPTO env = true.
Proof.
  unfold suite, Aead.pick_suite. destruct (HAVE_PYCRYPTO env); [reflexivity|].
  cbn. discriminate.
Qed.

Lemma encrypt_ok (w : SegmentWriter.t) (env : Env) (batch : list (dict json)) :
  Aead.encrypt (HAVE_PYCRYPTO env) (suite env) (nonce_rnd env)
    (seg_key w env) (padded batch) (aad w env batch)
  = Ok (ct w env batch, params w env batch).
Proof.
  unfold ct, params, ct_params, Aead.encrypt.
  destruct (suite env) eqn:Hs; [reflexivity|].
  rewrite (pick_suite_available env Hs).
  destruct (aes_siv_encrypt_and_digest _ _ _). reflexivity.
Qed.

(** What [_write_segment] does: the ratchet is set first, then the insert
    is tried. *)
Lemma write_segment_eq (w : SegmentWriter.t) (db : Database.t) (env : Env)
    (batch : list (dict json)) :
  _write_segment env batch (w, db) =
  if db_ok env then
    (Ok tt,
     (advanced w env batch,
      Database.mk (Database.rows db ++ [row w env batch (Database.last_seq db)])
        (Database.last_seq db + 1)))
  else (Raise (StoreError SegmentStore.InsertFailed), (advanced w env batch, db)).
Proof.
  unfold _write_segment.
  unfold bind at 1. unfold gets. cbn [fst snd].
  change (payload batch) with (raw batch).
  fold (suite env). fold (key_len env). fold (info env). fold (seg_key w env).
  rewrite (surjective_pairing (SegmentStore.pad_to_block (raw batch) 256)).
  fold (padded batch) (padded_len batch). fold (stem w env batch). fold (aad w env batch).
  rewrite encrypt_ok. unfold lift_aead.
  unfold bind at 1.
  fold (chain_tag w env batch). fold (header_unsigned w env batch).
  fold (header_bytes w env batch). fold (signature w env batch).
  fold (header w env batch).
  unfold bind, update, modify, store_insert, SegmentStore.insert_segment, ret.
  cbn [fst snd]. fold (advanced w env batch).
  destruct (db_ok env); reflexivity.
Qed.

End Writer.
End WriterFacts.

Module FlushFacts.
Import Notions.
Import Py PyFacts Json JsonFacts EffFacts SegmentWriter SegmentView WriterFacts.

Section Flush.
Context `{PyRuntime} `{Crypto}.

Lemma flush_not_due (force : bool) (env : Env) (w : SegmentWriter.t) (db : Database.t) :
  due force env w = false ->
  exists w', _flush_if_needed force env (w, db) = (Ok tt, (w', db))
             /\ ratchet w' = ratchet w /\ sess w' = sess w /\ _hmac_key w' = _hmac_key w
             /\ _buf w' = _buf w.
Proof.
  unfold due, _flush_if_needed, bind, gets. cbn [fst snd].
  destruct (_buf w) as [|r b] eqn:Hb.
  - intros _. eexists. split; [reflexivity|]. cbn. repeat split.
  - intros Hdue. apply negb_false_iff in Hdue. rewrite Hdue.
    exists w. repeat split. exact Hb.
Qed.

Lemma flush_due (force : bool) (env : Env) (w : SegmentWriter.t) (db : Database.t) :
  due force env w = true ->
  _buf w <> [] /\
  _flush_if_needed force env (w, db) = _write_segment env (_buf w) (swapped env w, db).
Proof.
  unfold due, _flush_if_needed, bind, gets. cbn [fst snd].
  destruct (_buf w) as [|r b] eqn:Hb; [discriminate|].
  intros Hdue. apply negb_true_iff in Hdue. rewrite Hdue.
  split; [discriminate|]. reflexivity.
Qed.

(** C1, amended. A flush that writes sets the ratchet to the new segment
    key and chain tag before it tries the insert: the ratchet it leaves is
    the same whether the insert succeeds (one row more) or fails (the
    exception escapes, the table is unchanged). A flush that does not write
    leaves ratchet and table alone. *)
Theorem ratchet_set_before_persist (force : bool) (env : Env) (w : SegmentWriter.t)
    (db : Database.t) :
  let out := _flush_if_needed force env (w, db) in
  let w' := fst (snd out) in
  let db' := snd (snd out) in
  let batch := _buf w in
  if due force env w then
    ratchet w' = (seg_key w env, take 16 (chain_tag (swapped env w) env batch),
                  chain_tag (swapped env w) env batch)
    /\ (if db_ok env
        then fst out = Ok tt
             /\ Database.rows db' = Database.rows db
                  ++ [row (swapped env w) env batch (Database.last_seq db)]
        else fst out = Raise (StoreError SegmentStore.InsertFailed) /\ db' = db)
  else fst out = Ok tt /\ ratchet w' = ratchet w /\ db' = db.
Proof.
  cbv zeta. destruct (due force env w) eqn:Hdue.
  - destruct (flush_due force env w db Hdue) as [_ ->].
    rewrite write_segment_eq. destruct (db_ok env); cbn [fst snd]; split;
      try reflexivity; split; reflexivity.
  - destruct (flush_not_due force env w db Hdue) as (w' & -> & Hr & _).
    cbn [fst snd]. auto.
Qed.

End Flush.
End FlushFacts.

(** ** The header a segment is stored with *)

Module HeaderFacts.
Import Notions.
Import Py PyFacts Json JsonFacts SegmentWriter SegmentView.

Section Header.
Context `{PyRuntime} `{Crypto}.
Variables (w : SegmentWriter.t) (env : Env) (batch : list (dict json)).

Lemma params_cases :
  (suite env = Aead.ChaCha20PSuite
   /\ params w env batch = [("nonce", JStr (hex (nonce_rnd env)))])
  \/ (suite env = Aead.AESSIVSuite /\ params w env batch = []).
Proof.
  unfold params, ct_params. destruct (suite env); [left | right]; split; reflexivity.
Qed.

Lemma header_unsigned_shape :
  header_unsigned w env batch
  = stem w env batch ++ params w env batch
      ++ [("chain_tag", JStr (hex (chain_tag w env batch)))].
Proof.
  unfold header_unsigned.
  destruct params_cases as [[_ ->] | [_ ->]]; reflexivity.
Qed.

Lemma header_shape :
  header w env batch
  = stem w env batch ++ params w env batch
      ++ [("chain_tag", JStr (hex (chain_tag w env batch)));
          ("sig", JStr (hex (signature w env batch)))].
Proof.
  unfold header. rewrite header_unsigned_shape.
  destruct params_cases as [[_ ->] | [_ ->]]; reflexivity.
Qed.

Lemma header_pop_sig : dict_pop "sig" (header w env batch) = header_unsigned w env batch.
Proof.
  rewrite header_shape, header_unsigned_shape.
  destruct params_cases as [[_ ->] | [_ ->]]; reflexivity.
Qed.

Lemma header_loads : loads (decode (encode (dumps (header w env batch)))) = Some (header w env batch).
Proof.
  rewrite decode_encode. apply loads_dumps; rewrite header_shape;
    destruct params_cases as [[_ ->] | [_ ->]]; try reflexivity;
    cbn; repeat (constructor; [cbn; intuition discriminate|]); constructor.
Qed.

Lemma header_stem_of :
  VerifySegments.stem_of (header w env batch) = Some (stem w env batch).
Proof.
  rewrite header_shape. destruct params_cases as [[_ ->] | [_ ->]]; reflexivity.
Qed.

Lemma header_aad :
  VerifySegments.aad_from_header_stem (header w env batch) = Some (aad w env batch).
Proof. unfold VerifySegments.aad_from_header_stem. rewrite header_stem_of. reflexivity. Qed.

Lemma header_get (k : string) :
  dict_get k (header w env batch) =
  dict_get k (stem w env batch ++ params w env batch
                ++ [("chain_tag", JStr (hex (chain_tag w env batch)));
                    ("sig", JStr (hex (signature w env batch)))]).
Proof. rewrite header_shape. reflexivity. Qed.

Lemma header_padded_len :
  dict_get "padded_len" (header w env batch) = Some (JInt (padded_len batch)).
Proof. rewrite header_shape. reflexivity. Qed.

Lemma header_session :
  dict_get "session" (header w env batch)
  = Some (JStr (SessionKeys.session_id (sess w))).
Proof. rewrite header_shape. reflexivity. Qed.

Lemma header_sign_pub :
  dict_get "sign_pub" (header w env batch)
  = Some (JStr (hex (SessionKeys.sign_public_bytes (sess w)))).
Proof. rewrite header_shape. reflexivity. Qed.

Lemma header_prev_tag :
  dict_get "prev_tag" (header w env batch) = Some (JStr (hex (_prev_tag w))).
Proof. rewrite header_shape. reflexivity. Qed.

Lemma header_hkdf_info :
  dict_get "hkdf_info" (header w env batch) = Some (JStr (decode (info env))).
Proof. rewrite header_shape. reflexivity. Qed.

Lemma header_suite :
  dict_get "suite" (header w env batch) = Some (JStr (Aead.suite_id (suite env))).
Proof. rewrite header_shape. reflexivity. Qed.

Lemma header_chain_tag :
  dict_get "chain_tag" (header w env batch) = Some (JStr (hex (chain_tag w env batch))).
Proof.
  rewrite header_shape. destruct params_cases as [[_ ->] | [_ ->]]; reflexivity.
Qed.

Lemma header_sig :
  dict_get "sig" (header w env batch) = Some (JStr (hex (signature w env batch))).
Proof.
  rewrite header_shape. destruct params_cases as [[_ ->] | [_ ->]]; reflexivity.
Qed.

Lemma header_nonce :
  suite env = Aead.ChaCha20PSuite ->
  dict_get "nonce" (header w env batch) = Some (JStr (hex (nonce_rnd env))).
Proof.
  intros Hs. rewrite header_shape.
  destruct params_cases as [[_ ->] | [Hs' _]]; [reflexivity | congruence].
Qed.

End Header.
End HeaderFacts.

Module SegmentFacts.
Import Notions.
Import Py PyFacts Json JsonFacts EffFacts SegmentWriter SegmentView WriterFacts
  FlushFacts HeaderFacts Scenarios.

(** C1, refuted as stated: a forced flush whose insert fails raises, adds
    no row, and leaves all three ratchet values changed. *)
Lemma failed_persist_advances_ratchet :
  let out := @stop Toy.runtime Toy.crypto (toy_env false) one_buffered in
  fst out = Raise (StoreError SegmentStore.InsertFailed)
  /\ Database.rows (snd (snd out)) = Database.rows (snd one_buffered)
  /\ Toy.beqb (_current_key (fst (snd out))) (_current_key (fst one_buffered)) = false
  /\ Toy.beqb (_prev_tag (fst (snd out))) (_prev_tag (fst one_buffered)) = false
  /\ Toy.beqb (_last_chain_tag (fst (snd out))) (_last_chain_tag (fst one_buffered)) = false.
Proof. vm_compute. repeat split. Qed.

Lemma length_encode (s : string) : length (encode s) = String.length s.
Proof.
  unfold encode, list_byte_of_string. rewrite length_map.
  induction s as [|c s IH]; cbn; [reflexivity | f_equal; exact IH].
Qed.

Lemma dumps_compact_nonempty `{PyRuntime} (d : dict json) :
  (1 <= String.length (dumps_compact d))%nat.
Proof.
  unfold dumps_compact. cbn [enc]. rewrite append_cons. cbn [String.length]. lia.
Qed.

Lemma concat_nonempty (sep : string) (l : list string) :
  l <> [] -> Forall (fun x => (1 <= String.length x)%nat) l ->
  (1 <= String.length (String.concat sep l))%nat.
Proof.
  destruct l as [|x [|y r]]; [contradiction | |]; intros _ Hall;
    apply Forall_cons_iff in Hall as [Hx _]; cbn [String.concat].
  - exact Hx.
  - rewrite length_append. lia.
Qed.

Lemma payload_nonempty `{PyRuntime} (batch : list (dict json)) :
  batch <> [] -> 0 < blen (payload batch).
Proof.
  intros Hne. unfold blen, payload. rewrite length_encode.
  enough (1 <= String.length
            (String.concat (String (ascii_of_N 10) "") (map dumps_compact batch)))%nat by lia.
  apply concat_nonempty.
  - destruct batch; [contradiction | discriminate].
  - apply Forall_map. apply Forall_forall. intros d _. apply dumps_compact_nonempty.
Qed.

(** [pad_to_block] appends only zeros, up to the next multiple of the
    block. *)
Lemma pad_to_block_spec (data : bytes) :
  exists k, 0 <= k < 256
    /\ fst (SegmentStore.pad_to_block data 256) = data ++ zeros k
    /\ snd (SegmentStore.pad_to_block data 256) = blen data + k
    /\ (blen data + k) mod 256 = 0.
Proof.
  unfold SegmentStore.pad_to_block.
  pose proof (Z.mod_pos_bound (- blen data) 256 eq_refl) as Hb.
  assert (Hm : (blen data + (- blen data) mod 256) mod 256 = 0).
  { rewrite Z.add_mod_idemp_r by discriminate.
    replace (blen data + - blen data) with 0 by lia. reflexivity. }
  destruct (Z.eqb_spec ((- blen data) mod 256) 0) as [Hz|Hnz].
  - exists 0. rewrite Hz in Hm. cbn [fst snd]. unfold zeros. cbn.
    rewrite app_nil_r. repeat split; try lia; try exact Hm.
  - exists ((- blen data) mod 256). cbn [fst snd]. repeat split; try lia; try exact Hm.
Qed.

Section Segments.
Context `{PyRuntime} `{Crypto}.

Lemma row_nonempty (w : SegmentWriter.t) (env : Env) (batch : list (dict json)) (last : Z) :
  batch <> [] -> nonempty_segment (row w env batch last).
Proof.
  intros Hne. exists (Z.of_nat (length batch)), (padded_len batch), (header w env batch).
  split; [destruct batch; [contradiction | cbn; lia]|].
  split; [reflexivity|].
  split; [apply header_loads|].
  split; [apply header_padded_len|].
  unfold padded_len, raw.
  destruct (pad_to_block_spec (payload batch)) as (k & Hk & _ & -> & Hmod).
  pose proof (payload_nonempty batch Hne). split; [lia | exact Hmod].
Qed.

(** Every call keeps the table's rows and at most appends one non-empty
    segment. *)
Lemma step_rows (c : Call) (s : St) :
  Database.rows (snd (snd (step c s))) = Database.rows (snd s)
  \/ exists r, nonempty_segment r
       /\ Database.rows (snd (snd (step c s))) = Database.rows (snd s) ++ [r].
Proof.
  assert (Hflush : forall force env w db,
    Database.rows (snd (snd (_flush_if_needed force env (w, db)))) = Database.rows db
    \/ exists r, nonempty_segment r
         /\ Database.rows (snd (snd (_flush_if_needed force env (w, db))))
            = Database.rows db ++ [r]).
  { intros force env w db. destruct (due force env w) eqn:Hdue.
    - destruct (flush_due force env w db Hdue) as [Hne ->].
      rewrite write_segment_eq. destruct (db_ok env); cbn [fst snd]; [right | left; reflexivity].
      eexists. split; [apply row_nonempty; exact Hne | reflexivity].
    - destruct (flush_not_due force env w db Hdue) as (w' & -> & _). left. reflexivity. }
  destruct s as [w db]. destruct c as [utc_now ev env | env | env]; cbn [step snd].
  - unfold add_event, bind, update, modify. cbn [fst snd]. apply Hflush.
  - apply Hflush.
  - apply Hflush.
Qed.

(** C10. A flush with an empty buffer stores nothing and returns; a flush
    that writes has a non-empty batch and a non-empty payload; and every
    row a writer ever stores in a fresh table has a count of at least one
    and a padded length that is a positive multiple of 256. *)
Theorem writer_never_stores_empty_segment :
  (forall (force : bool) (env : Env) (w : SegmentWriter.t) (db : Database.t),
     _buf w = [] ->
     fst (_flush_if_needed force env (w, db)) = Ok tt
     /\ snd (snd (_flush_if_needed force env (w, db))) = db)
  /\ (forall (force : bool) (env : Env) (w : SegmentWriter.t),
        due force env w = true -> _buf w <> [] /\ 0 < blen (payload (_buf w)))
  /\ (forall (calls : list Call) (w0 : SegmentWriter.t),
        Forall nonempty_segment (Database.rows (snd (run calls (w0, Database.empty))))).
Proof.
  split; [|split].
  - intros force env w db Hb.
    assert (Hdue : due force env w = false) by (unfold due; rewrite Hb; reflexivity).
    destruct (flush_not_due force env w db Hdue) as (w' & -> & _). split; reflexivity.
  - intros force env w Hdue.
    destruct (flush_due force env w Database.empty Hdue) as [Hne _].
    split; [exact Hne | apply payload_nonempty, Hne].
  - intros calls w0.
    assert (Hgen : forall s, Forall nonempty_segment (Database.rows (snd s)) ->
                     Forall nonempty_segment (Database.rows (snd (run calls s)))).
    { induction calls as [|c calls IH]; intros s Hs; [exact Hs|].
      cbn [run fold_left]. apply IH.
      destruct (step_rows c s) as [-> | (r & Hr & ->)]; [exact Hs|].
      apply Forall_app. split; [exact Hs | constructor; [exact Hr | constructor]]. }
    apply Hgen. constructor.
Qed.

End Segments.
End SegmentFacts.

Module SignatureFacts.
Import Notions.
Import Py PyFacts Json JsonFacts EffFacts SegmentWriter SegmentView WriterFacts
  FlushFacts HeaderFacts Contracts Scenarios.

Lemma Forall_firstn {A} (P : A -> Prop) (n : nat) (l : list A) :
  Forall P l -> Forall P (firstn n l).
Proof.
  intros Hl. rewrite <- (firstn_skipn n l) in Hl.
  apply Forall_app in Hl. exact (proj1 Hl).
Qed.

Lemma toy_beqb_refl (b : bytes) : Toy.beqb b b = true.
Proof.
  induction b as [|x b IH]; [reflexivity|]. cbn. rewrite IH.
  destruct x; reflexivity.
Qed.

Lemma toy_ed25519_correct : @ed25519_correct Toy.crypto.
Proof.
  intros sk msg. cbn [ed25519_verify ed25519_public_key ed25519_sign Toy.crypto].
  apply toy_beqb_refl.
Qed.

Section Signature.
Context `{PyRuntime} `{Crypto}.

Lemma init_paired flush_sec max_events rnd time_now d :
  paired (fst (init flush_sec max_events rnd time_now d)).
Proof.
  unfold paired, init, MasterKeyManager.start_session.
  destruct (MasterKeyManager.load_or_create_master _ _) as [master d1].
  destruct (MasterKeyManager.load_or_create_signing_key _ _) as [priv d2].
  reflexivity.
Qed.

Lemma check_signature_header (w : SegmentWriter.t) (env : Env) (batch : list (dict json)) :
  ed25519_correct -> paired w ->
  VerifySegments.check_signature (header w env batch) = true.
Proof.
  intros Hed Hpair. unfold VerifySegments.check_signature.
  rewrite header_sign_pub, header_sig. cbn [VerifySegments.as_str].
  rewrite !fromhex_hex. unfold VerifySegments.header_bytes_for_sig.
  rewrite header_pop_sig. fold (header_bytes w env batch).
  unfold signature. rewrite Hpair. apply Hed.
Qed.

Lemma row_signature_verifies (w : SegmentWriter.t) (env : Env) (batch : list (dict json))
    (last : Z) :
  ed25519_correct -> paired w -> signature_verifies (row w env batch last).
Proof.
  intros Hed Hpair. exists (header w env batch).
  split; [apply header_loads | apply check_signature_header; assumption].
Qed.

Lemma flush_signed (force : bool) (env : Env) (w : SegmentWriter.t) (db : Database.t) :
  ed25519_correct -> paired w ->
  let out := _flush_if_needed force env (w, db) in
  paired (fst (snd out))
  /\ (Database.rows (snd (snd out)) = Database.rows db
      \/ exists r, signature_verifies r
           /\ Database.rows (snd (snd out)) = Database.rows db ++ [r]).
Proof.
  intros Hed Hpair. cbv zeta. destruct (due force env w) eqn:Hdue.
  - destruct (flush_due force env w db Hdue) as [_ ->].
    rewrite write_segment_eq. destruct (db_ok env); cbn [fst snd].
    + split; [exact Hpair | right]. eexists.
      split; [apply row_signature_verifies; [exact Hed | exact Hpair] | reflexivity].
    + split; [exact Hpair | left; reflexivity].
  - destruct (flush_not_due force env w db Hdue) as (w' & -> & _ & Hs & _).
    cbn [fst snd]. split; [unfold paired; rewrite Hs; exact Hpair | left; reflexivity].
Qed.

Lemma step_signed (c : Call) (s : St) :
  ed25519_correct -> paired (fst s) ->
  paired (fst (snd (step c s)))
  /\ (Database.rows (snd (snd (step c s))) = Database.rows (snd s)
      \/ exists r, signature_verifies r
           /\ Database.rows (snd (snd (step c s))) = Database.rows (snd s) ++ [r]).
Proof.
  intros Hed Hpair. destruct s as [w db].
  destruct c as [utc_now ev env | env | env]; cbn [step fst snd] in *.
  - unfold add_event, bind, update, modify. cbn [fst snd].
    apply flush_signed; [exact Hed | exact Hpair].
  - apply flush_signed; assumption.
  - apply flush_signed; assumption.
Qed.

Lemma run_signed (calls : list Call) (s : St) :
  ed25519_correct -> paired (fst s) ->
  Forall signature_verifies (Database.rows (snd s)) ->
  Forall signature_verifies (Database.rows (snd (run calls s))).
Proof.
  intros Hed. revert s.
  induction calls as [|c calls IH]; intros s Hpair Hs; [exact Hs|].
  cbn [run fold_left].
  destruct (step_signed c s Hed Hpair) as [Hpair' Hrows].
  apply IH; [exact Hpair'|].
  destruct Hrows as [-> | (r & Hr & ->)]; [exact Hs|].
  apply Forall_app. split; [exact Hs | constructor; [exact Hr | constructor]].
Qed.

(** The verifier's loop on rows whose signatures verify, without a master
    key: every row counts as checked and as signed, and no error is
    recorded. *)
Lemma verify_rows_signed (rows : list Database.Row) (no_decrypt have : bool)
    (st : VerifySegments.Loop) :
  Forall signature_verifies rows ->
  let st' := fold_left (VerifySegments.verify_row None no_decrypt have) rows st in
  VerifySegments.stats st'
  = VerifySegments.mkStats
      (VerifySegments.total (VerifySegments.stats st) + Z.of_nat (length rows))
      (VerifySegments.sig_ok (VerifySegments.stats st) + Z.of_nat (length rows))
      (VerifySegments.chain_ok (VerifySegments.stats st))
      (VerifySegments.decrypt_ok (VerifySegments.stats st))
  /\ VerifySegments.errors st' = VerifySegments.errors st.
Proof.
  revert st. induction rows as [|r rows IH]; intros st Hall; cbv zeta.
  - cbn. destruct (VerifySegments.stats st). cbn. rewrite !Z.add_0_r. split; reflexivity.
  - apply Forall_cons_iff in Hall as [(h & Hh & Hsig) Hall].
    cbn [fold_left]. specialize (IH (VerifySegments.verify_row None no_decrypt have st r) Hall).
    cbv zeta in IH. destruct IH as [-> ->].
    unfold VerifySegments.verify_row. rewrite Hh, Hsig.
    cbn [VerifySegments.stats VerifySegments.errors VerifySegments.total
         VerifySegments.sig_ok VerifySegments.chain_ok VerifySegments.decrypt_ok
         VerifySegments.b2z length].
    rewrite !app_nil_r, !Z.add_0_r. split; [f_equal; lia | reflexivity].
Qed.

(** C4. With a signature scheme that verifies its own signatures, every
    row that a writer built by its constructor stores has a header that
    decodes and whose [sig] verifies, under the header's own [sign_pub],
    over the sorted compact JSON of the header without [sig]; and a
    signatures-only run of the verifier counts every selected row. *)
Theorem persisted_signature_verifies (flush_sec max_events : Z)
    (rnd : MasterKeyManager.Entropy) (time_now : float) (d : SecretsDir.t)
    (calls : list Call) (limit : option Z) (no_decrypt have : bool) :
  ed25519_correct ->
  let w0 := fst (init flush_sec max_events rnd time_now d) in
  let db := snd (run calls (w0, Database.empty)) in
  Forall signature_verifies (Database.rows db)
  /\ (VerifySegments.select_rows db limit <> [] ->
      VerifySegments.verify_db db None limit no_decrypt have
      = (VerifySegments.mkStats
           (Z.of_nat (length (VerifySegments.select_rows db limit)))
           (Z.of_nat (length (VerifySegments.select_rows db limit))) 0 0, [])).
Proof.
  intros Hed w0 db.
  assert (Hall : Forall signature_verifies (Database.rows db)).
  { apply run_signed; [exact Hed | apply init_paired | constructor]. }
  split; [exact Hall|]. intros Hne.
  assert (Hsel : Forall signature_verifies (VerifySegments.select_rows db limit)).
  { unfold VerifySegments.select_rows. destruct limit as [n|]; [|exact Hall].
    destruct ((n =? 0) || (n <? 0)); [exact Hall|].
    apply Forall_firstn. exact Hall. }
  unfold VerifySegments.verify_db.
  destruct (VerifySegments.select_rows db limit) as [|r rows] eqn:Hrows; [contradiction|].
  destruct (verify_rows_signed (r :: rows) no_decrypt have
              (VerifySegments.mkLoop (VerifySegments.mkStats 0 0 0 0) [] ∅) Hsel)
    as [Hst Her].
  cbv zeta in Hst, Her. rewrite Hst, Her. reflexivity.
Qed.

End Signature.

Lemma persisted_signature_verifies_witness :
  @ed25519_correct Toy.crypto
  /\ Forall (@signature_verifies Toy.runtime Toy.crypto)
       (Database.rows
          (snd (@run Toy.runtime Toy.crypto [toy_add true; Stop (toy_env true)]
                     (toy_writer, Database.empty)))).
Proof.
  split; [exact toy_ed25519_correct|].
  apply (@persisted_signature_verifies Toy.runtime Toy.crypto 60 500 toy_entropy 1000
           (SecretsDir.mk None None) [toy_add true; Stop (toy_env true)] None false true
           toy_ed25519_correct).
Defined.

End SignatureFacts.

(** ** The verifier on what the writer stored *)

Module VerifyFacts.
Import Notions.
Import Py PyFacts Json JsonFacts EffFacts SegmentWriter SegmentView WriterFacts
  FlushFacts HeaderFacts Contracts SessionView Scenarios.
Import VerifySegments.

Section Verify.
Context `{PyRuntime} `{Crypto}.
Variables (w : SegmentWriter.t) (env : Env) (batch : list (dict json)).

Abbreviation sid := (SessionKeys.session_id (sess w)).

(** The chain step on a stored segment, when the verifier's entry for the
    session carries the writer's chain key and last chain tag. *)
Lemma check_chain_written (master_key : bytes) (ss : gmap string Sess) (se : Sess) :
  session_view master_key ss sid = Some se ->
  chain_key se = _hmac_key w ->
  prev_chain_tag se = _last_chain_tag w ->
  exists ss1,
    check_chain master_key (header w env batch) (ct w env batch) ss = (true, ss1)
    /\ ss1 !! sid = Some (mkSess (_hmac_key w) (chain_tag w env batch) (current_key se)).
Proof.
  intros Hview Hkey Hprev. unfold check_chain.
  rewrite header_session. cbn [as_str].
  unfold session_view in Hview.
  destruct (ss !! sid) as [s0|] eqn:Hl.
  - injection Hview as ->. rewrite header_aad, Hkey, Hprev.
    fold (chain_tag w env batch). rewrite header_chain_tag.
    rewrite String.eqb_refl, fromhex_hex.
    eexists. split; [reflexivity|]. apply lookup_insert_eq.
  - destruct (fromhex sid) as [salt|]; [|discriminate].
    injection Hview as <-. cbv zeta. rewrite header_aad.
    cbn [chain_key prev_chain_tag current_key] in *. rewrite Hkey, Hprev.
    fold (chain_tag w env batch). rewrite header_chain_tag.
    rewrite String.eqb_refl, fromhex_hex.
    eexists. split; [reflexivity|]. rewrite lookup_insert_eq. reflexivity.
Qed.

(** The decryption step never touches the chain fields of an entry. *)
Lemma check_decrypt_keeps_chain (have : bool) (h : dict json) (body : bytes)
    (ss : gmap string Sess) (se : Sess) :
  as_str (dict_get "session" h) = Some sid ->
  ss !! sid = Some se ->
  exists se2,
    snd (check_decrypt have h body ss) !! sid = Some se2
    /\ chain_key se2 = chain_key se /\ prev_chain_tag se2 = prev_chain_tag se.
Proof.
  intros Hsid Hse. unfold check_decrypt. rewrite Hsid, Hse.
  destruct (decrypt_segment have (current_key se) h body) as [[k pt]|]; cbn [snd].
  - eexists. split; [apply lookup_insert_eq|]. split; reflexivity.
  - exists se. split; [exact Hse|]. split; reflexivity.
Qed.

(** One iteration of the verifier's loop on a stored segment whose chain
    fields the verifier is in step with. *)
Lemma verify_row_chain (master_key : bytes) (no_decrypt have : bool) (L : Loop)
    (last : Z) (se : Sess) :
  session_view master_key (session_state L) sid = Some se ->
  chain_key se = _hmac_key w ->
  prev_chain_tag se = _last_chain_tag w ->
  let L' := verify_row (Some master_key) no_decrypt have L (row w env batch last) in
  chain_ok (stats L') = chain_ok (stats L) + 1
  /\ List.filter is_chain_error (errors L') = List.filter is_chain_error (errors L)
  /\ exists se',
       session_state L' !! sid = Some se'
       /\ chain_key se' = _hmac_key w
       /\ prev_chain_tag se' = chain_tag w env batch.
Proof.
  intros Hview Hkey Hprev. cbv zeta. unfold verify_row.
  cbn [Database.header Database.body Database.seq row].
  rewrite header_loads.
  destruct (check_chain_written master_key (session_state L) se Hview Hkey Hprev)
    as (ss1 & -> & Hss1).
  destruct no_decrypt.
  - cbn [stats errors session_state chain_ok b2z].
    split; [reflexivity|]. split.
    + rewrite !List.filter_app. destruct (check_signature _); cbn; rewrite !app_nil_r;
        reflexivity.
    + eexists. split; [exact Hss1|]. split; reflexivity.
  - destruct (check_decrypt_keeps_chain have (header w env batch) (ct w env batch) ss1 _
                ltac:(rewrite header_session; reflexivity) Hss1)
      as (se2 & Hse2 & Hck & Hpt).
    destruct (check_decrypt have (header w env batch) (ct w env batch) ss1) as [ok ss2].
    cbn [snd] in Hse2. cbn [stats errors session_state chain_ok b2z].
    split; [reflexivity|]. split.
    + rewrite !List.filter_app. destruct (check_signature _), ok; cbn;
        rewrite !app_nil_r; reflexivity.
    + exists se2. split; [exact Hse2|]. split; [exact Hck | exact Hpt].
Qed.

End Verify.

Section Runs.
Context `{PyRuntime} `{Crypto}.

(** What a call with a willing database does to ratchet and table. *)
Lemma step_persisting (c : Call) (w : SegmentWriter.t) (db : Database.t) :
  db_ok (call_env c) = true ->
  let s' := snd (step c (w, db)) in
  (snd s' = db /\ ratchet (fst s') = ratchet w /\ sess (fst s') = sess w
   /\ _hmac_key (fst s') = _hmac_key w)
  \/ exists w1 env batch,
       batch <> [] /\ ratchet w1 = ratchet w /\ sess w1 = sess w
       /\ _hmac_key w1 = _hmac_key w
       /\ s' = (advanced w1 env batch,
                Database.mk (Database.rows db ++ [row w1 env batch (Database.last_seq db)])
                  (Database.last_seq db + 1)).
Proof.
  assert (Hflush : forall force env w,
    db_ok env = true ->
    let s' := snd (_flush_if_needed force env (w, db)) in
    (snd s' = db /\ ratchet (fst s') = ratchet w /\ sess (fst s') = sess w
     /\ _hmac_key (fst s') = _hmac_key w)
    \/ exists w1 env batch,
         batch <> [] /\ ratchet w1 = ratchet w /\ sess w1 = sess w
         /\ _hmac_key w1 = _hmac_key w
         /\ s' = (advanced w1 env batch,
                  Database.mk (Database.rows db ++ [row w1 env batch (Database.last_seq db)])
                    (Database.last_seq db + 1))).
  { intros force env w2 Hok. cbv zeta. destruct (due force env w2) eqn:Hdue.
    - destruct (flush_due force env w2 db Hdue) as [Hne ->].
      rewrite write_segment_eq, Hok. cbn [snd fst]. right.
      exists (swapped env w2), env, (_buf w2). repeat split. exact Hne.
    - destruct (flush_not_due force env w2 db Hdue) as (w' & -> & Hr & Hs & Hk & _).
      cbn [fst snd]. left. auto. }
  intros Hok. destruct c as [utc_now ev env | env | env]; cbn [step call_env] in *.
  - unfold add_event, bind, update, modify. cbn [fst snd].
    exact (Hflush false env
             (set_buf (_buf w ++ [Events.to_record utc_now ev]) (_next_flush w) w) Hok).
  - apply (Hflush false env w Hok).
  - apply (Hflush true env w Hok).
Qed.

Lemma walk_snoc (master_key : bytes) (nd have : bool) (rows : list Database.Row)
    (r : Database.Row) :
  walk master_key nd have (rows ++ [r])
  = verify_row (Some master_key) nd have (walk master_key nd have rows) r.
Proof. unfold walk. rewrite fold_left_app. reflexivity. Qed.

Lemma run_chain (master_key : bytes) (nd have : bool) (calls : list Call) (s : St) :
  all_persist calls ->
  let L := walk master_key nd have (Database.rows (snd s)) in
  chain_synced master_key (fst s) L ->
  chain_ok (stats L) = Z.of_nat (length (Database.rows (snd s))) ->
  List.filter is_chain_error (errors L) = [] ->
  let L' := walk master_key nd have (Database.rows (snd (run calls s))) in
  chain_synced master_key (fst (run calls s)) L'
  /\ chain_ok (stats L') = Z.of_nat (length (Database.rows (snd (run calls s))))
  /\ List.filter is_chain_error (errors L') = [].
Proof.
  revert s. induction calls as [|c calls IH]; intros s Hall; cbv zeta;
    intros Hsync Hcount Herr; [auto|].
  apply Forall_cons_iff in Hall as [Hc Hall].
  cbn [run fold_left]. apply (IH _ Hall); clear IH.
  - destruct s as [w db].
    destruct (step_persisting c w db Hc) as
      [(Hdb & Hr & Hs & Hk) | (w1 & env & batch & _ & Hr & Hs & Hk & ->)];
      cbv zeta in *; cbn [fst snd] in *.
    + rewrite Hdb. destruct Hsync as (se & Hv & Hck & Hpt). exists se.
      rewrite Hs, Hk. injection Hr as _ _ ->. auto.
    + cbn [Database.rows]. rewrite walk_snoc.
      destruct Hsync as (se & Hv & Hck & Hpt).
      injection Hr as _ _ Hl.
      destruct (verify_row_chain w1 env batch master_key nd have
                  (walk master_key nd have (Database.rows db)) (Database.last_seq db) se)
        as (_ & _ & se' & Hse' & Hck' & Hpt');
        [rewrite Hs; exact Hv | rewrite Hk; exact Hck | rewrite Hl; exact Hpt |].
      exists se'. unfold session_view. cbn [sess advanced set_ratchet].
      rewrite Hse'. auto.
  - destruct s as [w db].
    destruct (step_persisting c w db Hc) as
      [(Hdb & Hr & Hs & Hk) | (w1 & env & batch & _ & Hr & Hs & Hk & ->)];
      cbv zeta in *; cbn [fst snd] in *.
    + rewrite Hdb. exact Hcount.
    + cbn [Database.rows]. rewrite walk_snoc.
      destruct Hsync as (se & Hv & Hck & Hpt). injection Hr as _ _ Hl.
      destruct (verify_row_chain w1 env batch master_key nd have
                  (walk master_key nd have (Database.rows db)) (Database.last_seq db) se)
        as (Hc1 & _);
        [rewrite Hs; exact Hv | rewrite Hk; exact Hck | rewrite Hl; exact Hpt |].
      rewrite Hc1, Hcount, length_app. cbn [length]. lia.
  - destruct s as [w db].
    destruct (step_persisting c w db Hc) as
      [(Hdb & Hr & Hs & Hk) | (w1 & env & batch & _ & Hr & Hs & Hk & ->)];
      cbv zeta in *; cbn [fst snd] in *.
    + rewrite Hdb. exact Herr.
    + cbn [Database.rows]. rewrite walk_snoc.
      destruct Hsync as (se & Hv & Hck & Hpt). injection Hr as _ _ Hl.
      destruct (verify_row_chain w1 env batch master_key nd have
                  (walk master_key nd have (Database.rows db)) (Database.last_seq db) se)
        as (_ & He1 & _);
        [rewrite Hs; exact Hv | rewrite Hk; exact Hck | rewrite Hl; exact Hpt |].
      rewrite He1. exact Herr.
Qed.

(** Bounds that hold for any row: a counter grows by at most one and the
    error list only grows. *)
Lemma verify_row_bounds (master_key : option bytes) (nd have : bool) (L : Loop)
    (r : Database.Row) :
  let L' := verify_row master_key nd have L r in
  chain_ok (stats L') <= chain_ok (stats L) + 1
  /\ decrypt_ok (stats L') <= decrypt_ok (stats L) + 1
  /\ exists x, errors L' = errors L ++ x.
Proof.
  cbv zeta. unfold verify_row.
  destruct (loads _) as [h|]; [|cbn; split; [lia | split; [lia | eexists; reflexivity]]].
  destruct master_key as [mk|].
  - destruct (check_chain mk h (Database.body r) (session_state L)) as [ok ss1].
    destruct nd.
    + cbn. split; [destruct ok; cbn; lia|]. split; [lia|].
      eexists. rewrite <- app_assoc. reflexivity.
    + destruct (check_decrypt have h (Database.body r) ss1) as [ok2 ss2]. cbn.
      split; [destruct ok; cbn; lia|]. split; [destruct ok2; cbn; lia|].
      eexists. rewrite <- !app_assoc. reflexivity.
  - cbn. split; [lia|]. split; [lia|]. eexists. reflexivity.
Qed.

Lemma fold_bounds (master_key : option bytes) (nd have : bool) (rows : list Database.Row)
    (L : Loop) :
  let L' := fold_left (verify_row master_key nd have) rows L in
  chain_ok (stats L') <= chain_ok (stats L) + Z.of_nat (length rows)
  /\ decrypt_ok (stats L') <= decrypt_ok (stats L) + Z.of_nat (length rows)
  /\ exists x, errors L' = errors L ++ x.
Proof.
  revert L. induction rows as [|r rows IH]; intros L; cbv zeta.
  - cbn. split; [lia|]. split; [lia|]. exists []. symmetry. apply app_nil_r.
  - cbn [fold_left length]. specialize (IH (verify_row master_key nd have L r)).
    cbv zeta in IH. destruct IH as (Hc & Hd & x & Hx).
    destruct (verify_row_bounds master_key nd have L r) as (Hc1 & Hd1 & y & Hy).
    cbv zeta in *. split; [lia|]. split; [lia|].
    exists (y ++ x). rewrite Hx, Hy, <- app_assoc. reflexivity.
Qed.

(** If a walk over all rows counted every row and recorded no chain
    error, so did the walk over any prefix. *)
Lemma walk_prefix_chain (master_key : bytes) (nd have : bool) (n : nat)
    (rows : list Database.Row) :
  chain_ok (stats (walk master_key nd have rows)) = Z.of_nat (length rows) ->
  List.filter is_chain_error (errors (walk master_key nd have rows)) = [] ->
  chain_ok (stats (walk master_key nd have (firstn n rows)))
    = Z.of_nat (length (firstn n rows))
  /\ List.filter is_chain_error (errors (walk master_key nd have (firstn n rows))) = [].
Proof.
  intros Hcount Herr. rewrite <- (firstn_skipn n rows) in Hcount, Herr.
  unfold walk in *. rewrite fold_left_app in Hcount, Herr. rewrite length_app in Hcount.
  set (L1 := fold_left _ (firstn n rows) _) in *.
  destruct (fold_bounds (Some master_key) nd have (skipn n rows) L1) as (Hc & _ & x & Hx).
  destruct (fold_bounds (Some master_key) nd have (firstn n rows)
              (mkLoop (mkStats 0 0 0 0) [] ∅)) as (Hc1 & _).
  cbv zeta in *. fold L1 in Hc1. cbn [stats chain_ok] in Hc1. split; [lia|].
  rewrite Hx, List.filter_app in Herr. apply app_eq_nil in Herr. exact (proj1 Herr).
Qed.

Lemma select_rows_prefix (db : Database.t) (limit : option Z) :
  exists n, select_rows db limit = firstn n (Database.rows db).
Proof.
  unfold select_rows. destruct limit as [z|].
  - destruct ((z =? 0) || (z <? 0)).
    + exists (length (Database.rows db)). symmetry. apply firstn_all.
    + eexists. reflexivity.
  - exists (length (Database.rows db)). symmetry. apply firstn_all.
Qed.

(** The session a constructor call starts, and the key file it leaves. *)
Lemma init_session flush_sec max_events rnd time_now d :
  let w0 := fst (init flush_sec max_events rnd time_now d) in
  let secrets := snd (init flush_sec max_events rnd time_now d) in
  exists master,
    SecretsDir.master_key_file secrets = Some master
    /\ SessionKeys.session_id (sess w0) = hex (MasterKeyManager.session_salt rnd)
    /\ _hmac_key w0
       = hkdf_derive master 32 (MasterKeyManager.session_salt rnd) (encode "hmac-chain")
    /\ _current_key w0
       = hkdf_derive master 32 (MasterKeyManager.session_salt rnd) (encode "session-key")
    /\ _last_chain_tag w0 = zeros 32
    /\ _prev_tag w0 = zeros 16.
Proof.
  cbv zeta. unfold init, MasterKeyManager.start_session,
    MasterKeyManager.load_or_create_master, MasterKeyManager.load_or_create_signing_key.
  destruct d as [[m|] [k|]]; cbn; eexists; repeat split.
Qed.

Lemma init_chain_synced flush_sec max_events rnd time_now d master nd have :
  SecretsDir.master_key_file (snd (init flush_sec max_events rnd time_now d)) = Some master ->
  chain_synced master (fst (init flush_sec max_events rnd time_now d))
    (walk master nd have []).
Proof.
  intros Hm.
  destruct (init_session flush_sec max_events rnd time_now d)
    as (master' & Hm' & Hsid & Hk & _ & Ht & _).
  cbv zeta in *. rewrite Hm in Hm'. injection Hm' as <-.
  unfold chain_synced, session_view, walk. cbn [fold_left session_state].
  rewrite lookup_empty, Hsid, fromhex_hex. eexists. split; [reflexivity|].
  cbn [chain_key prev_chain_tag]. split; [symmetry; exact Hk | symmetry; exact Ht].
Qed.

(** C2, amended. In a session in which the database accepted every
    insert, the verifier's recomputed chain tag equals the recorded one for
    every row of every prefix of the table: [chain_ok] counts all selected
    rows and no chain error is reported. *)
Theorem chain_tags_recomputed (flush_sec max_events : Z) (rnd : MasterKeyManager.Entropy)
    (time_now : float) (d : SecretsDir.t) (calls : list Call) (limit : option Z)
    (no_decrypt have : bool) :
  all_persist calls ->
  let w0 := fst (init flush_sec max_events rnd time_now d) in
  let secrets := snd (init flush_sec max_events rnd time_now d) in
  let db := snd (run calls (w0, Database.empty)) in
  let result := verify_db db (Some secrets) limit no_decrypt have in
  chain_ok (fst result) = Z.of_nat (length (select_rows db limit))
  /\ List.filter is_chain_error (snd result) = [].
Proof.
  intros Hall w0 secrets db result.
  destruct (init_session flush_sec max_events rnd time_now d) as (master & Hm & _).
  cbv zeta in Hm. fold secrets in Hm.
  destruct (run_chain master no_decrypt have calls (w0, Database.empty) Hall)
    as (_ & Hcount & Herr).
  - apply init_chain_synced. exact Hm.
  - reflexivity.
  - reflexivity.
  - cbv zeta in Hcount, Herr. fold db in Hcount, Herr.
    destruct (select_rows_prefix db limit) as [n Hn].
    destruct (walk_prefix_chain master no_decrypt have n (Database.rows db) Hcount Herr)
      as [Hc He].
    subst result. unfold verify_db. rewrite Hm. rewrite Hn in *.
    destruct (firstn n (Database.rows db)) as [|r rows] eqn:Hrows; [split; reflexivity|].
    cbn [fst snd]. split; [exact Hc | exact He].
Qed.

End Runs.

Lemma toy_all_persist : all_persist steady_calls.
Proof. repeat constructor. Qed.

Lemma chain_tags_recomputed_witness :
  all_persist steady_calls
  /\ (let w0 := fst (@init Toy.crypto 60 500 toy_entropy 1000 (SecretsDir.mk None None)) in
      let secrets :=
        snd (@init Toy.crypto 60 500 toy_entropy 1000 (SecretsDir.mk None None)) in
      let db := snd (@run Toy.runtime Toy.crypto steady_calls (w0, Database.empty)) in
      let result :=
        @verify_db Toy.runtime Toy.crypto db (Some secrets) (Some 2) false true in
      chain_ok (fst result) = Z.of_nat (length (select_rows db (Some 2)))
      /\ List.filter is_chain_error (snd result) = []).
Proof.
  split; [exact toy_all_persist|].
  exact (@chain_tags_recomputed Toy.runtime Toy.crypto 60 500 toy_entropy 1000
           (SecretsDir.mk None None) steady_calls (Some 2) false true toy_all_persist).
Defined.

(** C2, refuted as stated: when the second of three inserts fails, the two
    stored segments are both signed, but the verifier's chain recomputation
    matches only the first. *)
Lemma chain_breaks_after_failed_persist :
  List.length (Database.rows (snd (toy_run gap_calls))) = 2%nat
  /\ @verify_db Toy.runtime Toy.crypto (snd (toy_run gap_calls)) (Some toy_secrets)
       None true true
     = (mkStats 2 2 1 0, [ChainFailed 2]).
Proof. vm_compute. split; reflexivity. Qed.

End VerifyFacts.

(** ** Decryption of what the writer stored *)

Module DecryptFacts.
Import Notions.
Import Py PyFacts Json JsonFacts EffFacts SegmentWriter SegmentView WriterFacts
  FlushFacts HeaderFacts Contracts SessionView VerifyFacts SegmentFacts Scenarios.
Import VerifySegments.

Lemma encode_decode (b : bytes) : encode (decode b) = b.
Proof. apply list_byte_of_string_of_list_byte. Qed.

Lemma drop_last_app (c t : bytes) : length t = 16%nat -> drop_last 16 (c ++ t) = c.
Proof.
  intros Ht. unfold drop_last. rewrite length_app, Ht.
  replace (length c + 16 - Z.to_nat 16)%nat with (length c) by lia.
  rewrite firstn_app, firstn_all, Nat.sub_diag. cbn. apply app_nil_r.
Qed.

Lemma take_last_app (c t : bytes) : length t = 16%nat -> take_last 16 (c ++ t) = t.
Proof.
  intros Ht. unfold take_last. rewrite length_app, Ht.
  replace (length c + 16 - Z.to_nat 16)%nat with (length c) by lia.
  rewrite skipn_app, skipn_all, Nat.sub_diag. reflexivity.
Qed.

Section Decrypt.
Context `{PyRuntime} `{Crypto}.
Hypothesis Hchacha : chacha20poly1305_correct.
Hypothesis Hsiv : aes_siv_correct.

(** Step 3 on a stored segment, from the key the writer held. *)
Lemma decrypt_segment_written (w : SegmentWriter.t) (env : Env) (batch : list (dict json))
    (have : bool) :
  _prev_tag w <> [] ->
  decrypt_segment have (_current_key w) (header w env batch) (ct w env batch)
  = Some (seg_key w env, recovered have env batch).
Proof.
  intros Hprev. unfold decrypt_segment, recovered.
  rewrite header_suite, header_hkdf_info, header_prev_tag. cbn [as_str].
  rewrite fromhex_hex, header_aad, encode_decode.
  assert (Hkey : forall n, hkdf_derive (_current_key w) n (_prev_tag w) (info env)
                 = MasterKeyManager.derive_segment_key (_current_key w) (_prev_tag w) n
                     (info env)).
  { intros n. unfold hkdf_derive, MasterKeyManager.derive_segment_key.
    destruct (_prev_tag w); [contradiction | reflexivity]. }
  unfold seg_key, key_len. unfold ct, ct_params.
  destruct (suite env) eqn:Hs; cbn [Aead.suite_id fst snd].
  - change (String.eqb Aead.SUITE_CHACHA20P SUITE_CHACHA20P) with true.
    change (String.eqb Aead.SUITE_CHACHA20P Aead.SUITE_AES_SIV) with false.
    cbv iota. rewrite (header_nonce w env batch Hs). cbn [as_str].
    rewrite fromhex_hex, Hkey.
    fold (key_len env). 
    replace (MasterKeyManager.derive_segment_key (_current_key w) (_prev_tag w) 32 (info env))
      with (seg_key w env)
      by (unfold seg_key, key_len; rewrite Hs; reflexivity).
    rewrite Hchacha. reflexivity.
  - change (String.eqb Aead.SUITE_AES_SIV SUITE_CHACHA20P) with false.
    change (String.eqb Aead.SUITE_AES_SIV SUITE_AES_SIV) with true.
    change (String.eqb Aead.SUITE_AES_SIV Aead.SUITE_AES_SIV) with true.
    cbv iota. rewrite Hkey.
    replace (MasterKeyManager.derive_segment_key (_current_key w) (_prev_tag w) 64 (info env))
      with (seg_key w env)
      by (unfold seg_key, key_len; rewrite Hs; reflexivity).
    destruct have; [|reflexivity].
    destruct (Hsiv (seg_key w env) (aad w env batch) (padded batch)) as [Hdec Hlen].
    rewrite (drop_last_app _ _ Hlen), (take_last_app _ _ Hlen), Hdec. reflexivity.
Qed.

(** One iteration of the loop, with decryption, on a stored segment. *)
Lemma verify_row_synced (w : SegmentWriter.t) (env : Env) (batch : list (dict json))
    (master_key : bytes) (have : bool) (L : Loop) (last : Z) :
  hmac_sha256_length ->
  synced master_key w L ->
  let L' := verify_row (Some master_key) false have L (row w env batch last) in
  synced master_key (advanced w env batch) L'
  /\ decrypt_ok (stats L') = decrypt_ok (stats L) + 1
  /\ List.filter is_decrypt_error (errors L') = List.filter is_decrypt_error (errors L).
Proof.
  intros Hlen [Hview Hprev]. cbv zeta. unfold verify_row.
  cbn [Database.header Database.body Database.seq row].
  rewrite header_loads.
  destruct (check_chain_written w env batch master_key (session_state L) _ Hview
              eq_refl eq_refl) as (ss1 & -> & Hss1).
  cbn [current_key] in Hss1.
  unfold check_decrypt. rewrite header_session. cbn [as_str]. rewrite Hss1.
  cbn [current_key chain_key prev_chain_tag].
  rewrite (decrypt_segment_written w env batch have Hprev).
  cbn [stats errors session_state decrypt_ok b2z]. split; [|split].
  - split.
    + unfold session_view. cbn [sess advanced set_ratchet session_state].
      rewrite lookup_insert_eq.
      reflexivity.
    + cbn [advanced set_ratchet _prev_tag]. unfold take.
      pose proof (Hlen (_hmac_key w)
                    (aad w env batch ++ ct w env batch ++ _last_chain_tag w)) as Hl.
      fold (chain_tag w env batch) in Hl.
      destruct (chain_tag w env batch); [discriminate | cbn; discriminate].
  - reflexivity.
  - rewrite !List.filter_app. destruct (check_signature _); cbn; rewrite !app_nil_r;
      reflexivity.
Qed.

Lemma run_synced (master_key : bytes) (have : bool) (calls : list Call) (s : St) :
  hmac_sha256_length ->
  all_persist calls ->
  let L := walk master_key false have (Database.rows (snd s)) in
  synced master_key (fst s) L ->
  decrypt_ok (stats L) = Z.of_nat (length (Database.rows (snd s))) ->
  List.filter is_decrypt_error (errors L) = [] ->
  let L' := walk master_key false have (Database.rows (snd (run calls s))) in
  synced master_key (fst (run calls s)) L'
  /\ decrypt_ok (stats L') = Z.of_nat (length (Database.rows (snd (run calls s))))
  /\ List.filter is_decrypt_error (errors L') = [].
Proof.
  intros Hlen. revert s. induction calls as [|c calls IH]; intros s Hall; cbv zeta;
    intros Hsync Hcount Herr; [auto|].
  apply Forall_cons_iff in Hall as [Hc Hall].
  cbn [run fold_left].
  destruct s as [w db].
  destruct (step_persisting c w db Hc) as
    [(Hdb & Hr & Hs & Hk) | (w1 & env & batch & _ & Hr & Hs & Hk & Hstep)];
    cbv zeta in *; cbn [fst snd] in *.
  - apply (IH _ Hall); cbv zeta.
    + rewrite Hdb. destruct Hsync as [Hv Hp]. injection Hr as Hc1 Hp1 Hl1.
      split; [rewrite Hs, Hk, Hl1, Hc1; exact Hv | rewrite Hp1; exact Hp].
    + rewrite Hdb. exact Hcount.
    + rewrite Hdb. exact Herr.
  - rewrite Hstep. injection Hr as Hc1 Hp1 Hl1.
    assert (Hsync1 : synced master_key w1 (walk master_key false have (Database.rows db))).
    { destruct Hsync as [Hv Hp].
      split; [rewrite Hs, Hk, Hl1, Hc1; exact Hv | rewrite Hp1; exact Hp]. }
    destruct (verify_row_synced w1 env batch master_key have
                (walk master_key false have (Database.rows db)) (Database.last_seq db)
                Hlen Hsync1) as (Hs' & Hd' & He').
    apply (IH _ Hall); cbv zeta; cbn [fst snd Database.rows]; rewrite walk_snoc.
    + exact Hs'.
    + rewrite Hd', Hcount, length_app. cbn [length]. lia.
    + rewrite He'. exact Herr.
Qed.

Lemma walk_prefix_decrypt (master_key : bytes) (have : bool) (n : nat)
    (rows : list Database.Row) :
  decrypt_ok (stats (walk master_key false have rows)) = Z.of_nat (length rows) ->
  List.filter is_decrypt_error (errors (walk master_key false have rows)) = [] ->
  decrypt_ok (stats (walk master_key false have (firstn n rows)))
    = Z.of_nat (length (firstn n rows))
  /\ List.filter is_decrypt_error (errors (walk master_key false have (firstn n rows))) = [].
Proof.
  intros Hcount Herr. rewrite <- (firstn_skipn n rows) in Hcount, Herr.
  unfold walk in *. rewrite fold_left_app in Hcount, Herr. rewrite length_app in Hcount.
  set (L1 := fold_left _ (firstn n rows) _) in *.
  destruct (fold_bounds (Some master_key) false have (skipn n rows) L1) as (_ & Hc & x & Hx).
  destruct (fold_bounds (Some master_key) false have (firstn n rows)
              (mkLoop (mkStats 0 0 0 0) [] ∅)) as (_ & Hc1 & _).
  cbv zeta in *. fold L1 in Hc1. cbn [stats decrypt_ok] in Hc1. split; [lia|].
  rewrite Hx, List.filter_app in Herr. apply app_eq_nil in Herr. exact (proj1 Herr).
Qed.

Lemma init_synced flush_sec max_events rnd time_now d master have :
  SecretsDir.master_key_file (snd (init flush_sec max_events rnd time_now d)) = Some master ->
  synced master (fst (init flush_sec max_events rnd time_now d))
    (walk master false have []).
Proof.
  intros Hm.
  destruct (init_session flush_sec max_events rnd time_now d)
    as (master' & Hm' & Hsid & Hk & Hc & Ht & Hp).
  cbv zeta in *. rewrite Hm in Hm'. injection Hm' as <-.
  unfold synced, session_view, walk. cbn [fold_left session_state].
  rewrite lookup_empty, Hsid, fromhex_hex, Hk, Hc, Ht, Hp.
  split; [reflexivity | discriminate].
Qed.

(** C3, amended. In a session in which the database accepted every insert:
    the verifier, deriving keys from the master secret, decrypts every row
    of every prefix of the table; after the walk it holds the writer's
    current key; and the segment the writer builds next from a batch
    decrypts under that key, suite and stem AAD to the newline-joined JSON
    records followed by fewer than 256 zero bytes, a multiple of 256 bytes
    in all. (With AES-SIV and no AES library the verifier only derives the
    key.) *)
Theorem segment_round_trip (flush_sec max_events : Z) (rnd : MasterKeyManager.Entropy)
    (time_now : float) (d : SecretsDir.t) (calls : list Call) (limit : option Z)
    (have : bool) :
  hmac_sha256_length ->
  all_persist calls ->
  let w0 := fst (init flush_sec max_events rnd time_now d) in
  let secrets := snd (init flush_sec max_events rnd time_now d) in
  let w := fst (run calls (w0, Database.empty)) in
  let db := snd (run calls (w0, Database.empty)) in
  let result := verify_db db (Some secrets) limit false have in
  (decrypt_ok (fst result) = Z.of_nat (length (select_rows db limit))
   /\ List.filter is_decrypt_error (snd result) = [])
  /\ (exists master se,
        SecretsDir.master_key_file secrets = Some master
        /\ session_view master (session_state (walk master false have (Database.rows db)))
             (SessionKeys.session_id (sess w)) = Some se
        /\ current_key se = _current_key w)
  /\ (forall (env : Env) (batch : list (dict json)),
        decrypt_segment have (_current_key w) (header w env batch) (ct w env batch)
        = Some (seg_key w env, recovered have env batch)
        /\ exists k, 0 <= k < 256
             /\ padded batch = payload batch ++ zeros k
             /\ blen (padded batch) mod 256 = 0).
Proof.
  intros Hlen Hall w0 secrets w db result.
  destruct (init_session flush_sec max_events rnd time_now d) as (master & Hm & _).
  cbv zeta in Hm. fold secrets in Hm.
  destruct (run_synced master have calls (w0, Database.empty) Hlen Hall)
    as ([Hview Hprev] & Hcount & Herr).
  - apply init_synced. exact Hm.
  - reflexivity.
  - reflexivity.
  - cbv zeta in *. fold db w in Hview, Hprev, Hcount, Herr. split; [|split].
    + destruct (select_rows_prefix db limit) as [n Hn].
      destruct (walk_prefix_decrypt master have n (Database.rows db) Hcount Herr)
        as [Hc He].
      subst result. unfold verify_db. rewrite Hm. rewrite Hn in *.
      destruct (firstn n (Database.rows db)) as [|r rows] eqn:Hrows; [split; reflexivity|].
      cbn [fst snd]. split; [exact Hc | exact He].
    + exists master. eexists. split; [exact Hm|]. split; [exact Hview | reflexivity].
    + intros env batch. split; [apply decrypt_segment_written; exact Hprev|].
      unfold padded, raw.
      destruct (pad_to_block_spec (payload batch)) as (k & Hk & Hp & _ & Hmod).
      exists k. split; [exact Hk|]. split; [exact Hp|].
      rewrite Hp. unfold blen in *. rewrite length_app. unfold zeros.
      rewrite repeat_length. rewrite Nat2Z.inj_add, Z2Nat.id by lia. exact Hmod.
Qed.

End Decrypt.

Lemma toy_tag_length (key : bytes) : length (take 16 (key ++ zeros 16)) = 16%nat.
Proof.
  unfold take, zeros. rewrite length_firstn, length_app, repeat_length. lia.
Qed.

Lemma toy_chacha_correct : @chacha20poly1305_correct Toy.crypto.
Proof.
  intros key nonce pt aad.
  cbn [chacha20poly1305_decrypt chacha20poly1305_encrypt Toy.crypto].
  rewrite (take_last_app _ _ (toy_tag_length key)), SignatureFacts.toy_beqb_refl.
  rewrite (drop_last_app _ _ (toy_tag_length key)). reflexivity.
Qed.

Lemma toy_siv_correct : @aes_siv_correct Toy.crypto.
Proof.
  intros key aad pt.
  cbn [aes_siv_decrypt_and_verify aes_siv_encrypt_and_digest Toy.crypto fst snd].
  rewrite SignatureFacts.toy_beqb_refl.
  split; [reflexivity | apply toy_tag_length].
Qed.

Lemma toy_hmac_length : @hmac_sha256_length Toy.crypto.
Proof.
  intros key msg. cbn [hmac_sha256 Toy.crypto]. unfold Toy.digest32, take, zeros.
  rewrite length_firstn. cbn [length]. rewrite length_app, repeat_length. lia.
Qed.

Lemma segment_round_trip_witness :
  @chacha20poly1305_correct Toy.crypto /\ @aes_siv_correct Toy.crypto
  /\ @hmac_sha256_length Toy.crypto /\ all_persist steady_calls
  /\ (let w0 := fst (@init Toy.crypto 60 500 toy_entropy 1000 (SecretsDir.mk None None)) in
      let w := fst (@run Toy.runtime Toy.crypto steady_calls (w0, Database.empty)) in
      @decrypt_segment Toy.runtime Toy.crypto true (_current_key w)
        (@header Toy.runtime Toy.crypto w (toy_env true) [[]])
        (@ct Toy.runtime Toy.crypto w (toy_env true) [[]])
      = Some (@seg_key Toy.crypto w (toy_env true),
              @recovered Toy.runtime true (toy_env true) [[]])).
Proof.
  split; [exact toy_chacha_correct|]. split; [exact toy_siv_correct|].
  split; [exact toy_hmac_length|]. split; [exact toy_all_persist|].
  exact (proj1 (proj2 (proj2
           (@segment_round_trip Toy.runtime Toy.crypto toy_chacha_correct toy_siv_correct
              60 500 toy_entropy 1000 (SecretsDir.mk None None) steady_calls None true
              toy_hmac_length toy_all_persist)) (toy_env true) [[]])).
Defined.

(** C3, refuted as stated: when the second of three inserts fails, the
    verifier's re-derived key does not open the second stored segment. *)
Lemma decryption_breaks_after_failed_persist :
  List.length (Database.rows (snd (toy_run gap_calls))) = 2%nat
  /\ @verify_db Toy.runtime Toy.crypto (snd (toy_run gap_calls)) (Some toy_secrets)
       None false true
     = (mkStats 2 2 1 1, [ChainFailed 2; DecryptFailed 2]).
Proof. vm_compute. split; reflexivity. Qed.

End DecryptFacts.

(** ** The channel over a sequence of puts *)

Module ChannelFacts.
Import Observations.
Import Queueing QueueingFacts Notions.

Lemma newest_snoc {A} (k : Z) (l : list A) (x : A) :
  0 < k ->
  newest k (l ++ [x])
  = (if (k <=? Z.of_nat (length l)) then tl (newest k l) else newest k l) ++ [x].
Proof.
  intros Hk. unfold newest. rewrite length_app. cbn [length].
  destruct (k <=? Z.of_nat (length l)) eqn:Hle.
  - apply Z.leb_le in Hle.
    replace (length l + 1 - Z.to_nat k)%nat with (S (length l - Z.to_nat k)) by lia.
    rewrite skipn_app.
    replace (S (length l - Z.to_nat k) - length l)%nat with 0%nat by lia.
    cbn [skipn]. f_equal.
    remember (length l - Z.to_nat k)%nat as n eqn:Hn.
    assert (Hlt : (n < length l)%nat) by lia.
    clear Hn Hle. revert n Hlt. induction l as [|y l IH]; intros n Hlt.
    + cbn in Hlt. lia.
    + destruct n as [|n]; [reflexivity|]. cbn [skipn]. cbn [length] in Hlt.
      rewrite <- IH by lia. reflexivity.
  - apply Z.leb_gt in Hle.
    replace (length l + 1 - Z.to_nat k)%nat with 0%nat by lia.
    replace (length l - Z.to_nat k)%nat with 0%nat by lia.
    reflexivity.
Qed.

Lemma length_newest {A} (k : Z) (l : list A) :
  0 < k -> Z.of_nat (length (newest k l)) = Z.min k (Z.of_nat (length l)).
Proof. intros Hk. unfold newest. rewrite length_skipn. lia. Qed.

Lemma put_all_snoc {A} (q : Queue A) (xs : list A) (x : A) :
  put_all q (xs ++ [x]) = snd (safe_put (put_all q xs) x).
Proof. unfold put_all. rewrite fold_left_app. reflexivity. Qed.

(** X1. A channel that respects its bound holds, after any sequence of
    [safe_put]s, the newest [maxsize] of everything it held and was
    offered, oldest first; an unbounded channel holds everything. *)
Theorem channel_holds_newest {A} (q : Queue A) (xs : list A) :
  queue_wf q ->
  queue_wf (put_all q xs)
  /\ maxsize (put_all q xs) = maxsize q
  /\ items (put_all q xs)
     = if 0 <? maxsize q then newest (maxsize q) (items q ++ xs) else items q ++ xs.
Proof.
  intros Hwf. induction xs as [|x xs IH] using rev_ind.
  - cbn. split; [exact Hwf|]. split; [reflexivity|]. rewrite app_nil_r.
    destruct (0 <? maxsize q) eqn:Hpos; [|reflexivity].
    apply Z.ltb_lt in Hpos. unfold newest.
    destruct Hwf as [Hwf|Hwf]; [lia|]. unfold qsize in Hwf.
    replace (length (items q) - Z.to_nat (maxsize q))%nat with 0%nat by lia.
    reflexivity.
  - destruct IH as (Hwf' & Hmax & Hit). rewrite put_all_snoc.
    destruct (safe_put_offered (put_all q xs) x Hwf') as [-> Hwf''].
    cbn [snd]. split; [exact Hwf''|]. split; [exact Hmax|].
    unfold offered. cbn [items]. unfold full, qsize. rewrite Hmax, Hit.
    destruct (0 <? maxsize q) eqn:Hpos; cbn [andb].
    + apply Z.ltb_lt in Hpos. rewrite app_assoc, (newest_snoc _ _ _ Hpos).
      rewrite length_newest by exact Hpos.
      destruct (maxsize q <=? Z.of_nat (length (items q ++ xs))) eqn:Hle.
      * apply Z.leb_le in Hle.
        replace (maxsize q <=? Z.min (maxsize q) (Z.of_nat (length (items q ++ xs))))
          with true by (symmetry; apply Z.leb_le; lia).
        reflexivity.
      * apply Z.leb_gt in Hle.
        replace (maxsize q <=? Z.min (maxsize q) (Z.of_nat (length (items q ++ xs))))
          with false by (symmetry; apply Z.leb_gt; lia).
        reflexivity.
    + rewrite app_assoc. reflexivity.
Qed.

Lemma channel_holds_newest_witness :
  queue_wf (mkQueue 2 [1; 2])
  /\ items (put_all (mkQueue 2 [1; 2]) [3; 4; 5])
     = if 0 <? 2 then newest 2 ([1; 2] ++ [3; 4; 5]) else [1; 2] ++ [3; 4; 5].
Proof.
  assert (Hwf : queue_wf (mkQueue 2 [1; 2])) by (right; vm_compute; discriminate).
  split; [exact Hwf|].
  exact (proj2 (proj2 (channel_holds_newest (mkQueue 2 [1; 2]) [3; 4; 5] Hwf))).
Defined.

End ChannelFacts.

(** ** Records of events *)

Module RecordFacts.
Import Observations.
Import Py Json Events.

(** X2. The four base fields come first in every record, as
    [BaseEvent.to_record] gives them: no subclass overwrites one, and no
    key occurs twice. The [etype] entry is the class's tag, which for an
    anomaly is the tag of a command. *)
Theorem record_extends_base (utc_now : string) (ev : Event) :
  firstn 4 (to_record utc_now ev) = base_to_record utc_now ev
  /\ NoDup (keys (to_record utc_now ev))
  /\ dict_get "etype" (to_record utc_now ev) = Some (JStr (EventType.name (etype ev)))
  /\ (forall a, ev = Anomaly a ->
      dict_get "etype" (to_record utc_now ev) = Some (JStr "COMMAND")).
Proof.
  split; [destruct ev; reflexivity|].
  split; [destruct ev; apply (bool_decide_unpack _); vm_compute; reflexivity|].
  split; [destruct ev; reflexivity|].
  intros a ->. reflexivity.
Qed.

#[local] Instance str_le_total : Total str_le.
Proof.
  intros a b. unfold str_le.
  destruct (String.leb_total a b) as [H|H]; rewrite H; [left | right]; exact I.
Qed.

(** X3. The [mods] entry of a key event's record lists the modifier set in
    ascending order, each modifier once. *)
Theorem mods_serialized_sorted (utc_now : string) (k : KeyEvent.t) :
  exists l,
    dict_get "mods" (to_record utc_now (Key k)) = Some (JList (map JStr l))
    /\ Sorted str_le l
    /\ NoDup l
    /\ forall x, x ∈ l <-> x ∈ KeyEvent.mods k.
Proof.
  exists (sorted_set (KeyEvent.mods k)). split; [reflexivity|].
  unfold sorted_set. split; [apply Sorted_merge_sort; apply _|].
  split.
  - rewrite merge_sort_Permutation. apply NoDup_elements.
  - intros x. rewrite merge_sort_Permutation. apply elem_of_elements.
Qed.

End RecordFacts.

(** ** The metrics windows *)

Module WindowFacts.
Import Observations.
Import Py MetricsTracker.

Lemma popleft_while_lt_spec {A} (cut : float) (d : list (float * A)) :
  exists dropped,
    d = dropped ++ popleft_while_lt cut d
    /\ Forall (fun p => PrimFloat.ltb (fst p) cut = true) dropped
    /\ forall p, head (popleft_while_lt cut d) = Some p -> PrimFloat.ltb (fst p) cut = false.
Proof.
  induction d as [|[t0 a] d IH].
  - exists []. split; [reflexivity|]. split; [constructor | discriminate].
  - cbn [popleft_while_lt]. destruct (PrimFloat.ltb t0 cut) eqn:Hlt.
    + destruct IH as (dropped & Hd & Hall & Hhead).
      exists ((t0, a) :: dropped). split; [cbn; f_equal; exact Hd|].
      split; [constructor; [exact Hlt | exact Hall] | exact Hhead].
    + exists []. split; [reflexivity|]. split; [constructor|].
      intros p [= <-]. exact Hlt.
Qed.

(** X4. [observe_key] stamps the tracker with the event's time, appends a
    key-down to the key window, and then removes from the front of the
    window only entries older than the longer of the two rate windows: an
    old entry behind a fresher one stays. *)
Theorem observe_key_window (ev : KeyEvent.t) (m : MetricsTracker.t) :
  let now := BaseEvent.t_mono (KeyEvent.base ev) in
  let cut := (now - fmax (wpm_window_s m) (cpm_window_s m))%float in
  let m' := observe_key ev m in
  _last_event_t m' = now
  /\ _last_key_down_t m' = (if is_down ev then Some now else _last_key_down_t m)
  /\ exists dropped,
       _keys_window m ++ key_entry ev = dropped ++ _keys_window m'
       /\ Forall (fun p => PrimFloat.ltb (fst p) cut = true) dropped
       /\ forall p, head (_keys_window m') = Some p -> PrimFloat.ltb (fst p) cut = false.
Proof.
  cbv zeta. unfold observe_key, is_down, key_entry.
  destruct (KeyEvent.action ev); cbn [_gc _last_event_t _last_key_down_t _keys_window
    wpm_window_s cpm_window_s].
  - split; [reflexivity|]. split; [reflexivity|]. apply popleft_while_lt_spec.
  - split; [reflexivity|]. split; [reflexivity|]. rewrite app_nil_r.
    apply popleft_while_lt_spec.
Qed.

Lemma Forall_popleft {A} (P : float * A -> Prop) (cut : float) (d : list (float * A)) :
  Forall P d -> Forall P (popleft_while_lt cut d).
Proof.
  induction 1 as [|[t0 a] d Hp Hd IH]; [constructor|].
  cbn [popleft_while_lt]. destruct (PrimFloat.ltb t0 cut); [exact IH|].
  constructor; assumption.
Qed.

Lemma length_popleft {A} (cut : float) (d : list (float * A)) :
  (length (popleft_while_lt cut d) <= length d)%nat.
Proof.
  induction d as [|[t0 a] d IH]; [reflexivity|].
  cbn [popleft_while_lt]. destruct (PrimFloat.ltb t0 cut); cbn [length]; lia.
Qed.

Lemma observe_key_inv (ev : KeyEvent.t) (m : MetricsTracker.t) (downs : nat) :
  intervals_inv downs m ->
  intervals_inv (downs + (if is_down ev then 1 else 0)) (observe_key ev m).
Proof.
  intros (Hpos & Hlen & Hnone). unfold intervals_inv, observe_key, is_down.
  destruct (KeyEvent.action ev); cbn [_gc _intervals _last_key_down_t].
  - destruct (_last_key_down_t m) as [last|] eqn:Hlast.
    + destruct (PrimFloat.ltb 0 _) eqn:Hdt.
      * split; [apply Forall_popleft, Forall_app; split;
                  [exact Hpos | constructor; [exact Hdt | constructor]]|].
        split; [|intros; lia].
        etransitivity; [apply length_popleft|]. rewrite length_app. cbn [length].
        destruct downs as [|downs]; [|lia].
        discriminate (Hnone eq_refl).
      * split; [apply Forall_popleft; exact Hpos|]. split; [|intros; lia].
        etransitivity; [apply length_popleft|]. lia.
    + split; [apply Forall_popleft; exact Hpos|]. split; [|intros; lia].
      etransitivity; [apply length_popleft|]. lia.
  - split; [apply Forall_popleft; exact Hpos|]. split.
    + etransitivity; [apply length_popleft|]. lia.
    + intros Hn. apply Hnone. lia.
Qed.

Lemma observe_all_inv (evs : list KeyEvent.t) (m : MetricsTracker.t) (downs : nat) :
  intervals_inv downs m ->
  intervals_inv (downs + length (List.filter is_down evs)) (observe_all evs m).
Proof.
  revert m downs. induction evs as [|ev evs IH]; intros m downs Hinv.
  - cbn. rewrite Nat.add_0_r. exact Hinv.
  - cbn [observe_all fold_left List.filter].
    specialize (IH _ _ (observe_key_inv ev m downs Hinv)).
    unfold observe_all in IH.
    destruct (is_down ev); cbn [length]; [|rewrite Nat.add_0_r in IH; exact IH].
    replace (downs + S (length (List.filter is_down evs)))%nat
      with (downs + 1 + length (List.filter is_down evs))%nat by lia.
    exact IH.
Qed.

(** X5. Whatever key events a new tracker observes, every interval in its
    window is positive, and there are fewer intervals than key-downs seen
    (none before the second key-down). *)
Theorem intervals_positive_and_few (wpm cpm entropy now : float) (evs : list KeyEvent.t) :
  let m := observe_all evs (init wpm cpm entropy now) in
  Forall (fun p => PrimFloat.ltb 0 (snd p) = true) (_intervals m)
  /\ (length (_intervals m) <= length (List.filter is_down evs) - 1)%nat.
Proof.
  cbv zeta.
  destruct (observe_all_inv evs (init wpm cpm entropy now) 0) as (Hpos & Hlen & _).
  - split; [constructor|]. split; [cbn; lia | reflexivity].
  - split; [exact Hpos | exact Hlen].
Qed.

End WindowFacts.

(** ** Components that put events on the channel *)

Module EmitFacts.
Import Observations.
Import Py Json Events Queueing QueueingFacts EffFacts WorldFacts Notions.

Section Emits.
Context {T : Type}.
Abbreviation M := (Eff (T * World.t) QueueExn).

Lemma emits_ret {A} (P : Event -> bool) (a : A) : emits 0 P (ret a : M A).
Proof.
  intros s Hwf. exists a, s, []. split; [reflexivity|]. split; [exact Hwf|].
  split; [symmetry; apply app_nil_r|]. split; reflexivity.
Qed.

Lemma emits_weaken {A} (n m : nat) (P : Event -> bool) (c : M A) :
  (n <= m)%nat -> emits n P c -> emits m P c.
Proof.
  intros Hle Hc s Hwf. destruct (Hc s Hwf) as (a & s' & new & Hrun & Hwf' & Hem & Hlen & HP).
  exists a, s', new. repeat split; try assumption. lia.
Qed.

Lemma emits_bind {A B} (n m : nat) (P : Event -> bool) (c : M A) (k : A -> M B) :
  emits n P c -> (forall a, emits m P (k a)) -> emits (n + m) P (bind c k).
Proof.
  intros Hc Hk s Hwf.
  destruct (Hc s Hwf) as (a & s1 & new1 & Hrun1 & Hwf1 & Hem1 & Hlen1 & HP1).
  destruct (Hk a s1 Hwf1) as (b & s2 & new2 & Hrun2 & Hwf2 & Hem2 & Hlen2 & HP2).
  exists b, s2, (new1 ++ new2). split; [rewrite (bind_ok _ _ _ _ _ Hrun1); exact Hrun2|].
  split; [exact Hwf2|]. split; [rewrite Hem2, Hem1, app_assoc; reflexivity|].
  split; [rewrite length_app; lia|]. rewrite forallb_app, HP1, HP2. reflexivity.
Qed.

Lemma emits_when (n : nat) (P : Event -> bool) (b : bool) (c : M unit) :
  emits n P c -> emits n P (when b c).
Proof.
  intros Hc. destruct b; [exact Hc|].
  apply (emits_weaken 0); [lia | apply emits_ret].
Qed.

Lemma emits_quiet {A} (P : Event -> bool) (c : M A) :
  (forall s, exists a s',
      c s = (Ok a, s')
      /\ World.out_q (snd s') = World.out_q (snd s)
      /\ World.emitted (snd s') = World.emitted (snd s)) ->
  emits 0 P c.
Proof.
  intros Hc s Hwf. destruct (Hc s) as (a & s' & Hrun & Hq & Hem).
  exists a, s', []. split; [exact Hrun|]. split; [rewrite Hq; exact Hwf|].
  split; [rewrite Hem; symmetry; apply app_nil_r|]. split; reflexivity.
Qed.

End Emits.

End EmitFacts.

(** ** The anomaly engine *)

Module RuleFacts.
Import Observations.
Import Py Json Events Queueing QueueingFacts EffFacts WorldFacts Notions.
Import AnomalyEngine EngineFacts EmitFacts.

Section Rules.
Context `{PyRuntime}.

Lemma engine_update_quiet (f : t -> t) : emits 0 is_anomaly (update f).
Proof.
  apply emits_quiet. intros [e w]. eexists. eexists. repeat split; reflexivity.
Qed.

Lemma engine_gets_quiet {A} (f : St -> A) : emits 0 is_anomaly (gets f : M A).
Proof.
  apply emits_quiet. intros [e w]. eexists. eexists. repeat split; reflexivity.
Qed.

Lemma emit_anomaly_emits sev rule rationale features :
  emits 1 is_anomaly (emit_anomaly sev rule rationale features).
Proof.
  intros [e w] Hwf. cbn [snd] in Hwf.
  destruct (emit_anomaly_ok e w sev rule rationale features Hwf) as [Hrun Hwf'].
  cbv zeta in Hrun, Hwf'. eexists. eexists. exists [anomaly_in w sev rule rationale features].
  split; [exact Hrun|]. split; [exact Hwf'|]. split; [reflexivity|]. split; reflexivity.
Qed.

Ltac emits_step :=
  first
    [ apply engine_update_quiet
    | apply engine_gets_quiet
    | apply emit_anomaly_emits
    | apply emits_ret
    | apply emits_when
    | eapply emits_bind; [|intros ?] ].

Lemma idle_to_burst_emits_one now n : emits 1 is_anomaly (_idle_to_burst now n).
Proof.
  unfold _idle_to_burst. eapply (emits_weaken (0 + 1)); [lia|]. repeat emits_step.
Qed.

Lemma text_injection_emits_one now n :
  emits 1 is_anomaly (_text_injection_without_typing now n).
Proof.
  unfold _text_injection_without_typing.
  eapply (emits_weaken (0 + 1)); [lia|]. repeat emits_step.
Qed.

Lemma multi_paste_emits_one now : emits 1 is_anomaly (_multi_paste_streaks now).
Proof.
  unfold _multi_paste_streaks.
  eapply (emits_weaken (0 + (0 + (0 + 1)))); [lia|]. repeat emits_step.
Qed.

Lemma timing_emits_one : emits 1 is_anomaly _timing_entropy_check.
Proof.
  unfold _timing_entropy_check.
  eapply (emits_weaken (0 + 1)); [lia|]. eapply emits_bind; [apply engine_gets_quiet|].
  intros e. destruct (MetricsTracker.interkey_uniformity_cv _).
  - repeat emits_step.
  - apply (emits_weaken 0); [lia | apply emits_ret].
Qed.

Lemma engine_gc_quiet now : emits 0 is_anomaly (_gc now).
Proof. apply engine_update_quiet. Qed.

Lemma engine_emits (ev : Event) : emits (anomaly_bound ev) is_anomaly (process ev).
Proof.
  unfold process.
  destruct ev as [k|m|c|c|f|a]; cbn [anomaly_bound etype EventType.eqb when].
  - eapply (emits_weaken (0 + 0 + (0 + (0 + (1 + 0))))); [cbn; lia|].
    eapply emits_bind; [|intros ?].
    { eapply emits_bind; [|intros ?; apply engine_update_quiet].
      destruct (KeyEvent.action k); [apply engine_update_quiet | apply emits_ret]. }
    eapply emits_bind; [apply emits_ret | intros ?].
    eapply emits_bind; [apply emits_ret | intros ?].
    eapply emits_bind; [apply timing_emits_one | intros ?; apply engine_gc_quiet].
  - eapply (emits_weaken (0 + (0 + (0 + (0 + 0))))); [cbn; lia|].
    repeat (eapply emits_bind; [apply emits_ret | intros ?]).
    apply engine_gc_quiet.
  - eapply (emits_weaken (0 + (1 + 1 + (0 + (0 + 0))))); [cbn; lia|].
    eapply emits_bind; [apply emits_ret | intros ?].
    eapply emits_bind; [|intros ?].
    { eapply emits_bind; [apply idle_to_burst_emits_one | intros ?; apply text_injection_emits_one]. }
    eapply emits_bind; [apply emits_ret | intros ?].
    eapply emits_bind; [apply emits_ret | intros ?; apply engine_gc_quiet].
  - eapply (emits_weaken (0 + (0 + (0 + 1 + (0 + 0))))); [cbn; lia|].
    eapply emits_bind; [apply emits_ret | intros ?].
    eapply emits_bind; [apply emits_ret | intros ?].
    eapply emits_bind; [|intros ?].
    { apply emits_when. eapply emits_bind; [apply engine_update_quiet | intros ?].
      apply multi_paste_emits_one. }
    eapply emits_bind; [apply emits_ret | intros ?; apply engine_gc_quiet].
  - eapply (emits_weaken (0 + (0 + (0 + (0 + 0))))); [cbn; lia|].
    repeat (eapply emits_bind; [apply emits_ret | intros ?]).
    apply engine_gc_quiet.
  - eapply (emits_weaken (0 + (0 + (0 + (0 + 0))))); [cbn; lia|].
    repeat (eapply emits_bind; [apply emits_ret | intros ?]).
    apply engine_gc_quiet.
Qed.

(** X6. On a channel that respects its bound, [process] returns normally for
    every event, keeps the bound, and puts on the channel nothing but
    anomalies: at most two for a clipboard change, one for a key event or a
    command, none for a mouse event, a focus change or an anomaly. *)
Theorem engine_returns_and_emits_anomalies (ev : Event) (e : t) (w : World.t) :
  queue_wf (World.out_q w) ->
  exists e' w' new,
    process ev (e, w) = (Ok tt, (e', w'))
    /\ queue_wf (World.out_q w')
    /\ World.emitted w' = World.emitted w ++ new
    /\ (length new <= anomaly_bound ev)%nat
    /\ forallb is_anomaly new = true.
Proof.
  intros Hwf.
  destruct (engine_emits ev (e, w) Hwf) as ([] & [e' w'] & new & Hrun & Hwf' & Hem & Hlen & HP).
  exists e', w', new. cbn [snd] in *. repeat (split; [assumption|]). exact HP.
Qed.


(** X8. A clipboard change shorter than both length thresholds raises
    nothing, however long the user has been idle. *)
Theorem short_clipboard_is_silent (c : ClipboardEvent.t) (e : t) (w : World.t) :
  ClipboardEvent.length c < AnomalyConfig.burst_min_len (cfg e) ->
  ClipboardEvent.length c < AnomalyConfig.text_insertion_min (cfg e) ->
  process (Clipboard c) (e, w) = (Ok tt, (swept (t_mono (Clipboard c)) e, w)).
Proof.
  intros Hb Ht. apply Z.leb_gt in Hb. apply Z.leb_gt in Ht.
  assert (H1 : _idle_to_burst (t_mono (Clipboard c)) (ClipboardEvent.length c) (e, w)
               = (Ok tt, (e, w))).
  { unfold _idle_to_burst, bind, gets. cbn [fst snd]. rewrite Hb, andb_false_r.
    reflexivity. }
  assert (H2 : _text_injection_without_typing (t_mono (Clipboard c))
                 (ClipboardEvent.length c) (e, w) = (Ok tt, (e, w))).
  { unfold _text_injection_without_typing, bind, gets. cbn [fst snd]. rewrite Ht.
    reflexivity. }
  unfold process. cbn [etype EventType.eqb when].
  erewrite (bind_ok (ret tt)) by reflexivity.
  erewrite (bind_ok (bind _ _)) by (erewrite bind_ok by exact H1; exact H2).
  reflexivity.
Qed.

(** The first clipboard rule never emits under the second rule's name. *)
Lemma idle_to_burst_emits_other (e : t) (w : World.t) (now : float) (n : Z) :
  queue_wf (World.out_q w) ->
  exists w' new,
    _idle_to_burst now n (e, w) = (Ok tt, (e, w'))
    /\ queue_wf (World.out_q w')
    /\ World.emitted w' = World.emitted w ++ new
    /\ List.filter (rule_is "text_injection") new = [].
Proof.
  intros Hwf. unfold _idle_to_burst, bind, gets. cbn [fst snd].
  match goal with |- context [when ?b _] => destruct b end; cbn [when].
  - match goal with |- context [emit_anomaly ?a ?b ?c ?d] =>
      destruct (emit_anomaly_ok e w a b c d Hwf) as [Hemit Hwf'] end.
    cbv zeta in Hemit, Hwf'. rewrite Hemit.
    eexists. eexists. split; [reflexivity|]. split; [exact Hwf'|].
    split; [reflexivity|]. reflexivity.
  - exists w, []. split; [reflexivity|]. split; [exact Hwf|].
    split; [symmetry; apply app_nil_r | reflexivity].
Qed.

(** X9. On a clipboard change of at least [text_insertion_min] characters with
    at most [keys_small_max] key-downs in the last [keys_window_s] seconds,
    [process] puts exactly one [text_injection] anomaly on the channel, of
    high severity, reporting the length, the key count and the window. *)
Theorem text_injection_rule (c : ClipboardEvent.t) (e : t) (w : World.t) :
  queue_wf (World.out_q w) ->
  let now := t_mono (Clipboard c) in
  let len := ClipboardEvent.length c in
  AnomalyConfig.text_insertion_min (cfg e) <= len ->
  recent_count now e <= AnomalyConfig.keys_small_max (cfg e) ->
  let out := process (Clipboard c) (e, w) in
  fst out = Ok tt
  /\ exists new t0 rationale,
       World.emitted (snd (snd out)) = World.emitted w ++ new
       /\ List.filter (rule_is "text_injection") new =
            [ Anomaly (AnomalyEvent.mk (BaseEvent.mk None t0 None) Severity.HIGH
                         "text_injection" rationale
                         [ ("clip_len", JInt len);
                           ("keys_recent", JInt (recent_count now e));
                           ("window_s", JFloat (AnomalyConfig.keys_window_s (cfg e))) ]) ].
Proof.
  intros Hwf now len Hlen Hkeys out. subst out.
  destruct (idle_to_burst_emits_other e w now len Hwf) as (w1 & new1 & Hitb & Hwf1 & Hem1 & Hno).
  assert (Hti : exists rationale,
    _text_injection_without_typing now len (e, w1)
    = (Ok tt, (e, after_put
                    (anomaly_in w1 Severity.HIGH "text_injection" rationale
                       [ ("clip_len", JInt len);
                         ("keys_recent", JInt (recent_count now e));
                         ("window_s", JFloat (AnomalyConfig.keys_window_s (cfg e))) ])
                    (tick w1)))).
  { eexists. unfold _text_injection_without_typing, bind, gets. cbn [fst snd].
    fold (recent_count now e).
    apply Z.leb_le in Hlen, Hkeys. rewrite Hlen, Hkeys. cbn [andb when].
    apply emit_anomaly_ok. exact Hwf1. }
  destruct Hti as [rationale Hti].
  assert (Hclip :
    bind (_idle_to_burst now len) (fun _ => _text_injection_without_typing now len) (e, w)
    = (Ok tt, (e, after_put
                    (anomaly_in w1 Severity.HIGH "text_injection" rationale
                       [ ("clip_len", JInt len);
                         ("keys_recent", JInt (recent_count now e));
                         ("window_s", JFloat (AnomalyConfig.keys_window_s (cfg e))) ])
                    (tick w1)))).
  { erewrite bind_ok by exact Hitb. exact Hti. }
  unfold process. cbv beta iota zeta. fold now len.
  erewrite (bind_ok (ret tt)) by reflexivity.
  erewrite bind_ok by exact Hclip.
  unfold bind, ret, when, _gc, update, modify. cbn.
  split; [reflexivity|].
  eexists (new1 ++ [_]), _, rationale. rewrite Hem1.
  split; [rewrite <- app_assoc; reflexivity|].
  rewrite List.filter_app, Hno. reflexivity.
Qed.

(** X10. A key event puts nothing on the channel while the interval window,
    after the event has been observed, holds fewer than two intervals or
    fewer than [min_interkey_samples]. *)
Theorem key_event_needs_samples (k : KeyEvent.t) (e : t) (w : World.t) :
  Z.of_nat (length (MetricsTracker._intervals
                      (MetricsTracker.observe_key k (metrics e))))
    < Z.max 2 (AnomalyConfig.min_interkey_samples (cfg e)) ->
  fst (process (Key k) (e, w)) = Ok tt
  /\ snd (snd (process (Key k) (e, w))) = w.
Proof.
  intros Hfew. unfold process. cbn [etype EventType.eqb when].
  unfold _timing_entropy_check, MetricsTracker.interkey_uniformity_cv.
  destruct (KeyEvent.action k);
    unfold bind, update, modify, gets, ret; cbn [fst snd metrics cfg];
    (destruct (Z.of_nat (length _) <? 2) eqn:H2; [split; reflexivity|]);
    (destruct (PrimFloat.leb _ 0); [split; reflexivity|]);
    apply Z.ltb_ge in H2;
    match goal with |- context [when (_ && ?b)] =>
      replace b with false by (symmetry; apply Z.leb_gt; lia) end;
    rewrite andb_false_r; split; reflexivity.
Qed.

End Rules.

Lemma quiet_engine_wf : queue_wf (World.out_q (snd Scenarios.quiet_engine)).
Proof. right. vm_compute. discriminate. Qed.

Lemma engine_returns_and_emits_anomalies_witness :
  queue_wf (World.out_q (snd Scenarios.quiet_engine))
  /\ exists e' w' new,
       @process Toy.runtime (Clipboard Scenarios.burst_clip)
         (fst Scenarios.quiet_engine, snd Scenarios.quiet_engine)
       = (Ok tt, (e', w'))
       /\ queue_wf (World.out_q w')
       /\ World.emitted w' = World.emitted (snd Scenarios.quiet_engine) ++ new
       /\ (length new <= anomaly_bound (Clipboard Scenarios.burst_clip))%nat
       /\ forallb is_anomaly new = true.
Proof.
  split; [exact quiet_engine_wf|].
  exact (@engine_returns_and_emits_anomalies Toy.runtime (Clipboard Scenarios.burst_clip)
           (fst Scenarios.quiet_engine) (snd Scenarios.quiet_engine) quiet_engine_wf).
Defined.


Lemma short_clipboard_is_silent_witness :
  ClipboardEvent.length Cases.short_clip
    < AnomalyConfig.burst_min_len (cfg (fst Scenarios.quiet_engine))
  /\ ClipboardEvent.length Cases.short_clip
      < AnomalyConfig.text_insertion_min (cfg (fst Scenarios.quiet_engine))
  /\ @process Toy.runtime (Clipboard Cases.short_clip)
       (fst Scenarios.quiet_engine, snd Scenarios.quiet_engine)
     = (Ok tt, (swept (t_mono (Clipboard Cases.short_clip)) (fst Scenarios.quiet_engine),
                snd Scenarios.quiet_engine)).
Proof.
  split; [reflexivity|]. split; [reflexivity|].
  exact (@short_clipboard_is_silent Toy.runtime Cases.short_clip
           (fst Scenarios.quiet_engine) (snd Scenarios.quiet_engine) eq_refl eq_refl).
Defined.

Lemma text_injection_rule_witness :
  queue_wf (World.out_q (snd Scenarios.quiet_engine))
  /\ AnomalyConfig.text_insertion_min (cfg (fst Scenarios.quiet_engine))
      <= ClipboardEvent.length Scenarios.burst_clip
  /\ recent_count (t_mono (Clipboard Scenarios.burst_clip)) (fst Scenarios.quiet_engine)
      <= AnomalyConfig.keys_small_max (cfg (fst Scenarios.quiet_engine))
  /\ fst (@process Toy.runtime (Clipboard Scenarios.burst_clip)
            (fst Scenarios.quiet_engine, snd Scenarios.quiet_engine)) = Ok tt.
Proof.
  split; [exact quiet_engine_wf|].
  assert (Hlen : AnomalyConfig.text_insertion_min (cfg (fst Scenarios.quiet_engine))
                 <= ClipboardEvent.length Scenarios.burst_clip)
    by (vm_compute; discriminate).
  assert (Hkeys : recent_count (t_mono (Clipboard Scenarios.burst_clip))
                    (fst Scenarios.quiet_engine)
                  <= AnomalyConfig.keys_small_max (cfg (fst Scenarios.quiet_engine)))
    by (vm_compute; discriminate).
  split; [exact Hlen|]. split; [exact Hkeys|].
  exact (proj1 (@text_injection_rule Toy.runtime Scenarios.burst_clip
                  (fst Scenarios.quiet_engine) (snd Scenarios.quiet_engine)
                  quiet_engine_wf Hlen Hkeys)).
Defined.

Lemma key_event_needs_samples_witness :
  Z.of_nat (length (MetricsTracker._intervals
                      (MetricsTracker.observe_key Cases.key_a
                         (metrics (fst Scenarios.quiet_engine)))))
    < Z.max 2 (AnomalyConfig.min_interkey_samples (cfg (fst Scenarios.quiet_engine)))
  /\ fst (@process Toy.runtime (Key Cases.key_a)
            (fst Scenarios.quiet_engine, snd Scenarios.quiet_engine)) = Ok tt
  /\ snd (snd (@process Toy.runtime (Key Cases.key_a)
                 (fst Scenarios.quiet_engine, snd Scenarios.quiet_engine)))
     = snd Scenarios.quiet_engine.
Proof.
  split; [reflexivity|].
  exact (@key_event_needs_samples Toy.runtime Cases.key_a (fst Scenarios.quiet_engine)
           (snd Scenarios.quiet_engine) eq_refl).
Defined.

End RuleFacts.

(** ** The paste classifier *)

Module CommandFacts.
Import Observations.
Import Py Json Events Queueing QueueingFacts EffFacts WorldFacts Notions.
Import PasteClassifier ClassifierFacts EmitFacts.

Lemma classifier_update_quiet (f : t -> t) : emits 0 is_command (update f).
Proof.
  apply emits_quiet. intros [p w]. eexists. eexists. repeat split; reflexivity.
Qed.

Lemma classifier_gets_quiet {A} (f : St -> A) : emits 0 is_command (gets f : M A).
Proof.
  apply emits_quiet. intros [p w]. eexists. eexists. repeat split; reflexivity.
Qed.

Lemma classifier_clock_quiet : emits 0 is_command clock.
Proof.
  apply emits_quiet. intros [p w]. eexists. eexists. repeat split; reflexivity.
Qed.

Lemma emit_command_emits cmd source notes : emits 1 is_command (_emit cmd source notes).
Proof.
  intros [p w] Hwf. cbn [snd] in Hwf.
  pose proof (emit_ok p w cmd source notes Hwf) as Hrun.
  destruct (put_ok (command_in w cmd source notes) (tick w) Hwf) as [_ Hwf'].
  eexists. eexists. exists [command_in w cmd source notes].
  split; [exact Hrun|]. split; [exact Hwf'|]. split; [reflexivity|]. split; reflexivity.
Qed.

Lemma classifier_emits (ev : Event) : emits (command_bound ev) is_command (process ev).
Proof.
  unfold process.
  destruct ev as [k|m|c|c|f|a]; cbn [command_bound].
  - eapply (emits_weaken (0 + (1 + (0 + 0)))); [cbn; lia|].
    eapply emits_bind; [apply classifier_clock_quiet | intros now].
    eapply emits_bind; [|intros ?].
    { destruct (KeyEvent.action k); [|apply (emits_weaken 0); [lia | apply emits_ret]].
      destruct (_ || _); [|apply (emits_weaken 0); [lia | apply emits_ret]].
      repeat (match goal with |- context [if ?b then _ else _] => destruct b end;
              [apply emit_command_emits|]).
      apply (emits_weaken 0); [lia | apply emits_ret]. }
    eapply emits_bind; [apply emits_ret | intros ?; apply emits_ret].
  - eapply (emits_weaken (0 + (0 + (0 + (0 + 1) + 0)))); [cbn; lia|].
    eapply emits_bind; [apply classifier_clock_quiet | intros now].
    eapply emits_bind; [apply emits_ret | intros ?].
    eapply emits_bind; [|intros ?; apply emits_ret].
    eapply emits_bind; [apply emits_when, classifier_update_quiet | intros ?].
    eapply emits_bind; [apply classifier_gets_quiet | intros ?].
    apply emits_when, emit_command_emits.
  - eapply (emits_weaken (0 + (0 + (0 + (0 + (0 + 1)))))); [cbn; lia|].
    eapply emits_bind; [apply classifier_clock_quiet | intros now].
    eapply emits_bind; [apply emits_ret | intros ?].
    eapply emits_bind; [apply emits_ret | intros ?].
    eapply emits_bind; [apply classifier_update_quiet | intros ?].
    eapply emits_bind; [apply classifier_gets_quiet | intros p].
    destruct (_last_right_click_mono p); [|apply (emits_weaken 0); [lia | apply emits_ret]].
    apply emits_when, emits_when.
    eapply (emits_weaken (1 + 0)); [lia|].
    eapply emits_bind; [apply emit_command_emits | intros ?; apply classifier_update_quiet].
  - eapply (emits_weaken (0 + (0 + (0 + 0)))); [cbn; lia|].
    eapply emits_bind; [apply classifier_clock_quiet | intros now].
    repeat (eapply emits_bind; [apply emits_ret | intros ?]). apply emits_ret.
  - eapply (emits_weaken (0 + (0 + (0 + 0)))); [cbn; lia|].
    eapply emits_bind; [apply classifier_clock_quiet | intros now].
    repeat (eapply emits_bind; [apply emits_ret | intros ?]). apply emits_ret.
  - eapply (emits_weaken (0 + (0 + (0 + 0)))); [cbn; lia|].
    eapply emits_bind; [apply classifier_clock_quiet | intros now].
    repeat (eapply emits_bind; [apply emits_ret | intros ?]). apply emits_ret.
Qed.

(** X11. On a channel that respects its bound, [process] returns normally for
    every event, keeps the bound, and puts on the channel at most one
    event, a command, and only for a key, mouse or clipboard event: a
    command, a focus change or an anomaly gives rise to nothing. *)
Theorem classifier_returns_and_emits_commands (ev : Event) (p : t) (w : World.t) :
  queue_wf (World.out_q w) ->
  exists p' w' new,
    process ev (p, w) = (Ok tt, (p', w'))
    /\ queue_wf (World.out_q w')
    /\ World.emitted w' = World.emitted w ++ new
    /\ (length new <= command_bound ev)%nat
    /\ forallb is_command new = true.
Proof.
  intros Hwf.
  destruct (classifier_emits ev (p, w) Hwf)
    as ([] & [p' w'] & new & Hrun & Hwf' & Hem & Hlen & HP).
  exists p', w', new. cbn [snd] in *. repeat (split; [assumption|]). exact HP.
Qed.

(** X12. A key event emits a command exactly when it is a key-down with Ctrl
    or Cmd held whose key, in lower case, is c, x or v: COPY, CUT or PASTE
    from source hotkey, with the sorted modifiers in the notes. No key
    event touches the classifier's marks, so shortcut pastes are not held
    back by the context-paste cooldown. *)
Theorem keyboard_shortcuts (k : KeyEvent.t) (p : t) (w : World.t) :
  queue_wf (World.out_q w) ->
  let notes := Some ("mods=" +:+ repr_str_list (sorted_set (KeyEvent.mods k))) in
  process (Key k) (p, w) =
    match (if is_shortcut k then hotkey_command (lower (KeyEvent.key k)) else None) with
    | Some cmd =>
        (Ok tt, (p, after_put (command_in (tick w) cmd "hotkey" notes) (tick (tick w))))
    | None => (Ok tt, (p, tick w))
    end.
Proof.
  intros Hwf notes.
  assert (Hwf1 : queue_wf (World.out_q (tick w))) by exact Hwf.
  unfold process. unfold bind at 1. unfold clock at 1. cbn [World.read_clock fst snd].
  fold (tick w).
  unfold is_shortcut, is_down, hotkey_command.
  destruct (KeyEvent.action k); cbn [andb]; [|reflexivity].
  destruct (_ || _); [|reflexivity]. fold notes.
  destruct (lower (KeyEvent.key k) =? "c")%string;
    [erewrite bind_ok by (apply emit_ok; exact Hwf1); reflexivity|].
  destruct (lower (KeyEvent.key k) =? "x")%string;
    [erewrite bind_ok by (apply emit_ok; exact Hwf1); reflexivity|].
  destruct (lower (KeyEvent.key k) =? "v")%string;
    [erewrite bind_ok by (apply emit_ok; exact Hwf1); reflexivity|].
  reflexivity.
Qed.

(** X13. A mouse event: a press or release of the right button is remembered
    with the event's own time stamp; a press of the middle button emits
    the primary-selection hint when the configuration asks for it; nothing
    else happens, and no click by itself is taken for a paste. *)
Theorem mouse_rule (m : MouseEvent.t) (p : t) (w : World.t) :
  queue_wf (World.out_q w) ->
  let p' := if is_right_click m
            then mk (cfg p) (Some (BaseEvent.t_mono (MouseEvent.base m)))
                    (_last_clip_change_mono p) (_last_context_emit_mono p)
            else p in
  process (Mouse m) (p, w) =
    if PasteClassifierConfig.primary_hint (cfg p) && is_middle_press m then
      (Ok tt,
       (p', after_put
              (command_in (tick w) CommandType.PASTE_PRIMARY_POSSIBLE "primary"
                 (Some "middle-click"))
              (tick (tick w))))
    else (Ok tt, (p', tick w)).
Proof.
  intros Hwf p'.
  assert (Hwf1 : queue_wf (World.out_q (tick w))) by exact Hwf.
  assert (Hcfg : cfg p' = cfg p) by (subst p'; destruct (is_right_click m); reflexivity).
  unfold process. unfold bind at 1. unfold clock at 1. cbn [World.read_clock fst snd].
  fold (tick w).
  erewrite (bind_ok (ret tt)) by reflexivity.
  fold (is_right_click m).
  assert (H1 : when (is_right_click m)
                 (update (fun p => mk (cfg p) (Some (BaseEvent.t_mono (MouseEvent.base m)))
                                      (_last_clip_change_mono p)
                                      (_last_context_emit_mono p))) (p, tick w)
               = (Ok tt, (p', tick w))).
  { subst p'. destruct (is_right_click m); reflexivity. }
  destruct (PasteClassifierConfig.primary_hint (cfg p) && is_middle_press m) eqn:Hhint.
  - erewrite bind_ok; [reflexivity|].
    erewrite bind_ok by exact H1.
    unfold bind, gets. cbn [fst snd]. rewrite Hcfg.
    rewrite <- andb_assoc. fold (is_middle_press m). rewrite Hhint. cbn [when].
    apply emit_ok. exact Hwf1.
  - erewrite bind_ok; [reflexivity|].
    erewrite bind_ok by exact H1.
    unfold bind, gets. cbn [fst snd]. rewrite Hcfg.
    rewrite <- andb_assoc. fold (is_middle_press m). rewrite Hhint. reflexivity.
Qed.

(** X14. A clipboard change is always noted. It emits nothing when no right
    click is on record, when its time is more than the window after the
    right click, or when the cooldown since the last emission has not
    passed. *)
Theorem context_paste_held_back (c : ClipboardEvent.t) (p : t) (w : World.t) :
  let t := t_mono (Clipboard c) in
  let now := World.perf_counter w (World.ticks w) in
  in_context_window p t && cooldown_passed p now = false ->
  process (Clipboard c) (p, w) = (Ok tt, (noted t p, tick w)).
Proof.
  intros t now Hheld.
  unfold process. unfold bind at 1. unfold clock at 1. cbn [World.read_clock fst snd].
  fold (tick w). fold now.
  erewrite (bind_ok (ret tt)) by reflexivity.
  erewrite (bind_ok (ret tt)) by reflexivity.
  unfold notify_clipboard_changed, update, modify, gets.
  unfold bind at 1. unfold bind at 1.
  cbn [fst snd _last_right_click_mono cfg _last_context_emit_mono]. fold t.
  unfold in_context_window, cooldown_passed in Hheld. unfold noted.
  destruct (_last_right_click_mono p) as [rc|]; [|reflexivity].
  destruct (PrimFloat.leb (t - rc) _); cbn [when andb] in *; [|reflexivity].
  rewrite Hheld. reflexivity.
Qed.

Lemma context_paste_fires (c : ClipboardEvent.t) (p : t) (w : World.t) :
  queue_wf (World.out_q w) ->
  let t := t_mono (Clipboard c) in
  let now := World.perf_counter w (World.ticks w) in
  in_context_window p t = true ->
  cooldown_passed p now = true ->
  process (Clipboard c) (p, w)
  = (Ok tt,
     (mk (cfg p) (_last_right_click_mono p) (Some t) (Some now),
      after_put
        (command_in (tick w) CommandType.PASTE_CONTEXT "context"
           (Some "right-click->clipboard change"))
        (tick (tick w)))).
Proof.
  intros Hwf t now Hwin Hcool.
  assert (Hwf1 : queue_wf (World.out_q (tick w))) by exact Hwf.
  unfold process. unfold bind at 1. unfold clock at 1. cbn [World.read_clock fst snd].
  fold (tick w). fold now.
  erewrite (bind_ok (ret tt)) by reflexivity.
  erewrite (bind_ok (ret tt)) by reflexivity.
  unfold notify_clipboard_changed, update, modify, gets.
  unfold bind at 1. unfold bind at 1.
  cbn [fst snd _last_right_click_mono cfg _last_context_emit_mono]. fold t.
  unfold in_context_window in Hwin. unfold cooldown_passed in Hcool.
  destruct (_last_right_click_mono p) as [rc|]; [|discriminate].
  rewrite Hwin. cbn [when]. rewrite Hcool. cbn [when].
  erewrite bind_ok by (apply emit_ok; exact Hwf1).
  reflexivity.
Qed.

(** X15. The cooldown is skipped when the last emission was stamped 0.0: the
    test for a missing stamp is the stamp's truth value. With a right
    click inside the window, a clipboard change then emits whatever the
    clock reads. *)
Theorem emission_at_zero_starts_no_cooldown (c : ClipboardEvent.t) (p : t) (w : World.t)
    (last : float) :
  queue_wf (World.out_q w) ->
  _last_context_emit_mono p = Some last ->
  PrimFloat.eqb last 0 = true ->
  in_context_window p (t_mono (Clipboard c)) = true ->
  World.emitted (snd (snd (process (Clipboard c) (p, w))))
  = World.emitted w
      ++ [ command_in (tick w) CommandType.PASTE_CONTEXT "context"
             (Some "right-click->clipboard change") ].
Proof.
  intros Hwf Hlast Hzero Hwin.
  rewrite (context_paste_fires c p w Hwf Hwin); [reflexivity|].
  unfold cooldown_passed, truthy_float. rewrite Hlast, Hzero. reflexivity.
Qed.

Lemma quiet_world_wf : queue_wf (World.out_q Scenarios.quiet_world).
Proof. right. vm_compute. discriminate. Qed.

Lemma classifier_returns_and_emits_commands_witness :
  queue_wf (World.out_q Scenarios.quiet_world)
  /\ exists p' w' new,
       process (Key Cases.ctrl_v) (Cases.fresh_classifier, Scenarios.quiet_world)
       = (Ok tt, (p', w'))
       /\ queue_wf (World.out_q w')
       /\ World.emitted w' = World.emitted Scenarios.quiet_world ++ new
       /\ (length new <= command_bound (Key Cases.ctrl_v))%nat
       /\ forallb is_command new = true.
Proof.
  split; [exact quiet_world_wf|].
  exact (classifier_returns_and_emits_commands (Key Cases.ctrl_v) Cases.fresh_classifier
           Scenarios.quiet_world quiet_world_wf).
Defined.

Lemma keyboard_shortcuts_witness :
  queue_wf (World.out_q Scenarios.quiet_world)
  /\ World.emitted
       (snd (snd (process (Key Cases.ctrl_v)
                    (Cases.fresh_classifier, Scenarios.quiet_world))))
     = [ command_in (tick Scenarios.quiet_world) CommandType.PASTE "hotkey"
           (Some "mods=['ctrl']") ].
Proof.
  split; [exact quiet_world_wf|].
  rewrite (keyboard_shortcuts Cases.ctrl_v Cases.fresh_classifier Scenarios.quiet_world
             quiet_world_wf).
  vm_compute. reflexivity.
Defined.

Lemma mouse_rule_witness :
  queue_wf (World.out_q Scenarios.quiet_world)
  /\ World.emitted
       (snd (snd (process (Mouse Cases.middle_press)
                    (Cases.fresh_classifier, Scenarios.quiet_world))))
     = [ command_in (tick Scenarios.quiet_world) CommandType.PASTE_PRIMARY_POSSIBLE
           "primary" (Some "middle-click") ].
Proof.
  split; [exact quiet_world_wf|].
  rewrite (mouse_rule Cases.middle_press Cases.fresh_classifier Scenarios.quiet_world
             quiet_world_wf).
  reflexivity.
Defined.

Lemma context_paste_held_back_witness :
  in_context_window Cases.fresh_classifier (t_mono (Clipboard Scenarios.early_clip))
    && cooldown_passed Cases.fresh_classifier
         (World.perf_counter Scenarios.quiet_world (World.ticks Scenarios.quiet_world))
    = false
  /\ process (Clipboard Scenarios.early_clip) (Cases.fresh_classifier, Scenarios.quiet_world)
     = (Ok tt, (noted (t_mono (Clipboard Scenarios.early_clip)) Cases.fresh_classifier,
                tick Scenarios.quiet_world)).
Proof.
  split; [reflexivity|].
  exact (context_paste_held_back Scenarios.early_clip Cases.fresh_classifier
           Scenarios.quiet_world eq_refl).
Defined.

Lemma emission_at_zero_starts_no_cooldown_witness :
  queue_wf (World.out_q Scenarios.quiet_world)
  /\ _last_context_emit_mono Cases.emitted_at_zero = Some 0%float
  /\ PrimFloat.eqb 0 0 = true
  /\ in_context_window Cases.emitted_at_zero (t_mono (Clipboard Scenarios.early_clip)) = true
  /\ World.emitted
       (snd (snd (process (Clipboard Scenarios.early_clip)
                    (Cases.emitted_at_zero, Scenarios.quiet_world))))
     = World.emitted Scenarios.quiet_world
         ++ [ command_in (tick Scenarios.quiet_world) CommandType.PASTE_CONTEXT "context"
                (Some "right-click->clipboard change") ].
Proof.
  split; [exact quiet_world_wf|]. split; [reflexivity|]. split; [reflexivity|].
  split; [reflexivity|].
  exact (emission_at_zero_starts_no_cooldown Scenarios.early_clip Cases.emitted_at_zero
           Scenarios.quiet_world 0%float quiet_world_wf eq_refl eq_refl eq_refl).
Defined.

End CommandFacts.

(** ** Keys and cipher suites *)

Module KeyFacts.
Import Observations.
Import Py PyFacts Json MasterKeyManager Aead Contracts SessionView Notions.

Section Keys.
Context `{Crypto}.

(** X16. The first session start creates the two key files; they are never
    overwritten: a later session start, whatever it draws, leaves the
    directory as it is, signs with the same key and derives its session keys
    from the same master key. *)
Theorem keys_persist_across_sessions (rnd rnd' : Entropy) (d : SecretsDir.t) :
  let s1 := fst (start_session rnd d) in
  let d1 := snd (start_session rnd d) in
  let s2 := fst (start_session rnd' d1) in
  (forall k, SecretsDir.master_key_file d = Some k -> SecretsDir.master_key_file d1 = Some k)
  /\ (forall k, SecretsDir.signing_key_file d = Some k ->
                SecretsDir.signing_key_file d1 = Some k)
  /\ snd (start_session rnd' d1) = d1
  /\ SessionKeys.sign_private s2 = SessionKeys.sign_private s1
  /\ SessionKeys.sign_public_bytes s2 = SessionKeys.sign_public_bytes s1
  /\ exists master,
       SecretsDir.master_key_file d1 = Some master
       /\ SessionKeys.session_key s1
          = hkdf_sha256 32 (session_salt rnd) (encode "session-key") master
       /\ SessionKeys.session_key s2
          = hkdf_sha256 32 (session_salt rnd') (encode "session-key") master.
Proof.
  cbv zeta. unfold start_session, load_or_create_master, load_or_create_signing_key.
  destruct d as [[m|] [s|]]; cbn;
    (split; [intros k Hk; first [exact Hk | discriminate Hk]|]);
    (split; [intros k Hk; first [exact Hk | discriminate Hk]|]);
    (split; [reflexivity|]); (split; [reflexivity|]); (split; [reflexivity|]);
    eexists; (split; [reflexivity|]); split; reflexivity.
Qed.

(** X17. The session id is the salt in hex, so the verifier, which knows only
    the master key file and the id in a header, derives on first sight the
    very chain key and session key the session started with. *)
Theorem verifier_rederives_session_keys (rnd : Entropy) (d : SecretsDir.t) :
  let sess := fst (start_session rnd d) in
  exists master,
    SecretsDir.master_key_file (snd (start_session rnd d)) = Some master
    /\ fromhex (SessionKeys.session_id sess) = Some (session_salt rnd)
    /\ session_view master ∅ (SessionKeys.session_id sess)
       = Some (VerifySegments.mkSess (SessionKeys.chain_hmac_key sess) (zeros 32)
                 (SessionKeys.session_key sess)).
Proof.
  cbv zeta. unfold start_session, load_or_create_master, load_or_create_signing_key.
  destruct d as [[m|] [s|]]; cbn [fst snd SecretsDir.master_key_file
    SecretsDir.signing_key_file SessionKeys.session_id SessionKeys.chain_hmac_key
    SessionKeys.session_key];
    eexists; (split; [reflexivity|]); (split; [apply fromhex_hex|]);
    unfold session_view; rewrite lookup_empty, fromhex_hex; reflexivity.
Qed.


End Keys.


End KeyFacts.

(** ** Padding, buffering and numbering in the segment store *)

Module StoreFacts.
Import Observations.
Import Py PyFacts Json JsonFacts EffFacts SegmentWriter SegmentView WriterFacts FlushFacts.
Import SessionView Notions.

Lemma length_zeros (k : Z) : 0 <= k -> blen (zeros k) = k.
Proof. intros Hk. unfold blen, zeros. rewrite repeat_length. lia. Qed.

(** X19. For any positive block size, [pad_to_block] appends fewer than [block]
    zero bytes, reaching the next multiple of [block]; the length it returns
    is the length of what it returns; data already a multiple long comes
    back unchanged, so padding twice is padding once. *)
Theorem pad_to_block_any_block (data : bytes) (block : Z) :
  0 < block ->
  let padded := fst (SegmentStore.pad_to_block data block) in
  let n := snd (SegmentStore.pad_to_block data block) in
  n = blen padded
  /\ n mod block = 0
  /\ (exists k, 0 <= k < block /\ padded = data ++ zeros k)
  /\ (blen data mod block = 0 -> padded = data)
  /\ SegmentStore.pad_to_block padded block = (padded, n).
Proof.
  intros Hb. cbv zeta. unfold SegmentStore.pad_to_block.
  pose proof (Z.mod_pos_bound (- blen data) block Hb) as Hrem.
  assert (Hsum : (blen data + (- blen data) mod block) mod block = 0).
  { rewrite Z.add_mod_idemp_r by lia. replace (blen data + - blen data) with 0 by lia.
    apply Z.mod_0_l. lia. }
  destruct ((- blen data) mod block =? 0) eqn:Hz; cbn [fst snd].
  - apply Z.eqb_eq in Hz. rewrite Hz in Hsum. rewrite Z.add_0_r in Hsum.
    split; [reflexivity|]. split; [exact Hsum|].
    split; [exists 0; split; [lia | symmetry; apply app_nil_r]|].
    split; [reflexivity|]. rewrite Hz. reflexivity.
  - apply Z.eqb_neq in Hz.
    assert (Hlen : blen (data ++ zeros ((- blen data) mod block))
                   = blen data + (- blen data) mod block).
    { unfold blen at 1. rewrite length_app. fold (blen data).
      rewrite Nat2Z.inj_add. fold (blen data).
      fold (blen (zeros ((- blen data) mod block))). rewrite length_zeros by lia.
      reflexivity. }
    split; [symmetry; exact Hlen|]. split; [exact Hsum|].
    split; [eexists; split; [exact Hrem | reflexivity]|].
    split.
    + intros H0. exfalso. apply Hz.
      rewrite <- (Z.sub_0_l (blen data)), <- Zminus_mod_idemp_r, H0.
      reflexivity.
    + rewrite Hlen.
      replace ((- (blen data + (- blen data) mod block)) mod block) with 0.
      * reflexivity.
      * symmetry. apply Z_mod_zero_opp_full. exact Hsum.
Qed.

Lemma pad_to_block_any_block_witness :
  0 < 4
  /\ (let padded := fst (SegmentStore.pad_to_block [x01; x02; x03; x04; x05] 4) in
      let n := snd (SegmentStore.pad_to_block [x01; x02; x03; x04; x05] 4) in
      n = blen padded
      /\ n mod 4 = 0
      /\ (exists k, 0 <= k < 4 /\ padded = [x01; x02; x03; x04; x05] ++ zeros k)
      /\ (blen [x01; x02; x03; x04; x05] mod 4 = 0 -> padded = [x01; x02; x03; x04; x05])
      /\ SegmentStore.pad_to_block padded 4 = (padded, n)).
Proof.
  split; [reflexivity|].
  exact (pad_to_block_any_block [x01; x02; x03; x04; x05] 4 eq_refl).
Defined.

Section Store.
Context `{PyRuntime} `{Crypto}.

Lemma flush_buffer (force : bool) (env : Env) (w : SegmentWriter.t) (db : Database.t) :
  _buf (fst (snd (_flush_if_needed force env (w, db))))
  = if due force env w then [] else _buf w.
Proof.
  destruct (due force env w) eqn:Hdue.
  - destruct (flush_due force env w db Hdue) as [_ ->].
    rewrite write_segment_eq. destruct (db_ok env); reflexivity.
  - destruct (flush_not_due force env w db Hdue) as (w' & -> & _ & _ & _ & Hb).
    exact Hb.
Qed.

(** X20. A flush that writes takes the whole buffer and leaves it empty before
    the segment is built: when the insert then fails, the batch is neither
    in the buffer nor in the table. [stop] always leaves the buffer empty,
    and after [add_event] the buffer holds fewer than [max_events] records
    (none, if [max_events] is below one). *)
Theorem buffer_discipline (env : Env) (w : SegmentWriter.t) (db : Database.t) :
  (forall force,
     _buf (fst (snd (_flush_if_needed force env (w, db))))
     = if due force env w then [] else _buf w)
  /\ (forall force,
        due force env w = true /\ db_ok env = false ->
        fst (_flush_if_needed force env (w, db))
          = Raise (StoreError SegmentStore.InsertFailed)
        /\ snd (snd (_flush_if_needed force env (w, db))) = db)
  /\ _buf (fst (snd (stop env (w, db)))) = []
  /\ (forall utc_now ev,
        Z.of_nat (length (_buf (fst (snd (add_event utc_now ev env (w, db))))))
        < Z.max 1 (max_events w)).
Proof.
  assert (Hflush : forall force w0,
    _buf (fst (snd (_flush_if_needed force env (w0, db))))
    = if due force env w0 then [] else _buf w0)
    by (intros force w0; apply flush_buffer).
  split; [intros force; apply Hflush|]. split; [|split].
  - intros force [Hdue Hdb].
    destruct (flush_due force env w db Hdue) as [_ ->].
    rewrite write_segment_eq, Hdb. split; reflexivity.
  - unfold stop. rewrite Hflush. unfold due.
    destruct (_buf w); reflexivity.
  - intros utc_now ev. unfold add_event, bind, update, modify. cbn [fst snd].
    rewrite Hflush. unfold due, set_buf. cbn [_buf max_events _next_flush negb andb].
    destruct (_buf w ++ [Events.to_record utc_now ev]) as [|r b] eqn:Hb; [cbn; lia|].
    destruct (Z.of_nat (length (r :: b)) <? max_events w) eqn:Hlt; cbn [negb andb].
    + apply Z.ltb_lt in Hlt. destruct (PrimFloat.ltb _ _); cbn [negb length]; [|lia].
      cbn [length] in Hlt. lia.
    + cbn. lia.
Qed.

Lemma meta_count_row (w : SegmentWriter.t) (env : Env) (batch : list (dict json))
    (last : Z) :
  meta_count (row w env batch last) = Z.of_nat (length batch).
Proof.
  unfold meta_count, row. cbn [Database.meta].
  rewrite loads_dumps; [reflexivity | reflexivity|].
  constructor; [intros []|constructor].
Qed.

Lemma stored_events_snoc (rows : list Database.Row) (last : Z) (r : Database.Row) :
  stored_events (Database.mk (rows ++ [r]) last)
  = stored_events (Database.mk rows last) + meta_count r.
Proof.
  unfold stored_events. cbn [Database.rows].
  induction rows as [|x rows IH]; cbn [app fold_right]; [lia|]. rewrite IH. lia.
Qed.

Lemma flush_count (force : bool) (env : Env) (w : SegmentWriter.t) (db : Database.t) :
  let s' := snd (_flush_if_needed force env (w, db)) in
  stored_events (snd s') + buffered_events (fst s')
    <= stored_events db + buffered_events w
  /\ (db_ok env = true ->
      stored_events (snd s') + buffered_events (fst s')
      = stored_events db + buffered_events w).
Proof.
  cbv zeta. destruct (due force env w) eqn:Hdue.
  - destruct (flush_due force env w db Hdue) as [_ ->].
    rewrite write_segment_eq. unfold buffered_events.
    destruct (db_ok env); cbn [fst snd advanced set_ratchet swapped set_buf _buf length].
    + destruct db as [rows last]. cbn [Database.rows Database.last_seq].
      rewrite stored_events_snoc, meta_count_row. unfold stored_events.
      cbn [Database.rows]. generalize (fold_right (fun r acc => meta_count r + acc) 0 rows).
      intros held. split; [lia | intros _; lia].
    + split; [lia | discriminate].
  - destruct (flush_not_due force env w db Hdue) as (w' & -> & _ & _ & _ & Hb).
    unfold buffered_events. cbn [fst snd]. rewrite Hb. split; [lia | intros _; lia].
Qed.

Lemma step_count (c : Call) (s : St) :
  let s' := snd (step c s) in
  let one := if is_add c then 1 else 0 in
  stored_events (snd s') + buffered_events (fst s')
    <= stored_events (snd s) + buffered_events (fst s) + one
  /\ (db_ok (call_env c) = true ->
      stored_events (snd s') + buffered_events (fst s')
      = stored_events (snd s) + buffered_events (fst s) + one).
Proof.
  destruct s as [w db]. destruct c as [utc_now ev env | env | env];
    cbn [step is_add call_env fst snd]; cbv zeta.
  - unfold add_event, bind, update, modify. cbn [fst snd].
    pose proof (flush_count false env
                  (set_buf (_buf w ++ [Events.to_record utc_now ev]) (_next_flush w) w) db)
      as [Hle Heq].
    cbv zeta in Hle, Heq. unfold buffered_events at 2 in Hle.
    unfold buffered_events at 2 in Heq.
    cbn [set_buf _buf] in Hle, Heq. rewrite length_app in Hle, Heq.
    cbn [length] in Hle, Heq. unfold buffered_events at 2 4.
    split; [lia | intros Hok; specialize (Heq Hok); lia].
  - pose proof (flush_count false env w db) as [Hle Heq]. cbv zeta in Hle, Heq.
    split; [lia | intros Hok; specialize (Heq Hok); lia].
  - pose proof (flush_count true env w db) as [Hle Heq]. cbv zeta in Hle, Heq.
    unfold stop. split; [lia | intros Hok; specialize (Heq Hok); lia].
Qed.

(** X21. No event is stored twice, and none is lost while the database accepts
    every insert: over any sequence of calls, the events the table stands
    for (by the [count] of each row's [meta]) plus the events still
    buffered grow by at most the number of [add_event] calls, and by
    exactly that number when no insert fails. *)
Theorem events_are_conserved (calls : list Call) (s : St) :
  let held (s : St) := stored_events (snd s) + buffered_events (fst s) in
  held (run calls s) <= held s + adds calls
  /\ (all_persist calls -> held (run calls s) = held s + adds calls).
Proof.
  cbv zeta. revert s. induction calls as [|c calls IH]; intros s.
  - unfold adds. cbn. split; [lia | intros _; lia].
  - cbn [run fold_left]. fold (run calls (snd (step c s))).
    destruct (IH (snd (step c s))) as [Hle Heq].
    destruct (step_count c s) as [Hle1 Heq1]. cbv zeta in Hle1, Heq1.
    assert (Hadds : adds (c :: calls) = (if is_add c then 1 else 0) + adds calls).
    { unfold adds. cbn [List.filter]. destruct (is_add c); cbn [length]; lia. }
    rewrite Hadds. split; [lia|].
    intros Hall. inversion Hall as [|c' calls' Hc Hcalls]; subst.
    specialize (Heq Hcalls). specialize (Heq1 Hc). lia.
Qed.

Lemma step_numbered (c : Call) (s : St) :
  numbered (snd s) -> numbered (snd (snd (step c s))).
Proof.
  assert (Hflush : forall force env w db,
    numbered db -> numbered (snd (snd (_flush_if_needed force env (w, db))))).
  { intros force env w db [Hseq Hlast]. destruct (due force env w) eqn:Hdue.
    - destruct (flush_due force env w db Hdue) as [_ ->].
      rewrite write_segment_eq. destruct (db_ok env); cbn [fst snd]; [|split; assumption].
      unfold numbered. cbn [Database.rows Database.last_seq].
      rewrite length_app, map_app, Hseq. cbn [length map row Database.seq].
      rewrite Nat.add_1_r, seq_S, map_app. cbn [map]. rewrite Hlast.
      split; [repeat f_equal; lia | lia].
    - destruct (flush_not_due force env w db Hdue) as (w' & -> & _). split; assumption. }
  destruct s as [w db]. destruct c as [utc_now ev env | env | env]; cbn [step snd].
  - unfold add_event, bind, update, modify. cbn [fst snd]. apply Hflush.
  - apply Hflush.
  - apply Hflush.
Qed.

(** X22. The rows a writer stores in a fresh table are numbered 1, 2, 3, ... in
    the order of their insertion, and the counter stands at their number: a
    failed insert uses up no number. *)
Theorem rows_are_numbered (calls : list Call) (w0 : SegmentWriter.t) :
  numbered (snd (run calls (w0, Database.empty))).
Proof.
  assert (Hrun : forall calls s, numbered (snd s) -> numbered (snd (run calls s))).
  { clear calls. intros calls. induction calls as [|c calls IH]; intros s Hs; [exact Hs|].
    cbn [run fold_left]. apply IH. apply step_numbered. exact Hs. }
  apply Hrun. split; reflexivity.
Qed.

End Store.

End StoreFacts.

(** ** The payload as JSON lines *)

Module PayloadFacts.
Import Observations.
Import Py PyFacts Json JsonFacts SegmentWriter Notions.

Lemma newlines_app (a b : string) : newlines (a +:+ b) = (newlines a + newlines b)%nat.
Proof.
  induction a as [|c a IH]; [reflexivity|].
  rewrite append_cons. cbn [newlines]. rewrite IH. lia.
Qed.

Lemma newlines_concat (sep : string) (l : list string) :
  newlines sep = 0%nat -> Forall (fun s => newlines s = 0%nat) l ->
  newlines (String.concat sep l) = 0%nat.
Proof.
  intros Hsep Hall. induction Hall as [|x l Hx Hl IH]; [reflexivity|].
  cbn [String.concat]. destruct l as [|y l]; [exact Hx|].
  change (newlines (x +:+ sep +:+ String.concat sep (y :: l)) = 0%nat).
  rewrite !newlines_app, Hx, Hsep, IH. reflexivity.
Qed.

Lemma esc_char_one_line (c : ascii) : newlines (esc_char c) = 0%nat.
Proof. destruct c as [[] [] [] [] [] [] [] []]; reflexivity. Qed.

Lemma enc_str_one_line (s : string) : newlines (enc_str s) = 0%nat.
Proof.
  unfold enc_str. rewrite !newlines_app.
  assert (Hbody : newlines (esc_body s) = 0%nat).
  { induction s as [|c s IH]; [reflexivity|].
    cbn [esc_body]. rewrite newlines_app, esc_char_one_line, IH. reflexivity. }
  rewrite Hbody. reflexivity.
Qed.

Lemma uint_one_line (d : Decimal.uint) : newlines (NilEmpty.string_of_uint d) = 0%nat.
Proof. induction d; cbn [NilEmpty.string_of_uint newlines]; try assumption; reflexivity. Qed.

Lemma str_of_int_one_line (z : Z) : newlines (str_of_int z) = 0%nat.
Proof.
  destruct (str_of_int_cases z) as (d & _ & [[-> _] | [-> _]]).
  - apply uint_one_line.
  - cbn [newlines]. apply uint_one_line.
Qed.

Section Payload.
Context `{PyRuntime}.
Hypothesis Hfloat : floats_on_one_line.

Lemma enc_one_line (sep : separators) :
  newlines (item_sep sep) = 0%nat -> newlines (key_sep sep) = 0%nat ->
  forall v, newlines (enc sep v) = 0%nat.
Proof.
  intros Hitem Hkey. fix IH 1. intros [|z|f|s|l|d]; cbn [enc].
  - reflexivity.
  - apply str_of_int_one_line.
  - apply Hfloat.
  - apply enc_str_one_line.
  - rewrite !newlines_app. rewrite newlines_concat; [reflexivity | exact Hitem|].
    induction l as [|x l IHl]; constructor; [apply IH | exact IHl].
  - rewrite !newlines_app. rewrite newlines_concat; [reflexivity | exact Hitem|].
    induction d as [|[k x] d IHd]; constructor; [|exact IHd].
    cbn [fst snd]. rewrite !newlines_app, enc_str_one_line, Hkey, IH. reflexivity.
Qed.

Lemma split_lines_one (s : string) : newlines s = 0%nat -> split_lines s = [s].
Proof.
  induction s as [|c s IH]; [reflexivity|].
  cbn [newlines split_lines]. destruct (is_newline c); [discriminate|].
  intros Hs. rewrite IH by exact Hs. reflexivity.
Qed.

Lemma split_lines_app (s rest : string) :
  newlines s = 0%nat ->
  split_lines (s +:+ String (ascii_of_N 10) rest) = s :: split_lines rest.
Proof.
  induction s as [|c s IH]; [reflexivity|].
  rewrite append_cons. cbn [newlines split_lines]. destruct (is_newline c); [discriminate|].
  intros Hs. rewrite IH by exact Hs. reflexivity.
Qed.


End Payload.

Lemma toy_floats_on_one_line : @floats_on_one_line Toy.runtime.
Proof. intros f. reflexivity. Qed.


End PayloadFacts.

(** ** The verifier's report, on any table *)

Module ReportFacts.
Import Observations.
Import Py PyFacts Json VerifySegments SessionView Notions.

Section Report.
Context `{PyRuntime} `{Crypto}.

Lemma verify_row_report (master_key : option bytes) (nd have : bool) (L : Loop)
    (r : Database.Row) :
  let L' := verify_row master_key nd have L r in
  total (stats L') = total (stats L) + 1
  /\ exists (sig chain dec : bool) (x : list VerifyError),
       sig_ok (stats L') = sig_ok (stats L) + b2z sig
       /\ chain_ok (stats L') = chain_ok (stats L) + b2z chain
       /\ decrypt_ok (stats L') = decrypt_ok (stats L) + b2z dec
       /\ errors L' = errors L ++ x
       /\ (master_key = None -> chain = false /\ dec = false)
       /\ (nd = true -> dec = false)
       /\ (x = [] ->
           sig = true
           /\ (master_key <> None -> chain = true /\ (nd = false -> dec = true))).
Proof.
  cbv zeta. unfold verify_row.
  destruct (loads (decode (Database.header r))) as [header|].
  2:{ cbn [stats total sig_ok chain_ok decrypt_ok errors]. split; [reflexivity|].
      exists false, false, false, [HeaderDecodeFailed (Database.seq r)].
      cbn [b2z]. rewrite !Z.add_0_r. repeat split; try reflexivity; discriminate. }
  set (sig := check_signature header).
  assert (Hflag : forall (b : bool) (e : VerifyError),
            (if b then [] else [e]) = [] -> b = true).
  { intros [] e He; [reflexivity | discriminate He]. }
  destruct master_key as [mk|].
  - destruct (check_chain mk header (Database.body r) (session_state L)) as [ok st1].
    destruct nd.
    + cbn [stats total sig_ok chain_ok decrypt_ok errors]. split; [reflexivity|].
      exists sig, ok, false,
        ((if sig then [] else [SignatureFailed (Database.seq r)])
           ++ (if ok then [] else [ChainFailed (Database.seq r)])).
      rewrite app_assoc. cbn [b2z].
      repeat (split; [first [reflexivity | discriminate | intros _; reflexivity]|]).
      intros Hx. apply app_eq_nil in Hx as [Hs Hc].
      split; [exact (Hflag _ _ Hs)|]. intros _.
      split; [exact (Hflag _ _ Hc) | discriminate].
    + destruct (check_decrypt have header (Database.body r) st1) as [ok2 st2].
      cbn [stats total sig_ok chain_ok decrypt_ok errors]. split; [reflexivity|].
      exists sig, ok, ok2,
        ((if sig then [] else [SignatureFailed (Database.seq r)])
           ++ (if ok then [] else [ChainFailed (Database.seq r)])
           ++ (if ok2 then [] else [DecryptFailed (Database.seq r)])).
      rewrite !app_assoc.
      repeat (split; [first [reflexivity | discriminate]|]).
      intros Hx. apply app_eq_nil in Hx as [Hx Hd]. apply app_eq_nil in Hx as [Hs Hc].
      split; [exact (Hflag _ _ Hs)|]. intros _.
      split; [exact (Hflag _ _ Hc) | intros _; exact (Hflag _ _ Hd)].
  - cbn [stats total sig_ok chain_ok decrypt_ok errors]. split; [reflexivity|].
    exists sig, false, false, (if sig then [] else [SignatureFailed (Database.seq r)]).
    cbn [b2z].
    repeat (split; [first [reflexivity | intros _; split; reflexivity
                          | intros _; reflexivity]|]).
    intros Hx. split; [exact (Hflag _ _ Hx)|]. intros Hmk. exfalso. apply Hmk. reflexivity.
Qed.

Lemma fold_report (master_key : option bytes) (nd have : bool) (rows : list Database.Row) :
  forall L : Loop,
  let L' := fold_left (verify_row master_key nd have) rows L in
  let n := Z.of_nat (length rows) in
  total (stats L') = total (stats L) + n
  /\ sig_ok (stats L) <= sig_ok (stats L') <= sig_ok (stats L) + n
  /\ chain_ok (stats L) <= chain_ok (stats L') <= chain_ok (stats L) + n
  /\ decrypt_ok (stats L) <= decrypt_ok (stats L') <= decrypt_ok (stats L) + n
  /\ (master_key = None ->
      chain_ok (stats L') = chain_ok (stats L)
      /\ decrypt_ok (stats L') = decrypt_ok (stats L))
  /\ (nd = true -> decrypt_ok (stats L') = decrypt_ok (stats L))
  /\ exists x,
       errors L' = errors L ++ x
       /\ (x = [] ->
           sig_ok (stats L') = sig_ok (stats L) + n
           /\ (master_key <> None ->
               chain_ok (stats L') = chain_ok (stats L) + n
               /\ (nd = false -> decrypt_ok (stats L') = decrypt_ok (stats L) + n))).
Proof.
  induction rows as [|r rows IH]; intros L; cbv zeta.
  - cbn [fold_left length]. rewrite !Z.add_0_r.
    repeat (split; [first [reflexivity | lia | intros _; split; reflexivity
                          | intros _; reflexivity]|]).
    exists []. split; [symmetry; apply app_nil_r|]. intros _.
    split; [reflexivity|]. intros _. split; [reflexivity | intros _; reflexivity].
  - cbn [fold_left].
    destruct (verify_row_report master_key nd have L r)
      as (Ht & sig & chain & dec & x & Hs & Hc & Hd & He & Hnone & Hnd & Hclean).
    cbv zeta in *.
    destruct (IH (verify_row master_key nd have L r))
      as (Ht' & Hs' & Hc' & Hd' & Hnone' & Hnd' & x' & He' & Hclean').
    cbv zeta in *.
    assert (Hb : forall b : bool, 0 <= b2z b <= 1) by (intros []; cbn; lia).
    pose proof (Hb sig). pose proof (Hb chain). pose proof (Hb dec).
    replace (Z.of_nat (length (r :: rows))) with (1 + Z.of_nat (length rows))
      by (cbn [length]; lia).
    split; [lia|]. split; [lia|]. split; [lia|]. split; [lia|].
    split.
    { intros Hm. destruct (Hnone Hm) as [-> ->]. destruct (Hnone' Hm). cbn [b2z] in *. lia. }
    split.
    { intros Hn. rewrite (Hnd Hn) in Hd. specialize (Hnd' Hn). cbn [b2z] in *. lia. }
    exists (x ++ x'). split; [rewrite He', He, app_assoc; reflexivity|].
    intros Hnil. apply app_eq_nil in Hnil as [Hx Hx'].
    destruct (Hclean Hx) as [-> Hmk]. destruct (Hclean' Hx') as [Hs2 Hmk2].
    cbn [b2z] in *. split; [lia|].
    intros Hm. destruct (Hmk Hm) as [-> Hdec]. destruct (Hmk2 Hm) as [Hc2 Hd2].
    cbn [b2z] in *. split; [lia|].
    intros Hn. rewrite (Hdec Hn) in Hd. specialize (Hd2 Hn). cbn [b2z] in *. lia.
Qed.

(** X24. Whatever the table holds, the verifier counts every selected row once
    and each check at most once per row; without a master key (a
    signatures-only run, or a secrets directory without the key file) it
    counts no chain and no decryption success, and with [--no-decrypt] no
    decryption success. *)
Theorem verifier_counts (db : Database.t) (secrets_dir : option SecretsDir.t)
    (limit : option Z) (no_decrypt have : bool) :
  let st := fst (verify_db db secrets_dir limit no_decrypt have) in
  total st = Z.of_nat (length (select_rows db limit))
  /\ 0 <= sig_ok st <= total st
  /\ 0 <= chain_ok st <= total st
  /\ 0 <= decrypt_ok st <= total st
  /\ (match secrets_dir with
      | Some d => SecretsDir.master_key_file d = None
      | None => True
      end -> chain_ok st = 0 /\ decrypt_ok st = 0)
  /\ (no_decrypt = true -> decrypt_ok st = 0).
Proof.
  cbv zeta. unfold verify_db.
  destruct (select_rows db limit) as [|r rows] eqn:Hrows.
  { cbn. repeat split; first [reflexivity | lia]. }
  rewrite <- Hrows. clear Hrows.
  assert (Hgen : forall master_key errs,
    let st := stats (fold_left (verify_row master_key no_decrypt have)
                       (select_rows db limit) (mkLoop (mkStats 0 0 0 0) errs ∅)) in
    total st = Z.of_nat (length (select_rows db limit))
    /\ 0 <= sig_ok st <= total st
    /\ 0 <= chain_ok st <= total st
    /\ 0 <= decrypt_ok st <= total st
    /\ (master_key = None -> chain_ok st = 0 /\ decrypt_ok st = 0)
    /\ (no_decrypt = true -> decrypt_ok st = 0)).
  { intros master_key errs.
    destruct (fold_report master_key no_decrypt have (select_rows db limit)
                (mkLoop (mkStats 0 0 0 0) errs ∅))
      as (Ht & Hs & Hc & Hd & Hnone & Hnd & _).
    cbv zeta in *. cbn [stats total sig_ok chain_ok decrypt_ok] in *.
    split; [lia|]. split; [lia|]. split; [lia|]. split; [lia|].
    split; [exact Hnone | exact Hnd]. }
  destruct secrets_dir as [d|]; [destruct (SecretsDir.master_key_file d) as [k|]|];
    cbv zeta; cbn [fst].
  - destruct (Hgen (Some k) []) as (Ht & Hs & Hc & Hd & _ & Hnd).
    do 4 (split; [assumption|]). split; [discriminate | exact Hnd].
  - destruct (Hgen None [MasterKeyNotFound]) as (Ht & Hs & Hc & Hd & Hnone & Hnd).
    do 4 (split; [assumption|]). split; [intros _; apply Hnone; reflexivity | exact Hnd].
  - destruct (Hgen None []) as (Ht & Hs & Hc & Hd & Hnone & Hnd).
    do 4 (split; [assumption|]). split; [intros _; apply Hnone; reflexivity | exact Hnd].
Qed.

(** X25. An empty error list is a clean bill: some row was selected, every
    selected row's signature verified, and, when a secrets directory was
    given, every chain tag matched and (unless decryption was switched off)
    every segment decrypted. *)
Theorem clean_report_means_all_passed (db : Database.t)
    (secrets_dir : option SecretsDir.t) (limit : option Z) (no_decrypt have : bool) :
  snd (verify_db db secrets_dir limit no_decrypt have) = [] ->
  let st := fst (verify_db db secrets_dir limit no_decrypt have) in
  select_rows db limit <> []
  /\ sig_ok st = total st
  /\ (secrets_dir <> None ->
      chain_ok st = total st /\ (no_decrypt = false -> decrypt_ok st = total st)).
Proof.
  cbv zeta. unfold verify_db.
  destruct (select_rows db limit) as [|r rows] eqn:Hrows; [discriminate|].
  rewrite <- Hrows.
  assert (Hne : select_rows db limit <> []) by (rewrite Hrows; discriminate).
  clear Hrows.
  destruct secrets_dir as [d|].
  - destruct (SecretsDir.master_key_file d) as [k|].
    + cbv zeta. cbn [fst snd].
      destruct (fold_report (Some k) no_decrypt have (select_rows db limit)
                  (mkLoop (mkStats 0 0 0 0) [] ∅))
        as (Ht & _ & _ & _ & _ & _ & x & He & Hclean).
      cbv zeta in *. cbn [stats total sig_ok chain_ok decrypt_ok errors app] in *.
      intros Herr. rewrite He in Herr. destruct (Hclean Herr) as [Hs Hmk].
      destruct (Hmk ltac:(discriminate)) as [Hc Hd].
      split; [exact Hne|]. split; [lia|]. intros _. split; [lia|].
      intros Hn. specialize (Hd Hn). lia.
    + cbv zeta. cbn [fst snd].
      destruct (fold_report None no_decrypt have (select_rows db limit)
                  (mkLoop (mkStats 0 0 0 0) [MasterKeyNotFound] ∅))
        as (_ & _ & _ & _ & _ & _ & x & He & _).
      cbv zeta in He. cbn [errors] in He. rewrite He. discriminate.
  - cbv zeta. cbn [fst snd].
    destruct (fold_report None no_decrypt have (select_rows db limit)
                (mkLoop (mkStats 0 0 0 0) [] ∅))
      as (Ht & _ & _ & _ & _ & _ & x & He & Hclean).
    cbv zeta in *. cbn [stats total sig_ok chain_ok decrypt_ok errors app] in *.
    intros Herr. rewrite He in Herr. destruct (Hclean Herr) as [Hs _].
    split; [exact Hne|]. split; [lia|]. intros Hcontra. exfalso. apply Hcontra. reflexivity.
Qed.

(** X26. [--limit 0], like no limit at all, checks every row, because the limit
    is tested for truth; so does a negative limit, and a limit at or beyond
    the number of rows. *)
Theorem limit_zero_is_no_limit (db : Database.t) (secrets_dir : option SecretsDir.t)
    (no_decrypt have : bool) (n : Z) :
  n <= 0 \/ Z.of_nat (length (Database.rows db)) <= n ->
  verify_db db secrets_dir (Some n) no_decrypt have
  = verify_db db secrets_dir None no_decrypt have.
Proof.
  intros Hn. unfold verify_db.
  replace (select_rows db (Some n)) with (select_rows db None); [reflexivity|].
  unfold select_rows.
  destruct ((n =? 0) || (n <? 0)) eqn:Hz; [reflexivity|].
  apply orb_false_iff in Hz as [Hz Hneg].
  apply Z.eqb_neq in Hz. apply Z.ltb_ge in Hneg.
  destruct Hn as [Hn|Hn]; [lia|].
  symmetry. apply firstn_all2. lia.
Qed.

(** X27. The associated data is made of the seven stem fields alone: setting
    any other field of a header (the nonce, the chain tag, the signature)
    leaves it unchanged; and the bytes that are signed do not depend on the
    [sig] field. A header that lacks a stem field has no associated data,
    and fails both the chain check and the decryption check. *)
Theorem what_aad_and_signature_cover (h : dict json) (k : string) (v : json) :
  (~ In k stem_keys -> aad_from_header_stem (dict_set k v h) = aad_from_header_stem h)
  /\ header_bytes_for_sig (dict_set "sig" v h) = header_bytes_for_sig h
  /\ (stem_of h = None ->
      forall master_key body ss have,
        fst (check_chain master_key h body ss) = false
        /\ fst (check_decrypt have h body ss) = false).
Proof.
  split; [|split].
  - intros Hk. unfold aad_from_header_stem, stem_of.
    assert (Hpick : forall ks, (forall x, In x ks -> In x stem_keys) ->
                               pick_keys ks (dict_set k v h) = pick_keys ks h).
    { induction ks as [|x ks IH]; intros Hin; [reflexivity|].
      cbn [pick_keys]. rewrite IH by (intros y Hy; apply Hin; right; exact Hy).
      rewrite dict_get_set_other; [reflexivity|].
      intros ->. apply Hk, Hin. left. reflexivity. }
    rewrite Hpick by (intros x Hx; exact Hx). reflexivity.
  - unfold header_bytes_for_sig.
    replace (dict_pop "sig" (dict_set "sig" v h)) with (dict_pop "sig" h); [reflexivity|].
    unfold dict_pop. induction h as [|[k' v'] h IH]; [reflexivity|].
    cbn [dict_set]. destruct ("sig" =? k')%string eqn:Hk; cbn [List.filter fst].
    + rewrite Hk. reflexivity.
    + rewrite Hk. cbn [negb]. f_equal. exact IH.
  - intros Hstem master_key body ss have.
    assert (Haad : aad_from_header_stem h = None).
    { unfold aad_from_header_stem. rewrite Hstem. reflexivity. }
    split.
    + unfold check_chain. rewrite Haad.
      destruct (as_str (dict_get "session" h)) as [sid|]; [|reflexivity].
      destruct (ss !! sid); [reflexivity|].
      destruct (fromhex sid); reflexivity.
    + unfold check_decrypt, decrypt_segment. rewrite Haad.
      destruct (as_str (dict_get "session" h)) as [sid|]; [|reflexivity].
      destruct (ss !! sid); [|reflexivity].
      destruct (as_str (dict_get "suite" h)) as [suite|]; [|reflexivity].
      destruct (as_str (dict_get "hkdf_info" h)); [|reflexivity].
      destruct (match dict_get "prev_tag" h with
                | Some v0 => as_str (Some v0)
                | None => Some (hex (zeros 16))
                end); [|reflexivity].
      destruct (fromhex _); [|reflexivity].
      destruct (String.eqb suite SUITE_CHACHA20P); [reflexivity|].
      destruct (String.eqb suite SUITE_AES_SIV); reflexivity.
Qed.

End Report.

Lemma clean_report_means_all_passed_witness :
  snd (@verify_db Toy.runtime Toy.crypto Cases.one_segment None None false true) = []
  /\ (let st := fst (@verify_db Toy.runtime Toy.crypto Cases.one_segment None None
                       false true) in
      select_rows Cases.one_segment None <> []
      /\ sig_ok st = total st
      /\ (@None SecretsDir.t <> None ->
          chain_ok st = total st /\ (false = false -> decrypt_ok st = total st))).
Proof.
  assert (Hclean : snd (@verify_db Toy.runtime Toy.crypto Cases.one_segment None None
                          false true) = [])
    by (vm_compute; reflexivity).
  split; [exact Hclean|].
  exact (@clean_report_means_all_passed Toy.runtime Toy.crypto Cases.one_segment None None
           false true Hclean).
Defined.

Lemma limit_zero_is_no_limit_witness :
  (0 <= 0 \/ Z.of_nat (length (Database.rows Cases.one_segment)) <= 0)
  /\ @verify_db Toy.runtime Toy.crypto Cases.one_segment None (Some 0) false true
     = @verify_db Toy.runtime Toy.crypto Cases.one_segment None None false true.
Proof.
  assert (Hn : 0 <= 0 \/ Z.of_nat (length (Database.rows Cases.one_segment)) <= 0)
    by (left; discriminate).
  split; [exact Hn|].
  exact (@limit_zero_is_no_limit Toy.runtime Toy.crypto Cases.one_segment None false true
           0 Hn).
Defined.

End ReportFacts.

(** ** The whitelist policy *)

Module PolicyFacts.
Import Observations.
Import Py WhitelistPolicy.

Section Policy.
Context `{PyText}.

Lemma first_match_none (name : string) (pats : list string) :
  first_match name pats = None <-> Forall (fun pat => fnmatch name pat = false) pats.
Proof.
  induction pats as [|pat pats IH]; cbn [first_match].
  - split; [constructor | reflexivity].
  - destruct (fnmatch name pat) eqn:Hm.
    + split; [discriminate|]. intros Hall. inversion Hall; congruence.
    + rewrite IH. split; [intros Hall; constructor; assumption|].
      intros Hall. inversion Hall; assumption.
Qed.

Lemma first_match_some (name : string) (pats : list string) (pat : string) :
  first_match name pats = Some pat -> In pat pats /\ fnmatch name pat = true.
Proof.
  induction pats as [|p pats IH]; cbn [first_match]; [discriminate|].
  destruct (fnmatch name p) eqn:Hm.
  - intros [= <-]. split; [left; reflexivity | exact Hm].
  - intros Hf. destruct (IH Hf) as [Hin Hp]. split; [right; exact Hin | exact Hp].
Qed.

(** X28. Deny patterns win over allow patterns, and what matches neither list
    is refused: an application is allowed exactly when its lower-cased name
    (or "unknown", when there is none) matches no deny pattern and some
    allow pattern. The reason names the first deny pattern that matches,
    else the first allow pattern that does. *)
Theorem deny_wins_default_denies (p : WhitelistPolicy.t) (app_name : option string) :
  let name := str_lower (if truthy_str app_name
                         then match app_name with Some s => s | None => "unknown" end
                         else "unknown") in
  let v := decide p app_name in
  (Verdict.allowed v = true
   <-> Forall (fun pat => fnmatch name pat = false) (deny p)
       /\ Exists (fun pat => fnmatch name pat = true) (allow p))
  /\ (forall pat, first_match name (deny p) = Some pat ->
                  v = Verdict.mk false ("deny:" +:+ pat))
  /\ (Forall (fun pat => fnmatch name pat = false) (deny p) ->
      Forall (fun pat => fnmatch name pat = false) (allow p) ->
      v = Verdict.mk false "default-deny").
Proof.
  cbv zeta. unfold decide.
  set (name := str_lower _).
  split; [|split].
  - destruct (first_match name (deny p)) as [pat|] eqn:Hd.
    + cbn [Verdict.allowed]. split; [discriminate|].
      intros [Hall _]. apply first_match_none in Hall. congruence.
    + apply first_match_none in Hd.
      destruct (first_match name (allow p)) as [pat|] eqn:Ha; cbn [Verdict.allowed].
      * split; [|reflexivity]. intros _. split; [exact Hd|].
        destruct (first_match_some _ _ _ Ha) as [Hin Hm].
        apply List.Exists_exists. exists pat. split; assumption.
      * split; [discriminate|]. intros [_ Hex].
        apply first_match_none in Ha. apply List.Exists_exists in Hex as (pat & Hin & Hm).
        rewrite List.Forall_forall in Ha. rewrite (Ha pat Hin) in Hm. discriminate.
  - intros pat ->. reflexivity.
  - intros Hd Ha. apply first_match_none in Hd, Ha. rewrite Hd, Ha. reflexivity.
Qed.

End Policy.

End PolicyFacts.

(** ** One turn of the consumer loop *)

Module TurnFacts.
Import Observations.
Import Py Json Events Queueing QueueingFacts EffFacts WorldFacts Notions.
Import EmitFacts RuleFacts CommandFacts HookRuntime.

Section Turn.
Context `{PyRuntime} `{Crypto}.

Lemma annotate_kind (ev : Event) (c : ContextState.t) :
  command_bound (snd (annotate ev c)) = command_bound ev
  /\ anomaly_bound (snd (annotate ev c)) = anomaly_bound ev
  /\ t_mono (snd (annotate ev c)) = t_mono ev.
Proof. destruct ev; repeat split. Qed.

(** X29. An event taken from the channel is stamped with the application of
    the latest focus change ("unknown" before the first) unless it is a
    focus change itself, which becomes the current context as of its own
    time stamp; the stamped event is what the writer's buffer receives as a
    record, exactly once: afterwards the buffer is the old one with that
    record appended, or empty because the record went out in a flush. *)
Theorem every_event_is_recorded (utc_now : string) (env : SegmentWriter.Env)
    (ev : Event) (rt : HookRuntime.t) (w : World.t) (db : Database.t) :
  let s' := dispatch utc_now env ev (rt, w, db) in
  let rt' := fst (fst s') in
  let app := AppContext.app_name (ContextState.get_current (ctx rt)) in
  let stamped := match ev with Focus _ => ev | _ => replace_app app ev end in
  let buf := SegmentWriter._buf (seg_writer rt) ++ [to_record utc_now stamped] in
  ContextState.get_current (ctx rt')
    = match ev with
      | Focus f =>
          AppContext.mk (FocusEvent.app_name f) (FocusEvent.pid f) (FocusEvent.title f)
            (t_mono ev)
      | _ => ContextState.get_current (ctx rt)
      end
  /\ match ev with
     | Focus _ => True
     | _ => dict_get "app" (to_record utc_now stamped) = Some (JStr app)
     end
  /\ SegmentWriter._buf (seg_writer rt')
     = if SegmentView.due false env
            (SegmentWriter.set_buf buf (SegmentWriter._next_flush (seg_writer rt))
               (seg_writer rt))
       then [] else buf.
Proof.
  cbv zeta. unfold dispatch.
  set (app := AppContext.app_name (ContextState.get_current (ctx rt))).
  assert (Hann : annotate ev (ctx rt)
                 = (match ev with
                    | Focus f =>
                        ContextState.update (FocusEvent.app_name f) (FocusEvent.pid f)
                          (FocusEvent.title f) (t_mono ev) (ctx rt)
                    | _ => ctx rt
                    end,
                    match ev with Focus _ => ev | _ => replace_app app ev end)).
  { destruct ev; reflexivity. }
  rewrite Hann.
  set (stamped := match ev with Focus _ => ev | _ => replace_app app ev end).
  destruct (PasteClassifier.process stamped (classifier rt, w)) as [r1 [cl w1]].
  destruct (AnomalyEngine.process stamped (anomaly rt, w1)) as [r2 [an w2]].
  pose proof (StoreFacts.flush_buffer false env
                (SegmentWriter.set_buf
                   (SegmentWriter._buf (seg_writer rt) ++ [to_record utc_now stamped])
                   (SegmentWriter._next_flush (seg_writer rt)) (seg_writer rt)) db)
    as Hflush.
  unfold SegmentWriter.add_event, bind, SegmentWriter.update, modify.
  cbn [fst snd].
  destruct (SegmentWriter._flush_if_needed false env _) as [r3 [sw db1]] eqn:Hrun.
  cbn [fst snd seg_writer ctx] in *.
  split; [destruct ev; reflexivity|].
  split; [subst stamped; destruct ev; first [reflexivity | exact I]|].
  exact Hflush.
Qed.

(** X30. What a turn puts back on the channel, when the channel respects its
    bound: at most one command from the classifier, then at most two
    anomalies from the engine; nothing at all for an anomaly or a focus
    change. So the events derived from one input die out: an input can
    lead to a command, a command to an anomaly, an anomaly to nothing. *)
Theorem derived_events_die_out (utc_now : string) (env : SegmentWriter.Env)
    (ev : Event) (rt : HookRuntime.t) (w : World.t) (db : Database.t) :
  queue_wf (World.out_q w) ->
  let s' := dispatch utc_now env ev (rt, w, db) in
  queue_wf (World.out_q (snd (fst s')))
  /\ exists commands anomalies,
       put_by (rt, w, db) s' (commands ++ anomalies)
       /\ (length commands <= command_bound ev)%nat
       /\ forallb is_command commands = true
       /\ (length anomalies <= anomaly_bound ev)%nat
       /\ forallb is_anomaly anomalies = true.
Proof.
  intros Hwf. cbv zeta. unfold dispatch, put_by.
  destruct (annotate ev (ctx rt)) as [ctx1 ev1] eqn:Hann.
  destruct (annotate_kind ev (ctx rt)) as (Hcb & Hab & _). rewrite Hann in Hcb, Hab.
  cbn [snd] in Hcb, Hab.
  destruct (classifier_emits ev1 (classifier rt, w) Hwf)
    as (a1 & [cl w1] & new1 & Hrun1 & Hwf1 & Hem1 & Hlen1 & HP1).
  rewrite Hrun1. cbn [snd] in Hwf1, Hem1.
  destruct (engine_emits ev1 (anomaly rt, w1) Hwf1)
    as (a2 & [an w2] & new2 & Hrun2 & Hwf2 & Hem2 & Hlen2 & HP2).
  rewrite Hrun2. cbn [snd] in Hwf2, Hem2.
  destruct (SegmentWriter.add_event utc_now ev1 env (seg_writer rt, db)) as [r3 [sw db1]].
  cbn [fst snd]. split; [exact Hwf2|].
  exists new1, new2. split; [rewrite Hem2, Hem1, app_assoc; reflexivity|].
  rewrite <- Hcb, <- Hab.
  split; [exact Hlen1|]. split; [exact HP1|]. split; [exact Hlen2 | exact HP2].
Qed.

End Turn.

Lemma derived_events_die_out_witness :
  queue_wf (World.out_q Scenarios.quiet_world)
  /\ (let s' := @dispatch Toy.runtime Toy.crypto "2024-01-01T00:00:00.000+00:00"
                  (Scenarios.toy_env true) (Key Cases.ctrl_v)
                  (Cases.fresh_runtime, Scenarios.quiet_world, Database.empty) in
      queue_wf (World.out_q (snd (fst s')))
      /\ exists commands anomalies,
           put_by (Cases.fresh_runtime, Scenarios.quiet_world, Database.empty) s'
             (commands ++ anomalies)
           /\ (length commands <= command_bound (Key Cases.ctrl_v))%nat
           /\ forallb is_command commands = true
           /\ (length anomalies <= anomaly_bound (Key Cases.ctrl_v))%nat
           /\ forallb is_anomaly anomalies = true).
Proof.
  split; [exact CommandFacts.quiet_world_wf|].
  exact (@derived_events_die_out Toy.runtime Toy.crypto "2024-01-01T00:00:00.000+00:00"
           (Scenarios.toy_env true) (Key Cases.ctrl_v) Cases.fresh_runtime
           Scenarios.quiet_world Database.empty CommandFacts.quiet_world_wf).
Defined.

End TurnFacts.

